(** * AIFitness: the profile, conversation and activity stores, the schedule
    generator, the chat handler and the BMI helper of [ai_fitness.py].

    Definitions, in the order of the source file:
    - [Py]        the Python values and string operations the code relies on;
    - [Bmi]       [calculate_bmi] over binary64 floats;
    - [Sqlite]    the three tables of [init_db] and the SQL statements issued;
    - [App]       the Python functions, the schedule generator and the chat
                  handler, in a state monad over the world they touch;
    - [Scenario]  two small worlds and three endpoints to evaluate them on;
    - [Props]     the notions the properties are stated with.
    Properties: [BmiFacts], [OrderFacts], [StoreFacts], [ScheduleFacts],
    [ChatFacts]. *)

From Stdlib Require Import ZArith Bool List String Ascii Lia Floats DecimalString.
From Stdlib Require Import Sorting.Sorted Sorting.Permutation.
Import ListNotations.

Set Warnings "-inexact-float".

Local Open Scope bool_scope.
Local Open Scope string_scope.
Local Open Scope Z_scope.

(* ================================================================== *)
(** ** Python values and built-ins                                     *)
(* ================================================================== *)

Module Py.

(** A column or variable that may hold [None] is an [option]; the value
    [None] of Python is [None] here. *)

(** Exceptions raised by the arithmetic of [calculate_bmi]. *)
Inductive exn := ZeroDivisionError | OverflowError.

Inductive result (A : Type) :=
| Returns (a : A)
| Raises (e : exn).
Arguments Returns {A} a.
Arguments Raises {A} e.

Definition bind {A B} (r : result A) (k : A -> result B) : result B :=
  match r with
  | Returns a => k a
  | Raises e => Raises e
  end.

(** *** Truthiness ([if x:], [not x]) *)

Definition truthy_str (s : string) : bool :=
  match s with EmptyString => false | String _ _ => true end.

Definition truthy_int (z : Z) : bool := negb (z =? 0).

(** A float is falsy exactly when it compares equal to zero: [0.0] and
    [-0.0] are falsy, [nan] is truthy. *)
Definition truthy_float (f : float) : bool := negb (PrimFloat.eqb f 0%float).

Definition truthy_opt {A} (t : A -> bool) (v : option A) : bool :=
  match v with None => false | Some a => t a end.

(** *** Strings.  A [str] is kept as its UTF-8 bytes. *)

(** [s.startswith(p)] *)
Definition startswith (s p : string) : bool := String.prefix p s.

(** [sep.join(parts)] *)
Definition join (sep : string) (parts : list string) : string :=
  String.concat sep parts.

(** [str(n)] for an [int]. *)
Definition str_int (z : Z) : string := NilZero.string_of_int (Z.to_int z).

(** The characters [str.strip()] removes, i.e. those with [isspace()]:
    U+0009..U+000D, U+001C..U+0020, U+0085, U+00A0, U+1680,
    U+2000..U+200A, U+2028, U+2029, U+202F, U+205F, U+3000, read off the
    UTF-8 bytes.  [skip_space s] drops one such character from the front
    of [s], or returns [None] when [s] does not start with one. *)
Definition ascii_space (n : N) : bool :=
  ((9 <=? n) && (n <=? 13) || (28 <=? n) && (n <=? 32))%N.

Definition skip_space (s : string) : option string :=
  match s with
  | EmptyString => None
  | String a rest =>
      let n := N_of_ascii a in
      if ascii_space n then Some rest else
      match rest with
      | EmptyString => None
      | String b rest2 =>
          let m := N_of_ascii b in
          if ((n =? 194) && ((m =? 133) || (m =? 160)))%N then Some rest2 else
          match rest2 with
          | EmptyString => None
          | String c rest3 =>
              let k := N_of_ascii c in
              if ((n =? 225) && (m =? 154) && (k =? 128)
                  || (n =? 226) && (m =? 128)
                     && ((128 <=? k) && (k <=? 138) || (k =? 168) || (k =? 169)
                         || (k =? 175))
                  || (n =? 226) && (m =? 129) && (k =? 159)
                  || (n =? 227) && (m =? 128) && (k =? 128))%N
              then Some rest3 else None
          end
      end
  end.

(** [isspace_all fuel s]: every character of [s] is white space.  The fuel
    bounds the number of characters looked at; [String.length s] always
    suffices since each step consumes at least one byte. *)
Fixpoint isspace_all (fuel : nat) (s : string) : bool :=
  match s with
  | EmptyString => true
  | String _ _ =>
      match fuel with
      | O => false
      | S fuel' =>
          match skip_space s with
          | Some rest => isspace_all fuel' rest
          | None => false
          end
      end
  end.

(** Truthiness of [s.strip()]: the stripped string is non-empty exactly
    when [s] holds a character that is not white space. *)
Definition truthy_strip (s : string) : bool :=
  negb (isspace_all (String.length s) s).

End Py.

(* ================================================================== *)
(** ** The BMI helper                                                  *)
(* ================================================================== *)

Module Bmi.
Import Py.
Local Open Scope float_scope.

(** Weights and heights are the [float]s the number inputs and the REAL
    columns deliver, or [None]; an [int] argument such as [70] stands for
    the float of the same value, on which Python's mixed arithmetic
    agrees. *)

(** [x / y] on floats: a zero divisor raises. *)
Definition truediv (x y : float) : result float :=
  if PrimFloat.eqb y 0 then Raises ZeroDivisionError else Returns (x / y).

Definition is_finite (x : float) : bool :=
  negb (PrimFloat.is_nan x) && negb (PrimFloat.is_infinity x).

(** [x ** 2].  Python hands the power to the C library's [pow], which is
    not bound to round correctly: its result can lie one unit in the last
    place beside the correctly rounded square (it does for 1.6598).  Here
    the square is the correctly rounded product [x * x]; the two agree
    wherever the square is a float itself, as for 1.75 and for 0.  A finite
    base whose square overflows raises [OverflowError], an underflow
    silently gives zero. *)
Definition pow2 (x : float) : result float :=
  let r := x * x in
  if is_finite x && PrimFloat.is_infinity r then Raises OverflowError
  else Returns r.

(** Nearest integer to [n / d] for [d > 0], ties to the even one. *)
Definition div_half_even (n d : Z) : Z :=
  let q := (n / d)%Z in
  let r := (n mod d)%Z in
  match (2 * r ?= d)%Z with
  | Lt => q
  | Gt => (q + 1)%Z
  | Eq => if Z.even q then q else (q + 1)%Z
  end.

(** [round(x, 1)]: the float nearest to the decimal obtained by rounding
    the exact value of [x] to one digit after the point, ties to even;
    [nan], the infinities and the zeros round to themselves. *)
Definition round1 (x : float) : float :=
  match Prim2SF x with
  | S754_finite s m e =>
      if (0 <=? e)%Z then x else
      match div_half_even (10 * Z.pos m) (2 ^ (- e)) with
      | Z.pos p =>
          SF2Prim (SFdiv prec emax (S754_finite s p 0) (S754_finite false 10 0))
      | _ => SF2Prim (S754_zero s)
      end
  | _ => x
  end.

Definition invalid_input : string := "Enter valid height and weight".

(** The chain of comparisons that picks the category. *)
Definition bmi_category (bmi : float) : string :=
  if bmi <? 18.5 then "Underweight"
  else if (18.5 <=? bmi) && (bmi <? 24.9) then "Normal weight"
  else if (25 <=? bmi) && (bmi <? 29.9) then "Overweight"
  else "Obesity".

(** The guard of the first line: [not weight_kg or not height_cm or
    height_cm <= 0 or weight_kg <= 0].  [or] short-circuits, so the
    comparisons are reached only with two numbers. *)
Definition rejected (weight_kg height_cm : option float) : bool :=
  negb (truthy_opt truthy_float weight_kg)
  || negb (truthy_opt truthy_float height_cm)
  || match height_cm with Some h => h <=? 0 | None => true end
  || match weight_kg with Some w => w <=? 0 | None => true end.

(** [weight_kg / (height_m ** 2)] with [height_m = height_cm / 100]. *)
Definition bmi_of (weight_kg height_cm : float) : result float :=
  let height_m := height_cm / 100 in
  bind (pow2 height_m) (fun sq => truediv weight_kg sq).

Definition calculate_bmi (weight_kg height_cm : option float)
  : result (option float * string) :=
  if rejected weight_kg height_cm then Returns (None, invalid_input)
  else
    match weight_kg, height_cm with
    | Some w, Some h =>
        bind (bmi_of w h) (fun bmi =>
          let category := bmi_category bmi in
          Returns (Some (round1 bmi), category))
    | _, _ => Returns (None, invalid_input)
    end.

(** The two gaps the branch conditions leave between the categories. *)
Definition in_gap (bmi : float) : Prop :=
  ((24.9 <=? bmi) = true /\ (bmi <? 25) = true)
  \/ ((29.9 <=? bmi) = true /\ (bmi <? 30) = true).

End Bmi.

(* ================================================================== *)
(** ** The SQLite store                                                *)
(* ================================================================== *)

Module Sqlite.
Import Py.

(** [CURRENT_TIMESTAMP], in whole seconds.  The stored text
    'YYYY-MM-DD HH:MM:SS' has fixed width, so its text order is the order
    of the seconds. *)
Definition timestamp := Z.

(** The columns of [user_profile] after the key and the name, in the order
    [get_profile_details] selects them. *)
Definition details : Type :=
  option string * option string * option Z * option string
  * option float * option float * option string
  * option string * option string * option string.

Record profile_row := {
  profile_id : Z;
  profile_name : string;
  profile_details : details
}.

Record chat_row := {
  chat_id : Z;
  chat_profile_id : Z;
  chat_timestamp : timestamp;
  role : string;
  content : string
}.

Record log_row := {
  log_id : Z;
  log_profile_id : Z;
  log_timestamp : timestamp;
  log_type : string;
  notes : option string;
  log_weight_kg : option float
}.

(** The database file: each table in rowid order, and for each table the
    largest rowid AUTOINCREMENT has drawn so far ([sqlite_sequence]),
    whether or not a row was stored under it. *)
Record database := {
  user_profile : list profile_row;
  chat_history : list chat_row;
  workout_log : list log_row;
  seq_user_profile : Z;
  seq_chat_history : Z;
  seq_workout_log : Z
}.

Definition empty_database : database :=
  {| user_profile := []; chat_history := []; workout_log := [];
     seq_user_profile := 0; seq_chat_history := 0; seq_workout_log := 0 |}.

(** A connection.  SQLite enforces foreign keys, and with them [ON DELETE
    CASCADE], only on a connection that has run [PRAGMA foreign_keys = ON]. *)
Record connection := { foreign_keys : bool }.

(** [sqlite3.connect(DB_FILE)]: every function of the program opens its own
    connection and runs its statement at once; none sets the pragma, so the
    connection has SQLite's default, foreign keys off. *)
Definition connect : connection := {| foreign_keys := false |}.

Inductive sql_error :=
| IntegrityError (text : string)
| DatabaseError (text : string).

Inductive outcome (A : Type) :=
| Done (a : A)
| Failed (e : sql_error).
Arguments Done {A} a.
Arguments Failed {A} e.

Definition error_text (e : sql_error) : string :=
  match e with IntegrityError t => t | DatabaseError t => t end.

(** The column defaults of [user_profile]. *)
Definition default_details : details :=
  (Some "General Fitness", Some "Beginner", None, None, None, None, None,
   None, None, None).

(** *** ORDER BY: a stable insertion sort; rows that compare equal keep the
    order of the scan, which is what SQLite's merge sorter delivers. *)
Fixpoint insert_by {A} (le : A -> A -> bool) (x : A) (l : list A) : list A :=
  match l with
  | [] => [x]
  | y :: l' => if le x y then x :: l else y :: insert_by le x l'
  end.

Definition order_by {A} (le : A -> A -> bool) (l : list A) : list A :=
  fold_right (insert_by le) [] l.

Definition has_profile (db : database) (pid : Z) : bool :=
  existsb (fun r => profile_id r =? pid) (user_profile db).

Definition has_name (db : database) (name : string) : bool :=
  existsb (fun r => String.eqb (profile_name r) name) (user_profile db).

(** The next rowid of an AUTOINCREMENT key: one more than the largest of the
    recorded sequence and the rowids present. *)
Definition next_rowid (seq : Z) (rowids : list Z) : Z :=
  fold_right Z.max seq rowids + 1.

(** [SELECT id, profile_name FROM user_profile ORDER BY profile_name ASC] *)
Definition select_profiles (db : database) : list (Z * string) :=
  map (fun r => (profile_id r, profile_name r))
      (order_by (fun a b => String.leb (profile_name a) (profile_name b))
                (user_profile db)).

(** [SELECT fitness_goal, ... FROM user_profile WHERE id = ?], [fetchone()] *)
Definition select_details (db : database) (pid : Z) : option details :=
  option_map profile_details
    (find (fun r => profile_id r =? pid) (user_profile db)).

(** [INSERT INTO user_profile (profile_name) VALUES (?)]; the name is
    UNIQUE. *)
Definition insert_profile (db : database) (name : string)
  : outcome (Z * database) :=
  if has_name db name
  then Failed (IntegrityError "UNIQUE constraint failed: user_profile.profile_name")
  else
    let new_id :=
      next_rowid (seq_user_profile db) (map profile_id (user_profile db)) in
    Done (new_id,
          {| user_profile :=
               (user_profile db
                ++ [{| profile_id := new_id; profile_name := name;
                       profile_details := default_details |}])%list;
             chat_history := chat_history db;
             workout_log := workout_log db;
             seq_user_profile := new_id;
             seq_chat_history := seq_chat_history db;
             seq_workout_log := seq_workout_log db |}).

(** [INSERT OR IGNORE INTO user_profile (profile_name) VALUES ('Default')].
    SQLite draws the new rowid before it meets the UNIQUE conflict and
    writes [sqlite_sequence] back when the statement ends, so an insert that
    is ignored adds no row and still uses up a key.  An insert that fails
    with an error is rolled back with its sequence, see [insert_profile]. *)
Definition insert_or_ignore_default (db : database) : database :=
  match insert_profile db "Default" with
  | Done (_, db') => db'
  | Failed _ =>
      {| user_profile := user_profile db;
         chat_history := chat_history db;
         workout_log := workout_log db;
         seq_user_profile :=
           next_rowid (seq_user_profile db)
                      (map profile_id (user_profile db));
         seq_chat_history := seq_chat_history db;
         seq_workout_log := seq_workout_log db |}
  end.

(** What a REAL column holds after a Python float, or [None], is bound to
    it: SQLite has no NaN and stores NULL in its place, and it keeps a real
    with an integer value as that integer, which loses the sign of a
    negative zero.  Every other float, the infinities included, is read
    back as it was written. *)
Definition real_column (x : option float) : option float :=
  match x with
  | None => None
  | Some f =>
      if PrimFloat.is_nan f then None
      else if PrimFloat.is_zero f then Some 0%float
      else Some f
  end.

(** The ten values of an UPDATE as the columns hold them: [height_cm] and
    [weight_kg] are REAL, the others keep the bound text or integer. *)
Definition stored_details (d : details) : details :=
  let '(goal, experience, age, sex, height, weight,
        activity, diet, equip, notes_) := d in
  (goal, experience, age, sex, real_column height, real_column weight,
   activity, diet, equip, notes_).

(** [UPDATE user_profile SET ... WHERE id = ?] *)
Definition update_profile_row (db : database) (pid : Z) (d : details)
  : database :=
  {| user_profile :=
       map (fun r =>
              if profile_id r =? pid
              then {| profile_id := profile_id r;
                      profile_name := profile_name r;
                      profile_details := stored_details d |}
              else r)
           (user_profile db);
     chat_history := chat_history db;
     workout_log := workout_log db;
     seq_user_profile := seq_user_profile db;
     seq_chat_history := seq_chat_history db;
     seq_workout_log := seq_workout_log db |}.

(** [DELETE FROM user_profile WHERE id = ?].  The rows of [chat_history] and
    [workout_log] that reference the profile go with it (ON DELETE CASCADE)
    when the connection enforces foreign keys, and stay otherwise. *)
Definition delete_profile_row (c : connection) (db : database) (pid : Z)
  : database :=
  let keep_chat r := negb (foreign_keys c && (chat_profile_id r =? pid)) in
  let keep_log r := negb (foreign_keys c && (log_profile_id r =? pid)) in
  {| user_profile :=
       filter (fun r => negb (profile_id r =? pid)) (user_profile db);
     chat_history := filter keep_chat (chat_history db);
     workout_log := filter keep_log (workout_log db);
     seq_user_profile := seq_user_profile db;
     seq_chat_history := seq_chat_history db;
     seq_workout_log := seq_workout_log db |}.

(** [SELECT role, content FROM chat_history WHERE profile_id = ?
     ORDER BY timestamp ASC], as rows. *)
Definition select_chat (db : database) (pid : Z) : list chat_row :=
  order_by (fun a b => chat_timestamp a <=? chat_timestamp b)
           (filter (fun r => chat_profile_id r =? pid) (chat_history db)).

(** [INSERT INTO chat_history (profile_id, role, content) VALUES (?, ?, ?)];
    the timestamp column takes its default, the current time. *)
Definition insert_chat (c : connection) (now : timestamp) (db : database)
    (pid : Z) (r content_ : string) : outcome database :=
  if foreign_keys c && negb (has_profile db pid)
  then Failed (IntegrityError "FOREIGN KEY constraint failed")
  else
    let new_id :=
      next_rowid (seq_chat_history db) (map chat_id (chat_history db)) in
    Done {| user_profile := user_profile db;
            chat_history :=
              (chat_history db
               ++ [{| chat_id := new_id; chat_profile_id := pid;
                      chat_timestamp := now; role := r;
                      content := content_ |}])%list;
            workout_log := workout_log db;
            seq_user_profile := seq_user_profile db;
            seq_chat_history := new_id;
            seq_workout_log := seq_workout_log db |}.

(** [DELETE FROM chat_history WHERE profile_id = ?] *)
Definition delete_chat (db : database) (pid : Z) : database :=
  {| user_profile := user_profile db;
     chat_history :=
       filter (fun r => negb (chat_profile_id r =? pid)) (chat_history db);
     workout_log := workout_log db;
     seq_user_profile := seq_user_profile db;
     seq_chat_history := seq_chat_history db;
     seq_workout_log := seq_workout_log db |}.

(** [INSERT INTO workout_log (profile_id, log_type, notes, weight_kg)
     VALUES (?, ?, ?, ?)]; [weight_kg] is a REAL column. *)
Definition insert_log (c : connection) (now : timestamp) (db : database)
    (pid : Z) (type_ : string) (notes_ : option string)
    (weight : option float) : outcome database :=
  if foreign_keys c && negb (has_profile db pid)
  then Failed (IntegrityError "FOREIGN KEY constraint failed")
  else
    let new_id :=
      next_rowid (seq_workout_log db) (map log_id (workout_log db)) in
    Done {| user_profile := user_profile db;
            chat_history := chat_history db;
            workout_log :=
              (workout_log db
               ++ [{| log_id := new_id; log_profile_id := pid;
                      log_timestamp := now; log_type := type_;
                      notes := notes_;
                      log_weight_kg := real_column weight |}])%list;
            seq_user_profile := seq_user_profile db;
            seq_chat_history := seq_chat_history db;
            seq_workout_log := new_id |}.

End Sqlite.

(* ================================================================== *)
(** ** The application: store functions, schedule generator, chat      *)
(* ================================================================== *)

Module App.
Import Py Sqlite.

(** A chat message, the dict [{"role": ..., "content": ...}]. *)
Record message := { msg_role : string; msg_content : string }.

(** The keyword arguments of [client.chat.completions.create]. *)
Record request := {
  model : string;
  messages : list message;
  temperature : float;
  max_tokens : Z;
  top_p : Z;
  stream : bool
}.

(** What the call can raise: a [GroqError] with its [status_code], its
    [message] and its [str()], or any other exception with its type name and
    its [str()]. *)
Inductive api_error :=
| GroqError (status_code : Z) (message text : string)
| OtherError (type_name text : string).

(** What the hosted endpoint answers: a whole completion (its
    [choices[0].message.content]), a stream of chunks (each chunk's
    [choices[0].delta.content], possibly [None]) that ends normally or breaks
    with an exception, or an exception raised by the call itself. *)
Inductive reply :=
| Completion (content : string)
| Streaming (deltas : list (option string)) (broken : option api_error)
| Raise (e : api_error).

Definition groq : Type := request -> reply.

(** What the program writes besides the store: [print] and [st.error]. *)
Inductive output :=
| Print (line : string)
| StError (text : string).

(** Everything the functions read or change: the database file, the clock,
    the API client, the session state, the requests sent so far and the
    lines written. *)
Record world := {
  db : database;
  now : timestamp;
  client : option groq;
  current_profile_id : Z;
  session_messages : list message;
  temperature_slider : option float;
  sent : list request;
  console : list output
}.

Definition set_db (w : world) (d : database) : world :=
  {| db := d; now := now w; client := client w;
     current_profile_id := current_profile_id w;
     session_messages := session_messages w;
     temperature_slider := temperature_slider w;
     sent := sent w; console := console w |}.

Definition set_messages (w : world) (l : list message) : world :=
  {| db := db w; now := now w; client := client w;
     current_profile_id := current_profile_id w;
     session_messages := l;
     temperature_slider := temperature_slider w;
     sent := sent w; console := console w |}.

Definition set_client (w : world) (c : option groq) : world :=
  {| db := db w; now := now w; client := c;
     current_profile_id := current_profile_id w;
     session_messages := session_messages w;
     temperature_slider := temperature_slider w;
     sent := sent w; console := console w |}.

Definition add_sent (w : world) (r : request) : world :=
  {| db := db w; now := now w; client := client w;
     current_profile_id := current_profile_id w;
     session_messages := session_messages w;
     temperature_slider := temperature_slider w;
     sent := (sent w ++ [r])%list; console := console w |}.

Definition add_output (w : world) (o : output) : world :=
  {| db := db w; now := now w; client := client w;
     current_profile_id := current_profile_id w;
     session_messages := session_messages w;
     temperature_slider := temperature_slider w;
     sent := sent w; console := (console w ++ [o])%list |}.

(** Time passing between two actions; the clock does not run backwards. *)
Definition elapse (seconds : N) (w : world) : world :=
  {| db := db w; now := now w + Z.of_N seconds; client := client w;
     current_profile_id := current_profile_id w;
     session_messages := session_messages w;
     temperature_slider := temperature_slider w;
     sent := sent w; console := console w |}.

(** *** The state monad of the program *)

Definition M (A : Type) : Type := world -> A * world.

Definition ret {A} (a : A) : M A := fun w => (a, w).

Definition bind {A B} (m : M A) (k : A -> M B) : M B :=
  fun w => let (a, w') := m w in k a w'.

Declare Scope app_scope.
Delimit Scope app_scope with app.
Notation "x <- m ;; k" := (bind m (fun x => k))
  (at level 100, m at next level, right associativity) : app_scope.
Notation "m ;; k" := (bind m (fun _ => k))
  (at level 100, right associativity) : app_scope.
Local Open Scope app_scope.

Definition print (line : string) : M unit :=
  fun w => (tt, add_output w (Print line)).

Definition st_error (text : string) : M unit :=
  fun w => (tt, add_output w (StError text)).

(** [with sqlite3.connect(DB_FILE) as conn: cursor.execute(...)]: the
    statement runs on a fresh connection at the current time; its effect is
    committed when it succeeds and dropped when it raises. *)
Definition execute {A} (stmt : connection -> timestamp -> database
                                -> outcome (A * database)) : M (outcome A) :=
  fun w =>
    match stmt connect (now w) (db w) with
    | Done (a, d) => (Done a, set_db w d)
    | Failed e => (Failed e, w)
    end.

Definition GROQ_MODEL : string :=
  "meta-llama/llama-4-maverick-17b-128e-instruct".

Definition nl : string := String (ascii_of_nat 10) EmptyString.

(** [f"{x}"] for a text column that may be NULL. *)
Definition str_opt (v : option string) : string :=
  match v with Some s => s | None => "None" end.

(** *** Database functions *)

Definition init_db : M unit :=
  _ <- execute (fun _ _ d => Done (tt, insert_or_ignore_default d)) ;;
  ret tt.

Definition get_all_profiles : M (list (Z * string)) :=
  fun w => (select_profiles (db w), w).

Definition get_profile_details (profile_id : Z) : M details :=
  fun w =>
    match select_details (db w) profile_id with
    | Some profile => (profile, w)
    | None => (default_details, w)
    end.

Definition create_profile (profile_name : string) : M (option Z) :=
  r <- execute (fun _ _ d => insert_profile d profile_name) ;;
  match r with
  | Done new_id => ret (Some new_id)
  | Failed (IntegrityError _) =>
      print ("Profile name '" ++ profile_name ++ "' already exists.") ;;
      ret None
  | Failed e =>
      print ("Error creating profile: " ++ error_text e) ;;
      ret None
  end.

Definition update_profile (profile_id : Z) (goal experience : option string)
    (age : option Z) (sex : option string) (height weight : option float)
    (activity diet equip notes : option string) : M bool :=
  r <- execute (fun _ _ d =>
                  Done (tt, update_profile_row d profile_id
                              (goal, experience, age, sex, height, weight,
                               activity, diet, equip, notes))) ;;
  match r with
  | Done _ => ret true
  | Failed e =>
      print ("Error updating profile " ++ str_int profile_id ++ ": "
             ++ error_text e) ;;
      ret false
  end.

Definition delete_profile (profile_id : Z) : M bool :=
  profiles <- get_all_profiles ;;
  if (Z.of_nat (List.length profiles) <=? 1)
  then st_error "Cannot delete the last profile." ;; ret false
  else
    r <- execute (fun c _ d => Done (tt, delete_profile_row c d profile_id)) ;;
    match r with
    | Done _ => ret true
    | Failed e =>
        print ("Error deleting profile " ++ str_int profile_id ++ ": "
               ++ error_text e) ;;
        ret false
    end.

(** [{"role": role, "content": content}] for a selected row. *)
Definition as_message (row : chat_row) : message :=
  {| msg_role := role row; msg_content := content row |}.

Definition load_chat_history (profile_id : Z) : M (list message) :=
  r <- execute (fun _ _ d => Done (select_chat d profile_id, d)) ;;
  match r with
  | Done history => ret (map as_message history)
  | Failed e =>
      print ("Error loading chat history for profile "
             ++ str_int profile_id ++ ": " ++ error_text e) ;;
      ret []
  end.

Definition save_chat_message (profile_id : Z) (role_ content_ : string)
  : M bool :=
  r <- execute (fun c t d =>
                  match insert_chat c t d profile_id role_ content_ with
                  | Done d' => Done (tt, d')
                  | Failed e => Failed e
                  end) ;;
  match r with
  | Done _ => ret true
  | Failed e =>
      print ("Error saving chat message for profile "
             ++ str_int profile_id ++ ": " ++ error_text e) ;;
      ret false
  end.

Definition clear_profile_history (profile_id : Z) : M bool :=
  r <- execute (fun _ _ d => Done (tt, delete_chat d profile_id)) ;;
  match r with
  | Done _ => ret true
  | Failed e =>
      print ("Error clearing history for profile "
             ++ str_int profile_id ++ ": " ++ error_text e) ;;
      ret false
  end.

Definition log_entry (profile_id : Z) (log_type_ : string)
    (notes_ : option string) (weight_kg : option float) : M bool :=
  r <- execute (fun c t d =>
                  match insert_log c t d profile_id log_type_ notes_ weight_kg with
                  | Done d' => Done (tt, d')
                  | Failed e => Failed e
                  end) ;;
  match r with
  | Done _ => ret true
  | Failed e =>
      print ("Error logging entry for profile "
             ++ str_int profile_id ++ ": " ++ error_text e) ;;
      ret false
  end.

(** *** Schedule generation *)

(** [x if x else fallback] inside an f-string. *)
Definition or_else {A} (t : A -> bool) (show : A -> string)
    (v : option A) (fallback : string) : string :=
  match v with
  | Some a => if t a then show a else fallback
  | None => fallback
  end.

Definition schedule_prompt (d : details) : string :=
  let '(goal, experience, age, sex, height, weight, activity, diet, equip,
        notes) := d in
  "Create a detailed 4-week fitness schedule tailored for a user with the following profile:"
  ++ nl ++ "        - Goal: " ++ str_opt goal
  ++ nl ++ "        - Experience Level: " ++ str_opt experience
  ++ nl ++ "        - Age: " ++ or_else truthy_int str_int age "Not specified"
  ++ nl ++ "        - Sex: " ++ or_else truthy_str id sex "Not specified"
  ++ nl ++ "        - Activity Level: "
  ++ or_else truthy_str id activity "Not specified"
  ++ nl ++ "        - Available Equipment: "
  ++ or_else truthy_str id equip "Basic bodyweight/home equipment"
  ++ nl ++ "        - General Notes: " ++ or_else truthy_str id notes "None"
  ++ nl
  ++ nl ++ "        **IMPORTANT:** Structure the output using Markdown. Use level 2 headings (##) for each week (e.g., `## Week 1`). Use level 3 headings (###) for each day within the week (e.g., `### Monday - Workout A`, `### Tuesday - Rest`). Use bullet points for exercises, sets, reps, and rest periods. Include brief 'Warm-up' and 'Cool-down' sections for workout days. Ensure the plan aligns with the user's goal and experience level."
  ++ nl ++ "        ".

Definition schedule_request (d : details) : request :=
  {| model := GROQ_MODEL;
     messages :=
       [ {| msg_role := "system";
            msg_content := "You are a helpful assistant that creates fitness schedules formatted in Markdown." |};
         {| msg_role := "user"; msg_content := schedule_prompt d |} ];
     temperature := 0.7%float;
     max_tokens := 2000;
     top_p := 1;
     stream := false |}.

(** [client.chat.completions.create(...)]: the request goes out and the
    endpoint's reply comes back. *)
Definition create (c : groq) (r : request) : M reply :=
  fun w => (c r, add_sent w r).

Definition schedule_lead_in : string :=
  "**📅 Here is a sample 4-week schedule based on your profile:**".

Definition schedule_message (schedule_content : string) : string :=
  schedule_lead_in ++ nl ++ "[SCHEDULE_START]" ++ nl ++ schedule_content
  ++ nl ++ "[SCHEDULE_END]".

(** The two handlers that close the [try] of [generate_and_save_schedule]. *)
Definition schedule_failed (e : api_error) : M bool :=
  match e with
  | GroqError _ message_ text =>
      print ("Groq API error during schedule generation: " ++ text) ;;
      st_error ("API Error generating schedule: " ++ message_) ;;
      ret false
  | OtherError _ text =>
      print ("Error in generate_and_save_schedule: " ++ text) ;;
      st_error "An unexpected error occurred while generating the schedule." ;;
      ret false
  end.

(** The details are a tuple of ten fields, which is never falsy, so the
    [if not details] branch is dead and left out. *)
Definition generate_and_save_schedule (profile_id : Z) : M bool :=
  print ("Attempting to generate schedule for profile_id: "
         ++ str_int profile_id) ;;
  details_ <- get_profile_details profile_id ;;
  c <- (fun w => (client w, w)) ;;
  match c with
  | None => st_error "Groq client not initialized." ;; ret false
  | Some c =>
      print ("Sending schedule generation request for profile "
             ++ str_int profile_id ++ "...") ;;
      completion <- create c (schedule_request details_) ;;
      match completion with
      | Completion schedule_content =>
          print ("Schedule content received for profile "
                 ++ str_int profile_id ++ ".") ;;
          saved <- save_chat_message profile_id "assistant"
                     (schedule_message schedule_content) ;;
          if saved
          then print ("Schedule saved successfully for profile "
                      ++ str_int profile_id ++ ".") ;;
               ret true
          else st_error "Failed to save the generated schedule message." ;;
               ret false
      | Raise e => schedule_failed e
      | Streaming _ _ =>
          (* a stream has no [choices] attribute *)
          schedule_failed
            (OtherError "AttributeError"
               "'Stream' object has no attribute 'choices'")
      end
  end.

(** *** The chat handler *)

Section Chat.

(** The fixed persona text sent as the system message. *)
Variable SYSTEM_PROMPT : string.

(** [str(x)] for a float, as the f-strings of the preamble render heights
    and weights. *)
Variable str_float : float -> string.

(** [if cond: context_parts.append(part)] *)
Definition append_if (cond : bool) (parts : list string) (part : string)
  : list string :=
  if cond then (parts ++ [part])%list else parts.

Definition show_opt {A} (show : A -> string) (v : option A) : string :=
  match v with Some a => show a | None => "None" end.

Definition context_parts (d : details) : list string :=
  let '(ctx_goal, ctx_experience, ctx_age, ctx_sex, ctx_height, ctx_weight,
        ctx_activity, ctx_diet, ctx_equip, ctx_notes) := d in
  let parts := [ "Goal: " ++ str_opt ctx_goal;
                 "Experience: " ++ str_opt ctx_experience ] in
  let parts := append_if (truthy_opt truthy_int ctx_age) parts
                 ("Age: " ++ show_opt str_int ctx_age) in
  let parts := append_if (truthy_opt truthy_str ctx_sex) parts
                 ("Sex: " ++ str_opt ctx_sex) in
  let parts := append_if (truthy_opt truthy_float ctx_height) parts
                 ("Height: " ++ show_opt str_float ctx_height ++ " cm") in
  let parts := append_if (truthy_opt truthy_float ctx_weight) parts
                 ("Weight: " ++ show_opt str_float ctx_weight ++ " kg") in
  let parts := append_if (truthy_opt truthy_str ctx_activity) parts
                 ("Activity Level: " ++ str_opt ctx_activity) in
  let parts := append_if (truthy_opt truthy_str ctx_diet) parts
                 ("Dietary Notes: " ++ str_opt ctx_diet) in
  let parts := append_if (truthy_opt truthy_str ctx_equip) parts
                 ("Equipment: " ++ str_opt ctx_equip) in
  let parts := append_if (truthy_opt truthy_str ctx_notes) parts
                 ("General Notes: " ++ str_opt ctx_notes) in
  parts.

Definition context_string (d : details) : string :=
  join "; " (context_parts d).

(** The f-string escapes its backslashes, so the two line breaks reach the
    model as the four characters backslash, n, backslash, n. *)
Definition contextual_prompt (d : details) (prompt : string) : string :=
  "(My Profile: " ++ context_string d ++ ")\n\n" ++ prompt.

Definition as_api_message (m : message) : message :=
  {| msg_role := msg_role m; msg_content := msg_content m |}.

(** The [for chunk in streaming_response] loop: chunks without content are
    skipped, the others are appended. *)
Definition accumulate (deltas : list (option string)) : string :=
  fold_left (fun response_stream chunk_content =>
               if truthy_opt truthy_str chunk_content
               then response_stream ++ str_opt chunk_content
               else response_stream)
            deltas "".

(** The two [except] clauses of the chat call: each reports the error and
    leaves the text that stands in for the response. *)
Definition chat_failed (e : api_error) : M string :=
  match e with
  | GroqError status_code_ message_ text =>
      st_error ("Groq API Error: " ++ str_int status_code_ ++ " - "
                ++ message_) ;;
      print ("Groq API Error Details: " ++ text) ;;
      ret ("Sorry, I encountered an API error. Please check the console or logs for details: "
           ++ message_)
  | OtherError type_name_ text =>
      st_error ("An unexpected error occurred: " ++ type_name_ ++ " - "
                ++ text) ;;
      print ("Unexpected Error Details: " ++ text) ;;
      ret ("Sorry, an unexpected error occurred: " ++ text)
  end.

(** The [try] block: the streaming call and the loop over its chunks.
    [full_response] is assigned only after the whole stream has been read,
    so a stream that breaks leaves the handler's text. *)
Definition stream_completion (api_messages : list message) : M string :=
  c <- (fun w => (client w, w)) ;;
  t <- (fun w => (temperature_slider w, w)) ;;
  match c with
  | None =>
      chat_failed (OtherError "AttributeError"
                     "'NoneType' object has no attribute 'chat'")
  | Some c =>
      streaming_response <-
        create c {| model := GROQ_MODEL;
                    messages := api_messages;
                    temperature :=
                      match t with Some v => v | None => 0.7%float end;
                    max_tokens := 2000;
                    top_p := 1;
                    stream := true |} ;;
      match streaming_response with
      | Streaming deltas None => ret (accumulate deltas)
      | Streaming _ (Some e) => chat_failed e
      | Raise e => chat_failed e
      | Completion _ =>
          (* iterating a whole completion yields no chunk objects *)
          chat_failed (OtherError "AttributeError"
                         "'tuple' object has no attribute 'choices'")
      end
  end.

(** The condition under which the response is written to the store. *)
Definition persisted (full_response : string) : bool :=
  truthy_str full_response && truthy_strip full_response
  && negb (startswith full_response "Sorry, I encountered an").

Definition append_message (m : message) : M unit :=
  fun w => (tt, set_messages w (session_messages w ++ [m])%list).

(** The last statement of the handler: the response goes to the store and
    to the transcript, or an empty one is reported on the console, or
    neither. *)
Definition finalize (pid : Z) (full_response : string) : M unit :=
  if persisted full_response then
    _ <- save_chat_message pid "assistant" full_response ;;
    append_message {| msg_role := "assistant";
                      msg_content := full_response |}
  else if negb (truthy_str full_response)
          || negb (truthy_strip full_response)
  then print "Received empty or whitespace-only response from API."
  else ret tt.

(** [if prompt := st.chat_input(...)]: the body runs on a non-empty
    prompt. *)
Definition handle_chat_input (prompt : string) : M unit :=
  if truthy_str prompt then
    pid <- (fun w => (current_profile_id w, w)) ;;
    _ <- save_chat_message pid "user" prompt ;;
    append_message {| msg_role := "user"; msg_content := prompt |} ;;
    history <- (fun w => (session_messages w, w)) ;;
    let history_to_send := removelast history in
    let api_messages :=
      ({| msg_role := "system"; msg_content := SYSTEM_PROMPT |}
       :: map as_api_message history_to_send)%list in
    d <- get_profile_details pid ;;
    let api_messages :=
      (api_messages
       ++ [{| msg_role := "user";
              msg_content := contextual_prompt d prompt |}])%list in
    full_response <- stream_completion api_messages ;;
    finalize pid full_response
  else ret tt.

End Chat.

End App.

(* ================================================================== *)
(** ** Two small worlds, built with the program's own functions        *)
(* ================================================================== *)

Module Scenario.
Import Sqlite App.

(** First run: an empty database file, then [init_db]. *)
Definition boot : world :=
  snd (init_db {| db := empty_database; now := 1000; client := None;
                  current_profile_id := 1; session_messages := [];
                  temperature_slider := None; sent := []; console := [] |}).

(** A second profile, "Bob", with one turn and one weigh-in of its own. *)
Definition two_profiles : world :=
  let w := snd (create_profile "Bob" boot) in
  let w := snd (save_chat_message 2 "user" "hi" w) in
  let w := snd (log_entry 2 "Weigh-in" (Some "") (Some 80%float) w) in
  elapse 5 w.

(** An endpoint that answers a plain request with a schedule and a streamed
    one with three chunks, the middle one without content. *)
Definition answering : groq :=
  fun r =>
    if stream r then Streaming [Some "Keep "; None; Some "going!"] None
    else Completion "Week 1 plan...".

(** An endpoint whose stream breaks on a chunk without choices. *)
Definition breaking : groq :=
  fun _ => Streaming [Some "Keep "]
             (Some (OtherError "IndexError" "list index out of range")).

(** An endpoint that turns the request down with a status error. *)
Definition refusing : groq :=
  fun _ => Raise (GroqError 429 "Rate limit reached"
                    "Error code: 429 - Rate limit reached").

End Scenario.

(* ================================================================== *)
(** ** Notions used to state the properties                            *)
(* ================================================================== *)

Module Props.
Import Py Sqlite App.
Local Open Scope app_scope.

(** The category bounds of [calculate_bmi] all have binary exponent [-48];
    a float with that exponent and mantissa [m]. *)
Definition sf48 (m : positive) : spec_float := S754_finite false m (-48).

(** No stored turn is stamped later than the clock reads.  Every function
    of the program keeps this, and so does the passing of time. *)
Definition no_future_turns (w : world) : Prop :=
  Forall (fun r => chat_timestamp r <= now w) (chat_history (db w)).

Definition keeps_turns_in_past {A} (m : M A) : Prop :=
  forall w, no_future_turns w -> no_future_turns (snd (m w)).

Definition by_timestamp (a b : chat_row) : bool :=
  chat_timestamp a <=? chat_timestamp b.

Section Handler.
Variable SYSTEM_PROMPT : string.
Variable str_float : float -> string.

(** The message list the handler sends: the system prompt, the transcript
    as it stood before the prompt, then the prompt with its preamble. *)
Definition outbound (w : world) (prompt : string) : list message :=
  ({| msg_role := "system"; msg_content := SYSTEM_PROMPT |}
   :: map as_api_message (session_messages w)
   ++ [{| msg_role := "user";
          msg_content :=
            contextual_prompt str_float
              (fst (get_profile_details (current_profile_id w) w))
              prompt |}])%list.

(** The world in which the completion is requested: the user's turn is
    stored and appended to the transcript. *)
Definition submitted (w : world) (prompt : string) : world :=
  let w1 := snd (save_chat_message (current_profile_id w) "user" prompt w) in
  set_messages w1
    (session_messages w1
     ++ [{| msg_role := "user"; msg_content := prompt |}])%list.

(** The entry of one optional attribute, as the specification words it:
    present only if the attribute is set, that is, holds a value that is
    neither [None] nor empty nor zero. *)
Definition entry {A} (is_set : A -> bool) (render : A -> string)
    (v : option A) : list string :=
  match v with
  | Some a => if is_set a then [render a] else []
  | None => []
  end.

Definition optional_entries (d : details) : list string :=
  let '(goal, experience, age, sex, height, weight, activity, diet, equip,
        notes) := d in
  List.concat
    [ entry truthy_int (fun a => "Age: " ++ str_int a) age;
      entry truthy_str (fun s => "Sex: " ++ s) sex;
      entry truthy_float (fun h => "Height: " ++ str_float h ++ " cm") height;
      entry truthy_float (fun x => "Weight: " ++ str_float x ++ " kg") weight;
      entry truthy_str (fun s => "Activity Level: " ++ s) activity;
      entry truthy_str (fun s => "Dietary Notes: " ++ s) diet;
      entry truthy_str (fun s => "Equipment: " ++ s) equip;
      entry truthy_str (fun s => "General Notes: " ++ s) notes ].

End Handler.

End Props.

(* ================================================================== *)
(** ** Python dicts                                                    *)
(* ================================================================== *)

Module Dict.

(** A [dict] with integer keys, in insertion order: assigning to a key that
    is present replaces its value where it stands, assigning to a new key
    appends it. *)
Fixpoint dict_set {V} (k : Z) (v : V) (d : list (Z * V)) : list (Z * V) :=
  match d with
  | [] => [(k, v)]
  | (k', v') :: d' =>
      if k' =? k then (k', v) :: d' else (k', v') :: dict_set k v d'
  end.

Fixpoint dict_get {V} (k : Z) (d : list (Z * V)) : option V :=
  match d with
  | [] => None
  | (k', v') :: d' => if k' =? k then Some v' else dict_get k d'
  end.

(** [dict(pairs)] and [{k: v for k, v in pairs}]: the pairs are assigned
    one after the other. *)
Definition dict_of {V} (pairs : list (Z * V)) : list (Z * V) :=
  fold_left (fun d kv => dict_set (fst kv) (snd kv) d) pairs [].

Definition keys {V} (d : list (Z * V)) : list Z := map fst d.

End Dict.

(* ================================================================== *)
(** ** The activity log: recent entries and weight history             *)
(* ================================================================== *)

Module Logs.
Import Py Sqlite App Dict.
Local Open Scope app_scope.

(** [LIMIT ?]: a negative limit puts no bound on the rows returned. *)
Definition limit_rows {A} (limit : Z) (rows : list A) : list A :=
  if limit <? 0 then rows else firstn (Z.to_nat limit) rows.

Definition of_profile (pid : Z) (r : log_row) : bool := log_profile_id r =? pid.

Definition newest_first (a b : log_row) : bool :=
  log_timestamp b <=? log_timestamp a.

(** [SELECT timestamp, log_type, notes, weight_kg FROM workout_log
     WHERE profile_id = ? ORDER BY timestamp DESC LIMIT ?], as rows. *)
Definition select_recent_logs (d : database) (pid limit : Z) : list log_row :=
  limit_rows limit
    (order_by newest_first (filter (of_profile pid) (workout_log d))).

Definition log_tuple : Type :=
  timestamp * string * option string * option float.

Definition as_tuple (r : log_row) : log_tuple :=
  (log_timestamp r, log_type r, notes r, log_weight_kg r).

(** [get_recent_logs(profile_id, limit=10)]; a call without the second
    argument is [get_recent_logs profile_id 10]. *)
Definition get_recent_logs (profile_id limit : Z) : M (list log_tuple) :=
  r <- execute (fun _ _ d =>
                  Done (map as_tuple (select_recent_logs d profile_id limit),
                        d)) ;;
  match r with
  | Done logs => ret logs
  | Failed e =>
      print ("Error getting recent logs for profile "
             ++ str_int profile_id ++ ": " ++ error_text e) ;;
      ret []
  end.

(** The weigh-in of a row: its timestamp and weight, when the row belongs
    to the profile and its weight is not NULL. *)
Definition weighed (pid : Z) (r : log_row) : list (timestamp * float) :=
  if log_profile_id r =? pid
  then match log_weight_kg r with
       | Some w => [(log_timestamp r, w)]
       | None => []
       end
  else [].

(** [SELECT timestamp, weight_kg FROM workout_log
     WHERE profile_id = ? AND weight_kg IS NOT NULL ORDER BY timestamp ASC] *)
Definition select_weight_history (d : database) (pid : Z)
  : list (timestamp * float) :=
  order_by (fun a b => fst a <=? fst b) (flat_map (weighed pid) (workout_log d)).

(** [get_weight_history]: the dict comprehension keyed by the parsed
    timestamps.  The stored text is the one CURRENT_TIMESTAMP wrote, which
    [strptime] reads back to the second it stands for. *)
Definition get_weight_history (profile_id : Z) : M (list (timestamp * float)) :=
  r <- execute (fun _ _ d => Done (select_weight_history d profile_id, d)) ;;
  match r with
  | Done history => ret (dict_of history)
  | Failed e =>
      print ("Error getting weight history for profile "
             ++ str_int profile_id ++ ": " ++ error_text e) ;;
      ret []
  end.

End Logs.

(* ================================================================== *)
(** ** Page-level code: option indices, chat start-up, the buttons     *)
(* ================================================================== *)

Module Page.
Import Py Sqlite App Dict.
Local Open Scope app_scope.

(** [options.index(value)]: the position of the first occurrence. *)
Fixpoint index_of (value : string) (options : list string) : option nat :=
  match options with
  | [] => None
  | o :: rest =>
      if String.eqb o value then Some O
      else option_map S (index_of value rest)
  end.

(** [get_option_index(options, value, default=0)]; the value read from the
    store may be [None], which is in no list of options. *)
Definition get_option_index (options : list string) (value : option string)
    (default : nat) : nat :=
  match value with
  | Some v =>
      match index_of v options with
      | Some i => i
      | None => default
      end
  | None => default
  end.

Definition experience_options : list string :=
  ["Beginner"; "Intermediate"; "Advanced"].

Definition sex_options : list string :=
  ["Prefer not to say"; "Male"; "Female"; "Other"].

Definition activity_options : list string :=
  ["Sedentary (little to no exercise)";
   "Lightly Active (light exercise/sports 1-3 days/week)";
   "Moderately Active (moderate exercise/sports 3-5 days/week)";
   "Very Active (hard exercise/sports 6-7 days a week)";
   "Extra Active (very hard exercise/physical job)"].

(** [save_height = profile_height if profile_height > 0 else None], and
    the same for the weight: the number inputs give a float, and the page
    saves it only when it is greater than zero. *)
Definition positive_or_none (x : float) : option float :=
  if (0 <? x)%float then Some x else None.

(** [save_weight_value = log_weight if log_type == "Weigh-in" and
    log_weight > 0 else None] *)
Definition save_weight_value (log_type_ : string) (log_weight : float)
  : option float :=
  if String.eqb log_type_ "Weigh-in" && (0 <? log_weight)%float
  then Some log_weight else None.

(** [not st.session_state.messages]: an empty list is falsy. *)
Definition truthy_list {A} (l : list A) : bool :=
  match l with [] => false | _ :: _ => true end.

Definition set_session_messages (l : list message) : M unit :=
  fun w => (tt, set_messages w l).

Definition welcome (profile_name : string) : string :=
  "Welcome to profile '" ++ profile_name
  ++ "'! How can I help you today? 💪".

(** The start of the chat section.  [profile_dict] is [dict(all_profiles_list)]
    as read when the script started; looking up an id it does not hold raises
    [KeyError], which ends the run: the result is then [None]. *)
Definition start_chat (profile_dict : list (Z * string)) : M (option unit) :=
  shown <- (fun w => (session_messages w, w)) ;;
  if negb (truthy_list shown) then
    pid <- (fun w => (current_profile_id w, w)) ;;
    history <- load_chat_history pid ;;
    set_session_messages history ;;
    if negb (truthy_list history) then
      match dict_get pid profile_dict with
      | None => ret None
      | Some name =>
          let welcome_msg := welcome name in
          set_session_messages
            [{| msg_role := "assistant"; msg_content := welcome_msg |}] ;;
          _ <- save_chat_message pid "assistant" welcome_msg ;;
          ret (Some tt)
      end
    else ret (Some tt)
  else ret (Some tt).

Definition cleared (selected_profile_name : string) : string :=
  "Chat history for '" ++ selected_profile_name
  ++ "' cleared! How can I help you?".

(** The "Clear History" button; [true] when the page is run again. *)
Definition clear_history_clicked (selected_profile_name : string) : M bool :=
  pid <- (fun w => (current_profile_id w, w)) ;;
  ok <- clear_profile_history pid ;;
  if ok then
    let welcome_msg := cleared selected_profile_name in
    set_session_messages
      [{| msg_role := "assistant"; msg_content := welcome_msg |}] ;;
    _ <- save_chat_message pid "assistant" welcome_msg ;;
    ret true
  else st_error "Failed to clear history." ;; ret false.

(** The "Regenerate Schedule Suggestion" button; [true] when the page is
    run again. *)
Definition regenerate_clicked : M bool :=
  pid <- (fun w => (current_profile_id w, w)) ;;
  ok <- generate_and_save_schedule pid ;;
  if ok then set_session_messages [] ;; ret true
  else ret false.

End Page.

(* ================================================================== *)
(** ** Invariants of the store and of the session                      *)
(* ================================================================== *)

Module Invariants.
Import Py Sqlite App.

(** The profile table as the schema constrains it: ids and names are
    unique, and no id exceeds the recorded AUTOINCREMENT sequence. *)
Definition profiles_ok (d : database) : Prop :=
  NoDup (map profile_id (user_profile d))
  /\ NoDup (map profile_name (user_profile d))
  /\ Forall (fun r => profile_id r <= seq_user_profile d) (user_profile d).

(** Every stored turn belongs to a profile id that has been handed out. *)
Definition turns_refer_back (d : database) : Prop :=
  Forall (fun r => chat_profile_id r <= seq_user_profile d) (chat_history d).

(** The stored turns of a profile, in the order of the table. *)
Definition turns_of (p : Z) (d : database) : list chat_row :=
  filter (fun r => chat_profile_id r =? p) (chat_history d).

(** The message under which a response is kept in the transcript. *)
Definition assistant_says (text : string) : message :=
  {| msg_role := "assistant"; msg_content := text |}.

Definition user_says (text : string) : message :=
  {| msg_role := "user"; msg_content := text |}.

(** The text a chunk of the stream contributes. *)
Definition chunk_text (chunk_content : option string) : string :=
  match chunk_content with Some s => s | None => "" end.

(** Turns were stored in the order of their timestamps. *)
Definition chronological (d : database) : Prop :=
  StronglySorted (fun a b => chat_timestamp a <= chat_timestamp b)
                 (chat_history d).

(** The transcript on the page is the stored history of the active
    profile. *)
Definition in_sync (w : world) : Prop :=
  session_messages w = fst (load_chat_history (current_profile_id w) w).

End Invariants.
(* ================================================================== *)
(** ** Properties of the BMI helper                                    *)
(* ================================================================== *)

Module BmiFacts.
Import Py Bmi Props.
Local Open Scope float_scope.

(** [round1] on known roundings of Python's [round(x, 1)]. *)
Example round1_samples :
  round1 0.25 = 0.2 /\ round1 0.35 = 0.3 /\ round1 0.45 = 0.5
  /\ round1 2.675 = 2.7 /\ round1 24.95 = 24.9 /\ round1 1e-5 = 0
  /\ round1 1125899906842624.25 = 1125899906842624.25
  /\ round1 4503599627370497 = 4503599627370497.
Proof. vm_compute. repeat split. Qed.

Lemma between_48 (b : float) (lo hi : positive) :
  SFleb (sf48 lo) (Prim2SF b) = true ->
  SFltb (Prim2SF b) (sf48 hi) = true ->
  exists m, Prim2SF b = sf48 m /\ (Z.pos lo <= Z.pos m < Z.pos hi)%Z.
Proof.
  unfold SFleb, SFltb, SFcompare, sf48.
  destruct (Prim2SF b) as [s|s| |s m e]; try discriminate.
  - destruct s; discriminate.
  - destruct s; try discriminate.
    change (PosDef.Pos.compare_cont Eq lo m) with (Pos.compare lo m).
    change (PosDef.Pos.compare_cont Eq m hi) with (Pos.compare m hi).
    destruct (Z.compare_spec (-48) e) as [He|He|He];
      destruct (Z.compare_spec e (-48)) as [He'|He'|He'];
      try discriminate; try lia.
    subst e. intros H1 H2. exists m. split; [reflexivity|].
    destruct (Pos.compare_spec lo m); destruct (Pos.compare_spec m hi);
      try discriminate; lia.
Qed.

Lemma ltb_48 (b c : float) (m mc : positive) :
  Prim2SF b = sf48 m -> Prim2SF c = sf48 mc ->
  (b <? c) = (Z.pos m <? Z.pos mc)%Z.
Proof.
  intros Hb Hc. rewrite ltb_spec, Hb, Hc.
  unfold SFltb, SFcompare, sf48. rewrite Z.compare_refl.
  change (PosDef.Pos.compare_cont Eq m mc) with (Pos.compare m mc).
  unfold Z.ltb. cbn [Z.compare]. destruct (Pos.compare m mc); reflexivity.
Qed.

Lemma leb_48 (b c : float) (m mc : positive) :
  Prim2SF b = sf48 m -> Prim2SF c = sf48 mc ->
  (c <=? b) = (Z.pos mc <=? Z.pos m)%Z.
Proof.
  intros Hb Hc. rewrite leb_spec, Hb, Hc.
  unfold SFleb, SFcompare, sf48. rewrite Z.compare_refl.
  change (PosDef.Pos.compare_cont Eq mc m) with (Pos.compare mc m).
  unfold Z.leb. cbn [Z.compare]. destruct (Pos.compare mc m); reflexivity.
Qed.

Lemma sf_18_5 : Prim2SF 18.5 = sf48 5207287069147136.
Proof. vm_compute. reflexivity. Qed.
Lemma sf_24_9 : Prim2SF 24.9 = sf48 7008726920095334.
Proof. vm_compute. reflexivity. Qed.
Lemma sf_25 : Prim2SF 25 = sf48 7036874417766400.
Proof. vm_compute. reflexivity. Qed.
Lemma sf_29_9 : Prim2SF 29.9 = sf48 8416101803648614.
Proof. vm_compute. reflexivity. Qed.
Lemma sf_30 : Prim2SF 30 = sf48 8444249301319680.
Proof. vm_compute. reflexivity. Qed.

(** A BMI in one of the two gaps falls through to the final [else]. *)
Lemma bmi_category_gap (bmi : float) :
  in_gap bmi -> bmi_category bmi = "Obesity".
Proof.
  intros [[Hlo Hhi]|[Hlo Hhi]].
  - rewrite leb_spec, sf_24_9 in Hlo. rewrite ltb_spec, sf_25 in Hhi.
    destruct (between_48 _ _ _ Hlo Hhi) as (m & Hm & H1).
    clear Hlo Hhi. unfold bmi_category.
    rewrite (ltb_48 _ _ _ _ Hm sf_18_5), (leb_48 _ _ _ _ Hm sf_18_5),
      (ltb_48 _ _ _ _ Hm sf_24_9), (leb_48 _ _ _ _ Hm sf_25),
      (ltb_48 _ _ _ _ Hm sf_29_9).
    destruct (Z.ltb_spec (Z.pos m) 5207287069147136); [lia|].
    destruct (Z.ltb_spec (Z.pos m) 7008726920095334); [lia|].
    destruct (Z.leb_spec 7036874417766400 (Z.pos m)); [lia|].
    rewrite andb_false_r. reflexivity.
  - rewrite leb_spec, sf_29_9 in Hlo. rewrite ltb_spec, sf_30 in Hhi.
    destruct (between_48 _ _ _ Hlo Hhi) as (m & Hm & H1).
    clear Hlo Hhi. unfold bmi_category.
    rewrite (ltb_48 _ _ _ _ Hm sf_18_5), (leb_48 _ _ _ _ Hm sf_18_5),
      (ltb_48 _ _ _ _ Hm sf_24_9), (leb_48 _ _ _ _ Hm sf_25),
      (ltb_48 _ _ _ _ Hm sf_29_9).
    destruct (Z.ltb_spec (Z.pos m) 5207287069147136); [lia|].
    destruct (Z.ltb_spec (Z.pos m) 7008726920095334); [lia|].
    destruct (Z.ltb_spec (Z.pos m) 8416101803648614); [lia|].
    rewrite !andb_false_r. reflexivity.
Qed.

(** C9.  [calculate_bmi(70, 175)] returns [(22.9, "Normal weight")]; with a
    height of zero the guard returns [(None, "Enter valid height and
    weight")] for every weight, where the division itself would have raised
    [ZeroDivisionError]. *)
Theorem calculate_bmi_examples :
  calculate_bmi (Some 70) (Some 175) = Returns (Some 22.9, "Normal weight")
  /\ (forall weight_kg : option float,
        calculate_bmi weight_kg (Some 0) = Returns (None, invalid_input))
  /\ (forall w : float, bmi_of w 0 = Raises ZeroDivisionError).
Proof.
  split; [vm_compute; reflexivity|]. split.
  - intros w. unfold calculate_bmi, rejected.
    destruct (negb (truthy_opt truthy_float w)); reflexivity.
  - intros w. reflexivity.
Qed.

(** C10.  The category intervals are not contiguous: whenever the computed
    BMI lies in [24.9, 25) or in [29.9, 30), [calculate_bmi] returns the
    category "Obesity" (next to the rounded value). *)
Theorem bmi_gap_is_obesity (w h bmi : float) :
  rejected (Some w) (Some h) = false ->
  bmi_of w h = Returns bmi ->
  in_gap bmi ->
  calculate_bmi (Some w) (Some h) = Returns (Some (round1 bmi), "Obesity").
Proof.
  intros Hok Hbmi Hgap. unfold calculate_bmi.
  rewrite Hok, Hbmi. cbn [bind].
  rewrite (bmi_category_gap _ Hgap). reflexivity.
Qed.

Lemma bmi_gap_is_obesity_witness :
  calculate_bmi (Some 76.4) (Some 175) = Returns (Some 24.9, "Obesity")
  /\ calculate_bmi (Some 91.7) (Some 175) = Returns (Some 29.9, "Obesity").
Proof.
  split.
  - apply (bmi_gap_is_obesity 76.4 175 (76.4 / (1.75 * 1.75))).
    + vm_compute; reflexivity.
    + vm_compute; reflexivity.
    + left. split; vm_compute; reflexivity.
  - apply (bmi_gap_is_obesity 91.7 175 (91.7 / (1.75 * 1.75))).
    + vm_compute; reflexivity.
    + vm_compute; reflexivity.
    + right. split; vm_compute; reflexivity.
Defined.

End BmiFacts.


(* ================================================================== *)
(** ** Properties of ORDER BY                                          *)
(* ================================================================== *)

Module OrderFacts.
Import Sqlite.

Section OrderBy.
Context {A : Type} (le : A -> A -> bool).

Lemma insert_by_length (x : A) (l : list A) :
  List.length (insert_by le x l) = S (List.length l).
Proof.
  induction l as [|y l IH]; cbn; [reflexivity|].
  destruct (le x y); cbn; [reflexivity|]. now rewrite IH.
Qed.

Lemma order_by_length (l : list A) :
  List.length (order_by le l) = List.length l.
Proof.
  induction l as [|x l IH]; cbn; [reflexivity|].
  unfold order_by in IH. now rewrite insert_by_length, IH.
Qed.

Lemma insert_by_perm (x : A) (l : list A) :
  Permutation (insert_by le x l) (x :: l).
Proof.
  induction l as [|y l IH]; cbn; [apply Permutation_refl|].
  destruct (le x y); [apply Permutation_refl|].
  eapply perm_trans; [apply perm_skip, IH | apply perm_swap].
Qed.

Lemma order_by_perm (l : list A) : Permutation (order_by le l) l.
Proof.
  induction l as [|x l IH]; cbn; [constructor|].
  eapply perm_trans; [apply insert_by_perm | now apply perm_skip].
Qed.

(** A row not below any other goes to the end, after the rows it ties
    with. *)
Lemma insert_by_snoc (a x : A) (s : list A) :
  le a x = true ->
  insert_by le a (s ++ [x]) = (insert_by le a s ++ [x])%list.
Proof.
  intros Hax. induction s as [|y s IH]; cbn.
  - now rewrite Hax.
  - destruct (le a y); [reflexivity|]. now rewrite IH.
Qed.

Lemma order_by_snoc (x : A) (l : list A) :
  Forall (fun y => le y x = true) l ->
  order_by le (l ++ [x]) = (order_by le l ++ [x])%list.
Proof.
  induction 1 as [|y l Hy Hl IH]; cbn; [reflexivity|].
  unfold order_by in IH. rewrite IH. now apply insert_by_snoc.
Qed.

Section Sorted.
Hypothesis le_total : forall a b, le a b = true \/ le b a = true.
Hypothesis le_trans :
  forall a b c, le a b = true -> le b c = true -> le a c = true.

Lemma insert_by_sorted (x : A) (l : list A) :
  StronglySorted (fun a b => le a b = true) l ->
  StronglySorted (fun a b => le a b = true) (insert_by le x l).
Proof.
  induction 1 as [|y l Hl IH Hy]; cbn.
  - repeat constructor.
  - destruct (le x y) eqn:Hxy.
    + constructor; [now constructor|].
      constructor; [assumption|].
      eapply Forall_impl; [|exact Hy]. intros z Hz. now apply le_trans with y.
    + constructor; [assumption|].
      assert (Hyx : le y x = true)
        by (destruct (le_total x y); congruence).
      eapply Permutation_Forall;
        [apply Permutation_sym, insert_by_perm|].
      now constructor.
Qed.

Lemma order_by_sorted (l : list A) :
  StronglySorted (fun a b => le a b = true) (order_by le l).
Proof.
  induction l as [|x l IH]; cbn; [constructor|].
  now apply insert_by_sorted.
Qed.

End Sorted.
End OrderBy.

End OrderFacts.

(* ================================================================== *)
(** ** Properties of the stores                                        *)
(* ================================================================== *)

Module StoreFacts.
Import Py Sqlite App Props OrderFacts Scenario.

(** The profile list the functions see has one entry per stored profile. *)
Lemma select_profiles_length (d : database) :
  List.length (select_profiles d) = List.length (user_profile d).
Proof.
  unfold select_profiles. now rewrite length_map, order_by_length.
Qed.

Lemma has_name_true (d : database) (name : string) :
  has_name d name = true <->
  exists r, In r (user_profile d) /\ profile_name r = name.
Proof.
  unfold has_name. rewrite existsb_exists.
  split; intros (r & Hin & Hr); exists r; split; auto;
    now apply String.eqb_eq.
Qed.

Lemma select_details_missing (d : database) (pid : Z) :
  (forall r, In r (user_profile d) -> profile_id r <> pid) ->
  select_details d pid = None.
Proof.
  intros Hno. unfold select_details.
  destruct (find _ _) as [r|] eqn:Hf; [|reflexivity].
  apply find_some in Hf. destruct Hf as [Hin Heq].
  apply Z.eqb_eq in Heq. now apply Hno in Hin.
Qed.

(** With ids that are unique, as the primary key makes them, the row the
    SELECT finds for an id is the stored row that has it. *)
Lemma select_details_stored (d : database) (r : profile_row) :
  NoDup (map profile_id (user_profile d)) ->
  In r (user_profile d) ->
  select_details d (profile_id r) = Some (profile_details r).
Proof.
  unfold select_details.
  induction (user_profile d) as [|a l IH]; cbn; intros Hnd Hin; [easy|].
  inversion Hnd as [|x xs Hnot Hnd']; subst.
  destruct Hin as [->|Hin]; [now rewrite Z.eqb_refl|].
  destruct (Z.eqb_spec (profile_id a) (profile_id r)) as [E|_];
    [|now apply IH].
  exfalso. apply Hnot. rewrite E. now apply in_map.
Qed.

(** C6.  [get_profile_details] returns a tuple of the ten attributes for
    every id and leaves the world as it was.  When no profile has the id,
    the tuple is exactly the defaults ('General Fitness', 'Beginner' and
    eight [None]s); when a profile has it, the tuple is the ten attributes
    stored for that profile, whatever they are. *)
Theorem get_profile_details_total (w : world) (pid : Z) :
  exists d : details,
    get_profile_details pid w = (d, w)
    /\ ((forall r, In r (user_profile (db w)) -> profile_id r <> pid) ->
        d = (Some "General Fitness", Some "Beginner", None, None, None, None,
             None, None, None, None))
    /\ (forall r, NoDup (map profile_id (user_profile (db w))) ->
                  In r (user_profile (db w)) -> profile_id r = pid ->
                  d = profile_details r).
Proof.
  unfold get_profile_details.
  destruct (select_details (db w) pid) as [d|] eqn:Hsel.
  - exists d. split; [reflexivity|]. split.
    + intros Hno.
      rewrite (select_details_missing _ _ Hno) in Hsel. discriminate.
    + intros r Hnd Hin <-.
      rewrite (select_details_stored _ _ Hnd Hin) in Hsel. congruence.
  - exists default_details. split; [reflexivity|]. split; [reflexivity|].
    intros r Hnd Hin <-.
    rewrite (select_details_stored _ _ Hnd Hin) in Hsel. discriminate.
Qed.

(** C3.  With exactly one profile in the store, [delete_profile] returns
    [False], reports "Cannot delete the last profile." and leaves the three
    tables untouched. *)
Theorem delete_last_profile_refused (w : world) (pid : Z) :
  List.length (user_profile (db w)) = 1%nat ->
  delete_profile pid w
  = (false, add_output w (StError "Cannot delete the last profile."))
  /\ db (snd (delete_profile pid w)) = db w.
Proof.
  intros Hone.
  assert (E : delete_profile pid w
              = (false, add_output w (StError "Cannot delete the last profile."))).
  { unfold delete_profile, bind, get_all_profiles.
    rewrite select_profiles_length, Hone. reflexivity. }
  rewrite E. split; reflexivity.
Qed.

(** C8.  Creating a profile under a name that is taken returns [None], the
    failure of the duplicate-name handler (it prints "Profile name '...'
    already exists."), and the store, hence the number of profiles, is
    unchanged. *)
Theorem create_profile_duplicate (w : world) (name : string) :
  (exists r, In r (user_profile (db w)) /\ profile_name r = name) ->
  create_profile name w
  = (None,
     add_output w (Print ("Profile name '" ++ name ++ "' already exists.")))
  /\ db (snd (create_profile name w)) = db w
  /\ List.length (user_profile (db (snd (create_profile name w))))
     = List.length (user_profile (db w)).
Proof.
  intros Hdup. apply has_name_true in Hdup.
  assert (E : create_profile name w
              = (None,
                 add_output w
                   (Print ("Profile name '" ++ name ++ "' already exists.")))).
  { unfold create_profile, bind, execute, insert_profile.
    rewrite Hdup. reflexivity. }
  rewrite E. repeat split; reflexivity.
Qed.

(** *** Saving and loading turns *)

Lemma save_chat_message_spec (w : world) (p : Z) (r c : string) :
  exists d' i,
    save_chat_message p r c w = (true, set_db w d')
    /\ user_profile d' = user_profile (db w)
    /\ workout_log d' = workout_log (db w)
    /\ chat_history d'
       = (chat_history (db w)
          ++ [{| chat_id := i; chat_profile_id := p;
                 chat_timestamp := now w; role := r; content := c |}])%list.
Proof.
  unfold save_chat_message, bind, execute, insert_chat. cbn.
  eexists. eexists. repeat split.
Qed.

Lemma Forall_kept {A} (P : A -> Prop) (f : A -> bool) (l : list A) :
  Forall P l -> Forall P (filter f l).
Proof.
  rewrite !Forall_forall. intros H x Hx. apply filter_In in Hx. now apply H.
Qed.

Lemma keeps_ret {A} (a : A) : keeps_turns_in_past (ret a).
Proof. intros w H. exact H. Qed.

Lemma keeps_bind {A B} (m : M A) (k : A -> M B) :
  keeps_turns_in_past m -> (forall a, keeps_turns_in_past (k a)) ->
  keeps_turns_in_past (bind m k).
Proof.
  intros Hm Hk w H. unfold bind. specialize (Hm w H).
  destruct (m w) as [a w']. now apply Hk.
Qed.

Lemma keeps_print (s : string) : keeps_turns_in_past (print s).
Proof. intros w H. exact H. Qed.

Lemma keeps_st_error (s : string) : keeps_turns_in_past (st_error s).
Proof. intros w H. exact H. Qed.

Lemma keeps_read {A} (f : world -> A) :
  keeps_turns_in_past (fun w => (f w, w)).
Proof. intros w H. exact H. Qed.

Lemma keeps_execute {A}
    (stmt : connection -> timestamp -> database -> outcome (A * database)) :
  (forall c t d a d',
      stmt c t d = Done (a, d') ->
      Forall (fun r => chat_timestamp r <= t) (chat_history d) ->
      Forall (fun r => chat_timestamp r <= t) (chat_history d')) ->
  keeps_turns_in_past (execute stmt).
Proof.
  intros Hstmt w H. unfold execute.
  destruct (stmt connect (now w) (db w)) as [[a d']|e] eqn:E; [|exact H].
  exact (Hstmt _ _ _ _ _ E H).
Qed.

Lemma elapse_keeps (n : N) (w : world) :
  no_future_turns w -> no_future_turns (elapse n w).
Proof.
  unfold no_future_turns. cbn. intros H.
  eapply Forall_impl; [|exact H]. cbn. intros r Hr. lia.
Qed.

Lemma init_db_keeps : keeps_turns_in_past init_db.
Proof.
  apply keeps_bind; [|intros; apply keeps_ret].
  apply keeps_execute. intros c t d a d' E H. injection E as _ <-.
  unfold insert_or_ignore_default, insert_profile.
  destruct (has_name d "Default"); exact H.
Qed.

Lemma get_profile_details_keeps (p : Z) :
  keeps_turns_in_past (get_profile_details p).
Proof.
  intros w H. unfold get_profile_details.
  destruct (select_details (db w) p); exact H.
Qed.

Lemma create_profile_keeps (name : string) :
  keeps_turns_in_past (create_profile name).
Proof.
  apply keeps_bind.
  - apply keeps_execute. intros c t d a d' E H. unfold insert_profile in E.
    destruct (has_name d name); [discriminate|]. injection E as _ <-. exact H.
  - intros [a|[t|t]]; try apply keeps_ret;
      (apply keeps_bind; [apply keeps_print | intros; apply keeps_ret]).
Qed.

Lemma update_profile_keeps (p : Z) (goal experience : option string)
    (age : option Z) (sex : option string) (height weight : option float)
    (activity diet equip notes : option string) :
  keeps_turns_in_past
    (update_profile p goal experience age sex height weight activity diet
       equip notes).
Proof.
  apply keeps_bind.
  - apply keeps_execute. intros c t d0 a d' E H. injection E as _ <-. exact H.
  - intros [a|e]; [apply keeps_ret|].
    apply keeps_bind; [apply keeps_print | intros; apply keeps_ret].
Qed.

Lemma delete_profile_keeps (p : Z) : keeps_turns_in_past (delete_profile p).
Proof.
  apply keeps_bind; [apply (keeps_read (fun w => select_profiles (db w)))|].
  intros profiles. destruct (_ <=? 1).
  - apply keeps_bind; [apply keeps_st_error | intros; apply keeps_ret].
  - apply keeps_bind.
    + apply keeps_execute. intros c t d a d' E H. injection E as _ <-.
      cbn. now apply Forall_kept.
    + intros [a|e]; [apply keeps_ret|].
      apply keeps_bind; [apply keeps_print | intros; apply keeps_ret].
Qed.

Lemma load_chat_history_keeps (p : Z) :
  keeps_turns_in_past (load_chat_history p).
Proof.
  apply keeps_bind.
  - apply keeps_execute. intros c t d a d' E H. injection E as _ <-. exact H.
  - intros [a|e]; [apply keeps_ret|].
    apply keeps_bind; [apply keeps_print | intros; apply keeps_ret].
Qed.

Lemma save_chat_message_keeps (p : Z) (r c : string) :
  keeps_turns_in_past (save_chat_message p r c).
Proof.
  intros w H. destruct (save_chat_message_spec w p r c)
    as (d' & i & E & _ & _ & Hchat).
  rewrite E. unfold no_future_turns. cbn. rewrite Hchat.
  apply Forall_app. split; [exact H|].
  constructor; [cbn; lia | constructor].
Qed.

Lemma clear_profile_history_keeps (p : Z) :
  keeps_turns_in_past (clear_profile_history p).
Proof.
  apply keeps_bind.
  - apply keeps_execute. intros c t d a d' E H. injection E as _ <-.
    cbn. now apply Forall_kept.
  - intros [a|e]; [apply keeps_ret|].
    apply keeps_bind; [apply keeps_print | intros; apply keeps_ret].
Qed.

Lemma log_entry_keeps (p : Z) (ty : string) (n : option string)
    (wt : option float) : keeps_turns_in_past (log_entry p ty n wt).
Proof.
  apply keeps_bind.
  - apply keeps_execute. intros c t d a d' E H. unfold insert_log in E.
    destruct (_ && _); [discriminate|]. injection E as _ <-. exact H.
  - intros [a|e]; [apply keeps_ret|].
    apply keeps_bind; [apply keeps_print | intros; apply keeps_ret].
Qed.

Lemma load_chat_history_rows (w : world) (p : Z) :
  load_chat_history p w = (map as_message (select_chat (db w) p), w).
Proof.
  unfold load_chat_history, bind, execute. cbn.
  destruct w; reflexivity.
Qed.

(** What [load_chat_history] returns for a profile: its turns, oldest
    first. *)
Lemma select_chat_sorted (d : database) (p : Z) :
  StronglySorted (fun a b => chat_timestamp a <= chat_timestamp b)
                 (select_chat d p)
  /\ Permutation (select_chat d p)
                 (filter (fun r => chat_profile_id r =? p) (chat_history d)).
Proof.
  split; [|apply order_by_perm].
  assert (S : StronglySorted (fun a b => by_timestamp a b = true)
                             (select_chat d p)).
  { apply order_by_sorted; unfold by_timestamp.
    - intros a b. rewrite !Z.leb_le. lia.
    - intros a b c. rewrite !Z.leb_le. lia. }
  induction S as [|a l Hl IH Ha]; constructor; [assumption|].
  eapply Forall_impl; [|exact Ha]. intros b Hb.
  now apply Z.leb_le in Hb.
Qed.

Lemma turn_saved_is_loaded_last (w : world) (p : Z) (r c : string) :
  no_future_turns w ->
  exists w1,
    save_chat_message p r c w = (true, w1)
    /\ fst (load_chat_history p w1)
       = (fst (load_chat_history p w)
          ++ [{| msg_role := r; msg_content := c |}])%list.
Proof.
  intros Hpast.
  destruct (save_chat_message_spec w p r c) as (d' & i & E & _ & _ & Hchat).
  exists (set_db w d'). split; [exact E|].
  rewrite !load_chat_history_rows. cbn [fst db set_db].
  unfold select_chat. rewrite Hchat, filter_app. cbn [filter chat_profile_id].
  rewrite Z.eqb_refl.
  rewrite order_by_snoc.
  - rewrite map_app. reflexivity.
  - apply Forall_forall. intros y Hy. apply filter_In in Hy.
    destruct Hy as [Hy _]. unfold no_future_turns in Hpast.
    rewrite Forall_forall in Hpast. apply Hpast in Hy.
    cbn. now apply Z.leb_le.
Qed.

(** C7.  After [save_chat_message(p, "user", "hello")] has returned [True],
    [load_chat_history(p)] returns the turns of [p] ordered by timestamp,
    oldest first, and the last of them is [{"role": "user", "content":
    "hello"}].  The store is one whose turns are not stamped in the future,
    which every operation maintains. *)
Theorem appended_turn_is_last (w w1 : world) (p : Z) :
  no_future_turns w ->
  save_chat_message p "user" "hello" w = (true, w1) ->
  exists rows earlier,
    fst (load_chat_history p w1) = map as_message rows
    /\ StronglySorted (fun a b => chat_timestamp a <= chat_timestamp b) rows
    /\ Permutation rows
         (filter (fun r => chat_profile_id r =? p) (chat_history (db w1)))
    /\ fst (load_chat_history p w1)
       = (earlier ++ [{| msg_role := "user"; msg_content := "hello" |}])%list.
Proof.
  intros Hpast Hsave.
  destruct (turn_saved_is_loaded_last w p "user" "hello" Hpast)
    as (w1' & E & Hlast).
  rewrite Hsave in E. injection E as <-.
  exists (select_chat (db w1) p), (fst (load_chat_history p w)).
  destruct (select_chat_sorted (db w1) p) as [Hs Hp].
  split; [now rewrite load_chat_history_rows|].
  repeat split; assumption.
Qed.

Lemma get_profile_details_total_witness :
  let w := snd (update_profile 1 (Some "Build muscle") (Some "Advanced")
                  (Some 30) None (Some 180%float) (Some 75.5%float) None
                  None (Some "Barbell") None boot) in
  fst (get_profile_details 7 w)
  = (Some "General Fitness", Some "Beginner", None, None, None, None, None,
     None, None, None)
  /\ fst (get_profile_details 1 w)
     = (Some "Build muscle", Some "Advanced", Some 30, None,
        Some 180%float, Some 75.5%float, None, None, Some "Barbell", None)
  /\ snd (get_profile_details 1 w) = w.
Proof.
  intros w.
  destruct (get_profile_details_total w 7) as (d7 & E7 & Hd7 & _).
  destruct (get_profile_details_total w 1) as (d1 & E1 & _ & Hd1).
  rewrite E7, E1. cbn [fst snd]. split; [|split; [|reflexivity]].
  - apply Hd7. intros r [<-|[]]. discriminate.
  - apply (Hd1 {| profile_id := 1; profile_name := "Default";
                  profile_details :=
                    (Some "Build muscle", Some "Advanced", Some 30, None,
                     Some 180%float, Some 75.5%float, None, None,
                     Some "Barbell", None) |}).
    + repeat constructor. intros [].
    + left. reflexivity.
    + reflexivity.
Defined.

Lemma delete_last_profile_refused_witness :
  delete_profile 1 boot
  = (false, add_output boot (StError "Cannot delete the last profile."))
  /\ db (snd (delete_profile 1 boot)) = db boot.
Proof. apply (delete_last_profile_refused boot 1). reflexivity. Defined.

Lemma create_profile_duplicate_witness :
  fst (create_profile "Default" boot) = None
  /\ List.length (user_profile (db (snd (create_profile "Default" boot))))
     = 1%nat.
Proof.
  assert (H : exists r, In r (user_profile (db boot))
                        /\ profile_name r = "Default").
  { eexists. split; [left; reflexivity | reflexivity]. }
  destruct (create_profile_duplicate boot "Default" H) as (E & _ & Hlen).
  split; [now rewrite E | exact Hlen].
Defined.

Lemma appended_turn_is_last_witness :
  exists earlier,
    fst (load_chat_history 2
           (snd (save_chat_message 2 "user" "hello" two_profiles)))
    = (earlier ++ [{| msg_role := "user"; msg_content := "hello" |}])%list.
Proof.
  assert (Hpast : no_future_turns two_profiles).
  { repeat constructor. cbn. lia. }
  destruct (appended_turn_is_last two_profiles
              (snd (save_chat_message 2 "user" "hello" two_profiles)) 2
              Hpast eq_refl)
    as (rows & earlier & _ & _ & _ & Hlast).
  exists earlier. exact Hlast.
Defined.

(** *** Deleting a profile *)

(** With a second profile present, [delete_profile] removes the rows of
    [user_profile] with the given id, keeps every other profile, and leaves
    [chat_history] and [workout_log] exactly as they were: the connection
    does not enforce foreign keys, so nothing cascades. *)
Lemma delete_profile_effect (w : world) (pid : Z) :
  (2 <= List.length (user_profile (db w)))%nat ->
  exists d',
    delete_profile pid w = (true, set_db w d')
    /\ user_profile d'
       = filter (fun r => negb (profile_id r =? pid)) (user_profile (db w))
    /\ chat_history d' = chat_history (db w)
    /\ workout_log d' = workout_log (db w).
Proof.
  intros Htwo. unfold delete_profile, bind, get_all_profiles.
  rewrite select_profiles_length.
  destruct (Z.leb_spec (Z.of_nat (List.length (user_profile (db w)))) 1);
    [lia|].
  unfold execute. cbn. eexists. split; [reflexivity|].
  cbn. repeat split.
  - induction (chat_history (db w)) as [|r l IH]; cbn; [|rewrite IH];
      reflexivity.
  - induction (workout_log (db w)) as [|r l IH]; cbn; [|rewrite IH];
      reflexivity.
Qed.

(** On a connection that enforces foreign keys the same statement removes
    the profile's turns and log entries and no others. *)
Lemma delete_profile_row_cascades (d : database) (pid : Z) :
  let d' := delete_profile_row {| foreign_keys := true |} d pid in
  chat_history d'
  = filter (fun r => negb (chat_profile_id r =? pid)) (chat_history d)
  /\ workout_log d'
     = filter (fun r => negb (log_profile_id r =? pid)) (workout_log d).
Proof. split; reflexivity. Qed.

(** C2 (the code departs from it).  In a store with the profiles "Default"
    (id 1) and "Bob" (id 2), where Bob has one turn and one log entry,
    [delete_profile(2)] returns [True] and removes Bob's profile row, but
    his turn and his log entry are still in their tables afterwards. *)
Theorem delete_profile_leaves_turns_and_logs :
  map profile_id (user_profile (db two_profiles)) = [1; 2]
  /\ fst (delete_profile 2 two_profiles) = true
  /\ map profile_id
       (user_profile (db (snd (delete_profile 2 two_profiles)))) = [1]
  /\ map chat_profile_id
       (chat_history (db (snd (delete_profile 2 two_profiles)))) = [2]
  /\ map log_profile_id
       (workout_log (db (snd (delete_profile 2 two_profiles)))) = [2].
Proof. repeat split. Qed.

End StoreFacts.

(* ================================================================== *)
(** ** Properties of the schedule generator                            *)
(* ================================================================== *)

Module ScheduleFacts.
Import Py Sqlite App Props Scenario StoreFacts.
Local Open Scope app_scope.

Lemma get_profile_details_reads (w : world) (pid : Z) :
  get_profile_details pid w = (fst (get_profile_details pid w), w).
Proof.
  unfold get_profile_details. destruct (select_details (db w) pid);
    reflexivity.
Qed.

(** C5.  When the client answers the schedule request with content [C],
    [generate_and_save_schedule] returns [True]; it has sent exactly one
    request, not streamed, with temperature 0.7 and at most 2000 tokens; and
    it has added one turn for the profile, of role "assistant", whose content
    is the lead-in sentence, then [[SCHEDULE_START]], [C] and
    [[SCHEDULE_END]], each on a line of its own. *)
Theorem schedule_generated (w : world) (pid : Z) (c : groq) (C : string) :
  client w = Some c ->
  c (schedule_request (fst (get_profile_details pid w))) = Completion C ->
  exists w' req row,
    generate_and_save_schedule pid w = (true, w')
    /\ sent w' = (sent w ++ [req])%list
    /\ stream req = false
    /\ temperature req = 0.7%float
    /\ max_tokens req = 2000
    /\ chat_history (db w') = (chat_history (db w) ++ [row])%list
    /\ chat_profile_id row = pid
    /\ role row = "assistant"
    /\ content row
       = "**📅 Here is a sample 4-week schedule based on your profile:**"
         ++ nl ++ "[SCHEDULE_START]" ++ nl ++ C ++ nl ++ "[SCHEDULE_END]".
Proof.
  intros Hclient Hreply.
  unfold generate_and_save_schedule, bind at 1.
  cbn [print].
  unfold bind at 1.
  rewrite get_profile_details_reads.
  set (d := fst (get_profile_details pid w)) in *.
  assert (Hd : fst (get_profile_details pid
                      (add_output w
                         (Print ("Attempting to generate schedule for profile_id: "
                                 ++ str_int pid)))) = d).
  { unfold d, get_profile_details. cbn [db add_output].
    destruct (select_details (db w) pid); reflexivity. }
  rewrite Hd. unfold bind at 1. cbn [client add_output]. rewrite Hclient.
  unfold bind at 1. cbn [print]. unfold bind at 1. unfold create.
  rewrite Hreply. unfold bind at 1. cbn [print]. unfold bind at 1.
  match goal with
  | |- context [save_chat_message pid "assistant" ?m ?w0] =>
      destruct (save_chat_message_spec w0 pid "assistant" m)
        as (d' & i & E & _ & _ & Hchat); rewrite E
  end.
  unfold bind at 1. cbn [print ret].
  eexists. exists (schedule_request d). eexists.
  split; [reflexivity|].
  cbn [sent add_output add_sent set_db db].
  split; [reflexivity|]. split; [reflexivity|]. split; [reflexivity|].
  split; [reflexivity|]. split; [exact Hchat|].
  repeat split.
Qed.

Lemma schedule_generated_witness :
  exists w' row,
    generate_and_save_schedule 2 (set_client two_profiles (Some answering))
    = (true, w')
    /\ List.length (sent w') = 1%nat
    /\ chat_history (db w') = (chat_history (db two_profiles) ++ [row])%list
    /\ content row
       = "**📅 Here is a sample 4-week schedule based on your profile:**"
         ++ nl ++ "[SCHEDULE_START]" ++ nl ++ "Week 1 plan..." ++ nl
         ++ "[SCHEDULE_END]".
Proof.
  destruct (schedule_generated (set_client two_profiles (Some answering)) 2
              answering "Week 1 plan..." eq_refl eq_refl)
    as (w' & req & row & E & Hsent & _ & _ & _ & Hchat & _ & _ & Hcontent).
  exists w', row. repeat split; try assumption.
  rewrite Hsent. reflexivity.
Defined.

End ScheduleFacts.

(* ================================================================== *)
(** ** Properties of the chat handler                                  *)
(* ================================================================== *)

Module ChatFacts.
Import Py Sqlite App Props Scenario StoreFacts ScheduleFacts.
Local Open Scope app_scope.

Lemma chat_failed_frame (e : api_error) (w : world) :
  let w' := snd (chat_failed e w) in
  db w' = db w /\ now w' = now w /\ sent w' = sent w
  /\ current_profile_id w' = current_profile_id w
  /\ session_messages w' = session_messages w.
Proof. destruct e; cbn; repeat split. Qed.

(** The streaming call reads the store but does not write it. *)
Lemma stream_completion_frame (msgs : list message) (w : world) :
  let w' := snd (stream_completion msgs w) in
  db w' = db w /\ now w' = now w
  /\ current_profile_id w' = current_profile_id w
  /\ session_messages w' = session_messages w.
Proof.
  unfold stream_completion, bind. cbn.
  destruct (client w) as [c|]; [|cbn; repeat split].
  unfold create.
  destruct (c _) as [x|deltas [e|]|e]; try destruct e; cbn; repeat split.
Qed.

(** With a client installed, the call sends exactly one request: streamed,
    capped at 2000 tokens, carrying the messages it was given. *)
Lemma stream_completion_sends (msgs : list message) (w : world) (c : groq) :
  client w = Some c ->
  exists req,
    sent (snd (stream_completion msgs w)) = (sent w ++ [req])%list
    /\ messages req = msgs /\ stream req = true /\ max_tokens req = 2000.
Proof.
  intros Hc. unfold stream_completion, bind. cbn. rewrite Hc.
  unfold create. eexists.
  destruct (c _) as [x|deltas [e|]|e]; try destruct e; cbn;
    repeat split.
Qed.

Section Handler.
Variable SYSTEM_PROMPT : string.
Variable str_float : float -> string.

(** The handler, step by step. *)
Lemma handle_chat_input_steps (w : world) (prompt : string) :
  prompt <> "" ->
  handle_chat_input SYSTEM_PROMPT str_float prompt w
  = let (full_response, w2) :=
      stream_completion (outbound SYSTEM_PROMPT str_float w prompt) (submitted w prompt) in
    finalize (current_profile_id w) full_response w2.
Proof.
  intros Hne. unfold handle_chat_input.
  destruct prompt as [|a prompt]; [congruence|]. cbn [truthy_str].
  set (p := String a prompt).
  unfold bind at 1. unfold bind at 1.
  destruct (save_chat_message_spec w (current_profile_id w) "user" p)
    as (d' & i & E & Hprof & _ & _).
  assert (Hsub : submitted w p
                 = set_messages (set_db w d')
                     (session_messages w
                      ++ [{| msg_role := "user"; msg_content := p |}])%list).
  { unfold submitted. rewrite E. reflexivity. }
  rewrite E. unfold bind at 1. unfold append_message at 1.
  unfold bind at 1. cbn [session_messages set_messages set_db].
  rewrite removelast_last.
  unfold bind at 1.
  assert (Hd : get_profile_details (current_profile_id w)
                 (set_messages (set_db w d')
                    (session_messages w
                     ++ [{| msg_role := "user"; msg_content := p |}])%list)
               = (fst (get_profile_details (current_profile_id w) w),
                  set_messages (set_db w d')
                    (session_messages w
                     ++ [{| msg_role := "user"; msg_content := p |}])%list)).
  { unfold get_profile_details, select_details. cbn [db set_messages set_db].
    rewrite Hprof. destruct (find _ _); reflexivity. }
  rewrite Hd. unfold bind at 1. rewrite Hsub.
  unfold outbound. cbn [app].
  reflexivity.
Qed.

(** What the handler leaves in [chat_history]: the user's turn with the
    prompt as typed, then the response when, and only when, [persisted]
    accepts it. *)
Lemma handle_chat_input_history (w : world) (prompt : string) :
  prompt <> "" ->
  exists i j,
    chat_history
      (db (snd (handle_chat_input SYSTEM_PROMPT str_float prompt w)))
    = (chat_history (db w)
       ++ {| chat_id := i; chat_profile_id := current_profile_id w;
             chat_timestamp := now w; role := "user"; content := prompt |}
       :: (let full_response :=
             fst (stream_completion (outbound SYSTEM_PROMPT str_float w prompt)
                    (submitted w prompt)) in
           if persisted full_response
           then [{| chat_id := j; chat_profile_id := current_profile_id w;
                    chat_timestamp := now w; role := "assistant";
                    content := full_response |}]
           else []))%list.
Proof.
  intros Hne. rewrite (handle_chat_input_steps w prompt Hne).
  destruct (stream_completion_frame (outbound SYSTEM_PROMPT str_float w prompt) (submitted w prompt))
    as (Hdb & Hnow & _ & _).
  destruct (stream_completion (outbound SYSTEM_PROMPT str_float w prompt) (submitted w prompt))
    as [full w2].
  cbn [fst snd] in *.
  destruct (save_chat_message_spec w (current_profile_id w) "user" prompt)
    as (d' & i & E & _ & _ & Hchat).
  assert (Hsub : db (submitted w prompt) = d' /\ now (submitted w prompt) = now w).
  { unfold submitted. rewrite E. split; reflexivity. }
  destruct Hsub as [Hsubdb Hsubnow].
  unfold finalize. destruct (persisted full).
  - unfold bind.
    destruct (save_chat_message_spec w2 (current_profile_id w) "assistant" full)
      as (d2 & j & E2 & _ & _ & Hchat2).
    rewrite E2. cbn. exists i, j.
    rewrite Hchat2, Hdb, Hsubdb, Hchat, Hnow, Hsubnow, <- app_assoc.
    reflexivity.
  - exists i, 0.
    destruct (negb (truthy_str full) || negb (truthy_strip full)); cbn;
      now rewrite Hdb, Hsubdb, Hchat.
Qed.

(** The request the handler sends when a client is installed. *)
Lemma handle_chat_input_sends (w : world) (prompt : string) (c : groq) :
  prompt <> "" -> client w = Some c ->
  exists req,
    sent (snd (handle_chat_input SYSTEM_PROMPT str_float prompt w))
    = (sent w ++ [req])%list
    /\ messages req = outbound SYSTEM_PROMPT str_float w prompt
    /\ stream req = true /\ max_tokens req = 2000.
Proof.
  intros Hne Hc. rewrite (handle_chat_input_steps w prompt Hne).
  destruct (save_chat_message_spec w (current_profile_id w) "user" prompt)
    as (d' & i & E & _).
  assert (Hsub : client (submitted w prompt) = Some c
                 /\ sent (submitted w prompt) = sent w).
  { unfold submitted. rewrite E. split; [exact Hc | reflexivity]. }
  destruct Hsub as [Hsubc Hsubs].
  destruct (stream_completion_sends (outbound SYSTEM_PROMPT str_float w prompt) _ c Hsubc)
    as (req & Hsent & Hreq).
  destruct (stream_completion (outbound SYSTEM_PROMPT str_float w prompt) (submitted w prompt))
    as [full w2].
  cbn [snd] in Hsent. exists req. split; [|exact Hreq].
  rewrite <- Hsubs, <- Hsent. unfold finalize.
  destruct (persisted full).
  - unfold bind.
    destruct (save_chat_message_spec w2 (current_profile_id w) "assistant" full)
      as (d2 & j & E2 & _).
    rewrite E2. reflexivity.
  - destruct (negb (truthy_str full) || negb (truthy_strip full));
      reflexivity.
Qed.

End Handler.

(** *** The context preamble *)

Lemma append_nil_r (s : string) : s ++ "" = s.
Proof. induction s as [|a s IH]; cbn; [|rewrite IH]; reflexivity. Qed.

Lemma append_assoc (s t u : string) : (s ++ t) ++ u = s ++ t ++ u.
Proof. induction s as [|a s IH]; cbn; [|rewrite IH]; reflexivity. Qed.

Lemma concat_empty_cons (a : string) (l : list string) :
  String.concat "" (a :: l) = a ++ String.concat "" l.
Proof. destruct l; cbn; [now rewrite append_nil_r | reflexivity]. Qed.

(** Joining puts the separator before every part but the first, and
    nowhere else. *)
Lemma join_cons (sep x : string) (l : list string) :
  join sep (x :: l) = x ++ String.concat "" (map (fun p => sep ++ p) l).
Proof.
  unfold join. revert x. induction l as [|y l IH]; intros x.
  - cbn. now rewrite append_nil_r.
  - change (String.concat sep (x :: y :: l))
      with (x ++ sep ++ String.concat sep (y :: l)).
    rewrite IH. cbn [map]. rewrite concat_empty_cons, append_assoc.
    reflexivity.
Qed.

Section Preamble.
Variable str_float : float -> string.

Lemma append_if_entry {A} (is_set : A -> bool) (render : A -> string)
    (v : option A) (parts : list string) (part : string) :
  (forall a, v = Some a -> part = render a) ->
  append_if (truthy_opt is_set v) parts part
  = (parts ++ entry is_set render v)%list.
Proof.
  intros Hr. unfold append_if, entry. destruct v as [a|]; cbn.
  - destruct (is_set a); [now rewrite (Hr a eq_refl) | now rewrite app_nil_r].
  - now rewrite app_nil_r.
Qed.

Lemma context_parts_entries (d : details) :
  context_parts str_float d
  = (let '(goal, experience, _, _, _, _, _, _, _, _) := d in
     ("Goal: " ++ str_opt goal)
     :: ("Experience: " ++ str_opt experience)
     :: optional_entries str_float d).
Proof.
  destruct d as [[[[[[[[[goal experience] age] sex] height] weight] activity]
                    diet] equip] notes].
  unfold context_parts, optional_entries.
  rewrite (append_if_entry truthy_str (fun s => "General Notes: " ++ s))
    by (intros a ->; reflexivity).
  rewrite (append_if_entry truthy_str (fun s => "Equipment: " ++ s))
    by (intros a ->; reflexivity).
  rewrite (append_if_entry truthy_str (fun s => "Dietary Notes: " ++ s))
    by (intros a ->; reflexivity).
  rewrite (append_if_entry truthy_str (fun s => "Activity Level: " ++ s))
    by (intros a ->; reflexivity).
  rewrite (append_if_entry truthy_float
             (fun x => "Weight: " ++ str_float x ++ " kg"))
    by (intros a ->; reflexivity).
  rewrite (append_if_entry truthy_float
             (fun h => "Height: " ++ str_float h ++ " cm"))
    by (intros a ->; reflexivity).
  rewrite (append_if_entry truthy_str (fun s => "Sex: " ++ s))
    by (intros a ->; reflexivity).
  rewrite (append_if_entry truthy_int (fun a => "Age: " ++ str_int a))
    by (intros a ->; reflexivity).
  cbn [List.concat]. rewrite <- !app_assoc, app_nil_r. reflexivity.
Qed.

End Preamble.

(** C4.  The preamble of a profile with goal "Lose fat", experience
    "Beginner" and nothing else set is exactly "Goal: Lose fat; Experience:
    Beginner".  In general it is the goal, then the experience, then one
    entry for each optional attribute that is set, every entry after the
    first preceded by "; " and nothing after the last.  For every non-empty
    prompt the handler stores one user turn whose content is the prompt as
    typed; whatever else it stores is an assistant turn; the prompt with its
    preamble is the last message of the request sent to the model. *)
Theorem preamble_and_user_turn (SYSTEM_PROMPT : string)
    (str_float : float -> string) :
  context_string str_float
    (Some "Lose fat", Some "Beginner", None, None, None, None, None, None,
     None, None)
  = "Goal: Lose fat; Experience: Beginner"
  /\ (forall d : details,
        context_string str_float d
        = let '(goal, experience, _, _, _, _, _, _, _, _) := d in
          "Goal: " ++ str_opt goal ++ "; Experience: " ++ str_opt experience
          ++ String.concat ""
               (map (fun e => "; " ++ e) (optional_entries str_float d)))
  /\ (forall (w : world) (prompt : string),
        prompt <> "" ->
        let w' := snd (handle_chat_input SYSTEM_PROMPT str_float prompt w) in
        exists turn rest,
          chat_history (db w') = (chat_history (db w) ++ turn :: rest)%list
          /\ chat_profile_id turn = current_profile_id w
          /\ role turn = "user"
          /\ content turn = prompt
          /\ Forall (fun r => role r = "assistant") rest
          /\ (forall c, client w = Some c ->
              exists req before,
                sent w' = (sent w ++ [req])%list
                /\ messages req
                   = (before
                      ++ [{| msg_role := "user";
                             msg_content :=
                               "(My Profile: "
                               ++ context_string str_float
                                    (fst (get_profile_details
                                            (current_profile_id w) w))
                               ++ ")\n\n" ++ prompt |}])%list)).
Proof.
  split; [reflexivity|]. split.
  - intros d. unfold context_string. rewrite context_parts_entries.
    destruct d as [[[[[[[[[goal experience] age] sex] height] weight]
                      activity] diet] equip] notes].
    rewrite join_cons. cbn [map]. rewrite concat_empty_cons.
    rewrite !append_assoc. reflexivity.
  - intros w prompt Hne w'. subst w'.
    destruct (handle_chat_input_history SYSTEM_PROMPT str_float w prompt Hne)
      as (i & j & Hhist).
    eexists. eexists. split; [exact Hhist|].
    split; [reflexivity|]. split; [reflexivity|]. split; [reflexivity|].
    split.
    + cbv zeta. destruct (persisted _); repeat constructor.
    + intros c Hc.
      destruct (handle_chat_input_sends SYSTEM_PROMPT str_float w prompt c
                  Hne Hc) as (req & Hsent & Hmsgs & _).
      exists req. eexists. split; [exact Hsent|].
      rewrite Hmsgs. unfold outbound, contextual_prompt.
      rewrite app_comm_cons. reflexivity.
Qed.

Lemma preamble_and_user_turn_witness :
  let w := set_client two_profiles (Some answering) in
  exists turn rest,
    chat_history
      (db (snd (handle_chat_input "You are a coach." (fun _ => "80.0")
                  "How do I squat?" w)))
    = (chat_history (db w) ++ turn :: rest)%list
    /\ content turn = "How do I squat?".
Proof.
  intros w.
  destruct (preamble_and_user_turn "You are a coach." (fun _ => "80.0"))
    as (_ & _ & H).
  destruct (H w "How do I squat?") as (turn & rest & E & _ & _ & Hc & _).
  - discriminate.
  - exists turn, rest. split; [exact E | exact Hc].
Defined.

(** *** Which responses reach the store *)

(** The text substituted on a [GroqError] starts with the prefix the guard
    looks for, so it is never stored. *)
Lemma api_error_text_not_persisted (message_ : string) :
  persisted
    ("Sorry, I encountered an API error. Please check the console or logs for details: "
     ++ message_) = false.
Proof. reflexivity. Qed.

(** The text substituted on any other exception starts differently, so the
    guard lets it through. *)
Lemma unexpected_error_text_persisted (text : string) :
  persisted ("Sorry, an unexpected error occurred: " ++ text) = true.
Proof. reflexivity. Qed.

Lemma blank_not_persisted :
  persisted "" = false
  /\ persisted (" " ++ nl ++ String (ascii_of_nat 9) "") = false.
Proof. split; reflexivity. Qed.

(** When the call or the stream fails with a [GroqError], the handler
    stores the user's turn and nothing else. *)
Lemma groq_error_leaves_history (SYSTEM_PROMPT : string)
    (str_float : float -> string) (w : world) (prompt : string) (c : groq)
    (status : Z) (message_ text : string) (deltas : list (option string)) :
  prompt <> "" ->
  client w = Some c ->
  (forall r, c r = Raise (GroqError status message_ text)
             \/ c r = Streaming deltas (Some (GroqError status message_ text))) ->
  exists i,
    chat_history
      (db (snd (handle_chat_input SYSTEM_PROMPT str_float prompt w)))
    = (chat_history (db w)
       ++ [{| chat_id := i; chat_profile_id := current_profile_id w;
              chat_timestamp := now w; role := "user";
              content := prompt |}])%list.
Proof.
  intros Hne Hc Hfail.
  destruct (handle_chat_input_history SYSTEM_PROMPT str_float w prompt Hne)
    as (i & j & Hhist).
  exists i. rewrite Hhist. f_equal. f_equal.
  destruct (save_chat_message_spec w (current_profile_id w) "user" prompt)
    as (d' & i' & E & _).
  assert (Hfull : fst (stream_completion
                         (outbound SYSTEM_PROMPT str_float w prompt)
                         (submitted w prompt))
                  = "Sorry, I encountered an API error. Please check the console or logs for details: "
                    ++ message_).
  { unfold stream_completion, bind, submitted. rewrite E.
    cbn [snd client set_messages set_db temperature_slider]. rewrite Hc.
    unfold create. destruct (Hfail
      {| model := GROQ_MODEL;
         messages := outbound SYSTEM_PROMPT str_float w prompt;
         temperature :=
           match temperature_slider w with
           | Some v => v
           | None => 0.7%float
           end;
         max_tokens := 2000; top_p := 1; stream := true |}) as [-> | ->];
      reflexivity. }
  cbv zeta. rewrite Hfull, api_error_text_not_persisted. reflexivity.
Qed.

(** C1 (the code departs from it).  The stream breaks with an exception that
    is not a [GroqError]; the handler substitutes "Sorry, an unexpected error
    occurred: ..." and stores that text as an assistant turn after the
    user's turn. *)
Theorem unexpected_error_text_is_stored (SYSTEM_PROMPT : string)
    (str_float : float -> string) :
  let w := set_client boot (Some breaking) in
  chat_history (db w) = []
  /\ map (fun r => (chat_profile_id r, role r, content r))
       (chat_history
          (db (snd (handle_chat_input SYSTEM_PROMPT str_float
                      "How do I squat?" w))))
     = [ (1, "user", "How do I squat?");
         (1, "assistant",
          "Sorry, an unexpected error occurred: list index out of range") ].
Proof. split; reflexivity. Qed.

(** The same prompt against an endpoint that answers, and against one that
    refuses with a status error. *)
Example answered_turn_is_stored (SYSTEM_PROMPT : string)
    (str_float : float -> string) :
  map (fun r => (role r, content r))
    (chat_history
       (db (snd (handle_chat_input SYSTEM_PROMPT str_float "How do I squat?"
                   (set_client boot (Some answering))))))
  = [ ("user", "How do I squat?"); ("assistant", "Keep going!") ]
  /\ map (fun r => (role r, content r))
       (chat_history
          (db (snd (handle_chat_input SYSTEM_PROMPT str_float
                      "How do I squat?"
                      (set_client boot (Some refusing))))))
     = [ ("user", "How do I squat?") ].
Proof. split; reflexivity. Qed.

(** *** The clock invariant across the generator and the handler *)

Lemma create_keeps (c : groq) (r : request) :
  keeps_turns_in_past (create c r).
Proof. intros w H. exact H. Qed.

Lemma schedule_failed_keeps (e : api_error) :
  keeps_turns_in_past (schedule_failed e).
Proof.
  destruct e; cbn [schedule_failed];
    (apply keeps_bind; [apply keeps_print|]; intros _;
     apply keeps_bind; [apply keeps_st_error|]; intros _; apply keeps_ret).
Qed.

Lemma generate_and_save_schedule_keeps (p : Z) :
  keeps_turns_in_past (generate_and_save_schedule p).
Proof.
  unfold generate_and_save_schedule.
  apply keeps_bind; [apply keeps_print|]. intros _.
  apply keeps_bind; [apply get_profile_details_keeps|]. intros d.
  apply keeps_bind; [apply (keeps_read client)|]. intros [c|].
  - apply keeps_bind; [apply keeps_print|]. intros _.
    apply keeps_bind; [apply create_keeps|]. intros [C|ds b|e].
    + apply keeps_bind; [apply keeps_print|]. intros _.
      apply keeps_bind; [apply save_chat_message_keeps|]. intros [|].
      * apply keeps_bind; [apply keeps_print | intros _; apply keeps_ret].
      * apply keeps_bind; [apply keeps_st_error | intros _; apply keeps_ret].
    + apply schedule_failed_keeps.
    + apply schedule_failed_keeps.
  - apply keeps_bind; [apply keeps_st_error | intros _; apply keeps_ret].
Qed.

Lemma chat_failed_keeps (e : api_error) : keeps_turns_in_past (chat_failed e).
Proof.
  destruct e; cbn [chat_failed];
    (apply keeps_bind; [apply keeps_st_error|]; intros _;
     apply keeps_bind; [apply keeps_print|]; intros _; apply keeps_ret).
Qed.

Lemma stream_completion_keeps (msgs : list message) :
  keeps_turns_in_past (stream_completion msgs).
Proof.
  unfold stream_completion.
  apply keeps_bind; [apply (keeps_read client)|]. intros c.
  apply keeps_bind; [apply (keeps_read temperature_slider)|]. intros t.
  destruct c as [c|]; [|apply chat_failed_keeps].
  apply keeps_bind; [apply create_keeps|].
  intros [C|ds [e|]|e]; try apply chat_failed_keeps. apply keeps_ret.
Qed.

Lemma append_message_keeps (m : message) :
  keeps_turns_in_past (append_message m).
Proof. intros w H. exact H. Qed.

Lemma finalize_keeps (p : Z) (full_response : string) :
  keeps_turns_in_past (finalize p full_response).
Proof.
  unfold finalize. destruct (persisted full_response).
  - apply keeps_bind; [apply save_chat_message_keeps|]. intros _.
    apply append_message_keeps.
  - destruct (_ || _); [apply keeps_print | apply keeps_ret].
Qed.

Lemma handle_chat_input_keeps (SYSTEM_PROMPT : string)
    (str_float : float -> string) (prompt : string) :
  keeps_turns_in_past (handle_chat_input SYSTEM_PROMPT str_float prompt).
Proof.
  unfold handle_chat_input. destruct (truthy_str prompt); [|apply keeps_ret].
  apply keeps_bind; [apply (keeps_read current_profile_id)|]. intros p.
  apply keeps_bind; [apply save_chat_message_keeps|]. intros _.
  apply keeps_bind; [apply append_message_keeps|]. intros _.
  apply keeps_bind; [apply (keeps_read session_messages)|]. intros h.
  apply keeps_bind; [apply get_profile_details_keeps|]. intros d.
  apply keeps_bind; [apply stream_completion_keeps|]. intros full.
  apply finalize_keeps.
Qed.

End ChatFacts.

(* ================================================================== *)
(** ** Properties of the profile table                                 *)
(* ================================================================== *)

Module ProfileFacts.
Import Py Sqlite App Props Scenario Invariants Page OrderFacts StoreFacts.

Lemma next_rowid_above (seq : Z) (rowids : list Z) :
  seq < next_rowid seq rowids
  /\ Forall (fun i => i < next_rowid seq rowids) rowids.
Proof.
  unfold next_rowid. induction rowids as [|i l [IH1 IH2]]; cbn.
  - split; [lia | constructor].
  - split; [lia|]. constructor; [lia|].
    eapply Forall_impl; [|exact IH2]. cbn. intros j Hj. lia.
Qed.

Lemma set_db_same (w : world) : set_db w (db w) = w.
Proof. destruct w; reflexivity. Qed.

Lemma has_name_false (d : database) (name : string) :
  has_name d name = false -> ~ In name (map profile_name (user_profile d)).
Proof.
  intros Hno Hin. apply in_map_iff in Hin. destruct Hin as (r & <- & Hr).
  assert (has_name d (profile_name r) = true)
    by (apply has_name_true; eauto).
  congruence.
Qed.

Lemma has_profile_true (d : database) (pid : Z) :
  has_profile d pid = true <-> In pid (map profile_id (user_profile d)).
Proof.
  unfold has_profile. rewrite existsb_exists, in_map_iff.
  split; intros (r & H1 & H2).
  - exists r. split; [now apply Z.eqb_eq | assumption].
  - exists r. split; [assumption | now apply Z.eqb_eq].
Qed.

Lemma NoDup_map_filter {A B} (f : A -> B) (g : A -> bool) (l : list A) :
  NoDup (map f l) -> NoDup (map f (filter g l)).
Proof.
  induction l as [|a l IH]; cbn; [trivial|].
  intros H. inversion H as [|x xs Hnot Hnd]; subst.
  destruct (g a); cbn; [|now apply IH].
  constructor; [|now apply IH].
  intros Hin. apply Hnot. apply in_map_iff in Hin.
  destruct Hin as (b & Hb & Hbin). apply filter_In in Hbin.
  apply in_map_iff. exists b. tauto.
Qed.

(** What a successful INSERT into [user_profile] does. *)
Lemma insert_profile_fresh (d : database) (name : string) :
  has_name d name = false ->
  exists new_id d',
    insert_profile d name = Done (new_id, d')
    /\ new_id = next_rowid (seq_user_profile d) (map profile_id (user_profile d))
    /\ user_profile d'
       = (user_profile d
          ++ [{| profile_id := new_id; profile_name := name;
                 profile_details := default_details |}])%list
    /\ chat_history d' = chat_history d
    /\ workout_log d' = workout_log d
    /\ seq_user_profile d' = new_id.
Proof.
  intros Hno. unfold insert_profile. rewrite Hno.
  eexists. eexists. repeat split.
Qed.

Lemma insert_profile_ok (d : database) (name : string) (i : Z)
    (d' : database) :
  profiles_ok d -> insert_profile d name = Done (i, d') -> profiles_ok d'.
Proof.
  intros (Hid & Hnm & Hseq) E.
  destruct (has_name d name) eqn:Hno;
    [unfold insert_profile in E; rewrite Hno in E; discriminate|].
  destruct (insert_profile_fresh d name Hno)
    as (j & d2 & E2 & Hj & Hprof & _ & _ & Hs).
  rewrite E2 in E. injection E as <- <-.
  destruct (next_rowid_above (seq_user_profile d)
              (map profile_id (user_profile d))) as [Hgt Hall].
  rewrite <- Hj in Hgt, Hall.
  unfold profiles_ok. rewrite Hprof, Hs, !map_app. cbn [map profile_id profile_name].
  repeat split.
  - apply NoDup_app; [assumption | repeat constructor; cbn; tauto |].
    intros x Hx [<-|[]]. rewrite Forall_forall in Hall. apply Hall in Hx. lia.
  - apply NoDup_app; [assumption | repeat constructor; cbn; tauto |].
    intros x Hx [<-|[]]. now apply (has_name_false d name).
  - apply Forall_app. split.
    + eapply Forall_impl; [|exact Hseq]. cbn. intros r Hr. lia.
    + repeat constructor. cbn. lia.
Qed.

Lemma profiles_ok_empty : profiles_ok empty_database.
Proof. repeat split; constructor. Qed.

Lemma init_db_db (w : world) :
  db (snd (init_db w)) = insert_or_ignore_default (db w).
Proof. reflexivity. Qed.

(** While no id exceeds the recorded sequence, the next key is the
    sequence plus one. *)
Lemma next_rowid_in_step (d : database) :
  profiles_ok d ->
  next_rowid (seq_user_profile d) (map profile_id (user_profile d))
  = seq_user_profile d + 1.
Proof.
  intros (_ & _ & Hseq). unfold next_rowid. f_equal.
  induction (user_profile d) as [|r l IH]; cbn; [reflexivity|].
  inversion Hseq as [|x xs Hr Hl]; subst. rewrite (IH Hl). lia.
Qed.

(** An INSERT OR IGNORE that is ignored keeps the consistency of the
    profile table: the rows stay and the sequence only grows. *)
Lemma ignored_insert_ok (d : database) :
  profiles_ok d ->
  profiles_ok
    {| user_profile := user_profile d;
       chat_history := chat_history d;
       workout_log := workout_log d;
       seq_user_profile :=
         next_rowid (seq_user_profile d) (map profile_id (user_profile d));
       seq_chat_history := seq_chat_history d;
       seq_workout_log := seq_workout_log d |}.
Proof.
  intros (Hid & Hnm & Hseq).
  destruct (next_rowid_above (seq_user_profile d)
              (map profile_id (user_profile d))) as [Hgt _].
  unfold profiles_ok. cbn. repeat split; try assumption.
  eapply Forall_impl; [|exact Hseq]. cbn. intros r Hr. lia.
Qed.

(** The id a successful [create_profile] returns. *)
Lemma create_profile_id (w : world) (name : string) :
  has_name (db w) name = false ->
  fst (create_profile name w)
  = Some (next_rowid (seq_user_profile (db w))
                     (map profile_id (user_profile (db w)))).
Proof.
  intros Hno. unfold create_profile, bind, execute, insert_profile.
  now rewrite Hno.
Qed.

(** X1.  [init_db] leaves a profile named "Default" in the store and never
    touches the turns or the log.  Every run uses up one key of
    [user_profile], whether the row is inserted or ignored: where "Default"
    is stored already the rows stay as they are and the sequence still
    advances, so the store is not left as it was, and the profile created
    next gets a key one larger than it would have got without that run. *)
Theorem init_db_default_uses_key (w : world) :
  has_name (db (snd (init_db w))) "Default" = true
  /\ chat_history (db (snd (init_db w))) = chat_history (db w)
  /\ workout_log (db (snd (init_db w))) = workout_log (db w)
  /\ seq_user_profile (db (snd (init_db w)))
     = next_rowid (seq_user_profile (db w))
                  (map profile_id (user_profile (db w)))
  /\ (has_name (db w) "Default" = false ->
      user_profile (db (snd (init_db w)))
      = (user_profile (db w)
         ++ [{| profile_id :=
                  next_rowid (seq_user_profile (db w))
                             (map profile_id (user_profile (db w)));
                profile_name := "Default";
                profile_details := default_details |}])%list)
  /\ (has_name (db w) "Default" = true ->
      user_profile (db (snd (init_db w))) = user_profile (db w)
      /\ snd (init_db w) <> w
      /\ forall name,
           profiles_ok (db w) -> has_name (db w) name = false ->
           fst (create_profile name w) = Some (seq_user_profile (db w) + 1)
           /\ fst (create_profile name (snd (init_db w)))
              = Some (seq_user_profile (db w) + 2)).
Proof.
  rewrite init_db_db. unfold insert_or_ignore_default.
  destruct (has_name (db w) "Default") eqn:H.
  - assert (E : insert_profile (db w) "Default"
                = Failed (IntegrityError
                    "UNIQUE constraint failed: user_profile.profile_name"))
      by (unfold insert_profile; now rewrite H).
    rewrite E. cbn [user_profile chat_history workout_log seq_user_profile].
    split; [exact H|]. do 3 (split; [reflexivity|]).
    split; [discriminate|]. intros _.
    split; [reflexivity|]. split.
    + intros Hw. apply (f_equal (fun x => seq_user_profile (db x))) in Hw.
      rewrite init_db_db in Hw. unfold insert_or_ignore_default in Hw.
      rewrite E in Hw. cbn [seq_user_profile] in Hw.
      pose proof (next_rowid_above (seq_user_profile (db w))
                    (map profile_id (user_profile (db w)))) as [Hgt _].
      lia.
    + intros name Hok Hno.
      rewrite (create_profile_id w name Hno), (next_rowid_in_step _ Hok).
      split; [reflexivity|].
      assert (Hno' : has_name (db (snd (init_db w))) name = false).
      { rewrite init_db_db. unfold insert_or_ignore_default.
        rewrite E. exact Hno. }
      rewrite (create_profile_id _ name Hno'), init_db_db.
      unfold insert_or_ignore_default. rewrite E.
      pose proof (next_rowid_in_step _ (ignored_insert_ok _ Hok)) as Hn.
      cbn [user_profile seq_user_profile] in Hn |- *.
      rewrite Hn, (next_rowid_in_step _ Hok). f_equal. lia.
  - destruct (insert_profile_fresh (db w) "Default" H)
      as (i & d' & E & Hi & Hprof & Hchat & Hlog & Hseq).
    rewrite E. subst i.
    split; [unfold has_name; rewrite Hprof, existsb_app; cbn;
            apply orb_true_r|].
    split; [exact Hchat|]. split; [exact Hlog|]. split; [exact Hseq|].
    split; [intros _; exact Hprof | discriminate].
Qed.

Lemma init_db_default_uses_key_witness :
  let w := snd (init_db boot) in
  user_profile (db w) = user_profile (db boot)
  /\ seq_user_profile (db boot) = 1
  /\ seq_user_profile (db w) = 2
  /\ fst (create_profile "Bob" w) = Some 3
  /\ fst (create_profile "Bob" (snd (init_db w))) = Some 4.
Proof.
  intros w.
  assert (Hok : profiles_ok (db w)).
  { repeat split; repeat constructor; cbn; try lia; intros []. }
  destruct (init_db_default_uses_key boot) as (_ & _ & _ & Hseq & _ & Hrows).
  destruct (Hrows eq_refl) as (Hsame & _ & _).
  destruct (init_db_default_uses_key w) as (_ & _ & _ & _ & _ & Hnext).
  destruct (Hnext eq_refl) as (_ & _ & Hids).
  destruct (Hids "Bob" Hok eq_refl) as [H3 H4].
  split; [exact Hsame|]. split; [reflexivity|]. split; [exact Hseq|].
  split; [exact H3 | exact H4].
Defined.

Lemma filter_all {A} (f : A -> bool) (l : list A) :
  (forall x, In x l -> f x = true) -> filter f l = l.
Proof.
  induction l as [|a l IH]; cbn; intros H; [reflexivity|].
  rewrite (H a (or_introl eq_refl)), IH; [reflexivity|]. intros; apply H; now right.
Qed.

Lemma delete_profile_db (w : world) (p : Z) :
  db (snd (delete_profile p w)) = db w
  \/ db (snd (delete_profile p w)) = delete_profile_row connect (db w) p.
Proof.
  unfold delete_profile, bind, get_all_profiles.
  destruct (_ <=? 1); [left | right]; reflexivity.
Qed.

Lemma delete_profile_row_tables (d : database) (p : Z) :
  chat_history (delete_profile_row connect d p) = chat_history d
  /\ workout_log (delete_profile_row connect d p) = workout_log d
  /\ seq_user_profile (delete_profile_row connect d p) = seq_user_profile d.
Proof.
  cbn. repeat split; apply filter_all; reflexivity.
Qed.

Lemma update_profile_row_columns (d : database) (p : Z) (x : details) :
  map profile_id (user_profile (update_profile_row d p x))
  = map profile_id (user_profile d)
  /\ map profile_name (user_profile (update_profile_row d p x))
     = map profile_name (user_profile d).
Proof.
  cbn. induction (user_profile d) as [|r l [IH1 IH2]]; cbn; [split; reflexivity|].
  rewrite IH1, IH2. destruct (profile_id r =? p); split; reflexivity.
Qed.

Lemma update_profile_row_ok (d : database) (p : Z) (x : details) :
  profiles_ok d -> profiles_ok (update_profile_row d p x).
Proof.
  intros (Hid & Hnm & Hseq).
  destruct (update_profile_row_columns d p x) as [E1 E2].
  unfold profiles_ok. rewrite E1, E2. repeat split; try assumption.
  cbn. apply Forall_forall. intros r Hr. apply in_map_iff in Hr.
  destruct Hr as (r0 & <- & Hr0). rewrite Forall_forall in Hseq.
  apply Hseq in Hr0. destruct (profile_id r0 =? p); exact Hr0.
Qed.

(** X2.  The constraints of the profile table hold in the empty store and
    are kept by every store function: ids stay unique, names stay unique,
    and no id exceeds the AUTOINCREMENT sequence. *)
Theorem profiles_ok_kept (w : world) :
  profiles_ok (db w) ->
  profiles_ok (db (snd (init_db w)))
  /\ (forall name, profiles_ok (db (snd (create_profile name w))))
  /\ (forall p goal experience age sex height weight activity diet equip
             notes,
        profiles_ok
          (db (snd (update_profile p goal experience age sex height weight
                      activity diet equip notes w))))
  /\ (forall p, profiles_ok (db (snd (delete_profile p w))))
  /\ (forall p r c, profiles_ok (db (snd (save_chat_message p r c w))))
  /\ (forall p, profiles_ok (db (snd (clear_profile_history p w))))
  /\ (forall p t n x, profiles_ok (db (snd (log_entry p t n x w)))).
Proof.
  intros Hok.
  assert (Hcreate : forall name, profiles_ok (db (snd (create_profile name w)))).
  { intros name. unfold create_profile, bind, execute.
    destruct (insert_profile (db w) name) as [[i d']|[t|t]] eqn:E; cbn;
      try exact Hok.
    exact (insert_profile_ok _ _ _ _ Hok E). }
  split.
  { rewrite init_db_db. unfold insert_or_ignore_default.
    destruct (insert_profile (db w) "Default") as [[i d']|e] eqn:E;
      [exact (insert_profile_ok _ _ _ _ Hok E)
      | exact (ignored_insert_ok _ Hok)]. }
  split; [exact Hcreate|]. split.
  { intros. exact (update_profile_row_ok _ _ _ Hok). }
  split.
  { intros p. destruct (delete_profile_db w p) as [-> | ->]; [exact Hok|].
    destruct Hok as (Hid & Hnm & Hseq). unfold profiles_ok. cbn.
    repeat split; try now apply NoDup_map_filter.
    now apply Forall_kept. }
  split.
  { intros p r c. destruct (save_chat_message_spec w p r c)
      as (d' & i & E & Hprof & _ & _). rewrite E. cbn.
    revert Hprof. unfold save_chat_message, bind, execute, insert_chat in E.
    cbn in E. injection E as <-. intros _. exact Hok. }
  split.
  { intros p. exact Hok. }
  { intros p t n x. exact Hok. }
Qed.

Lemma profiles_ok_kept_witness :
  profiles_ok (db (snd (delete_profile 2 two_profiles)))
  /\ profiles_ok (db (snd (create_profile "Ann" two_profiles))).
Proof.
  assert (Hok : profiles_ok (db two_profiles)).
  { repeat split; repeat constructor; cbn; try lia;
      intuition discriminate. }
  destruct (profiles_ok_kept two_profiles Hok) as (_ & Hc & _ & Hd & _).
  split; [apply Hd | apply Hc].
Defined.

Lemma find_app_none {A} (f : A -> bool) (l l' : list A) :
  (forall x, In x l -> f x = false) -> find f (l ++ l') = find f l'.
Proof.
  induction l as [|a l IH]; cbn; intros H; [reflexivity|].
  rewrite (H a (or_introl eq_refl)). apply IH. intros; apply H; now right.
Qed.

(** What a successful [create_profile] returns and leaves behind. *)
Lemma create_profile_run (w : world) (name : string) :
  has_name (db w) name = false ->
  exists new_id d',
    create_profile name w = (Some new_id, set_db w d')
    /\ seq_user_profile (db w) < new_id
    /\ Forall (fun r => profile_id r < new_id) (user_profile (db w))
    /\ user_profile d'
       = (user_profile (db w)
          ++ [{| profile_id := new_id; profile_name := name;
                 profile_details := default_details |}])%list
    /\ chat_history d' = chat_history (db w)
    /\ workout_log d' = workout_log (db w)
    /\ seq_user_profile d' = new_id.
Proof.
  intros Hno.
  destruct (insert_profile_fresh (db w) name Hno)
    as (i & d' & E & Hi & Hprof & Hchat & Hlog & Hseq).
  destruct (next_rowid_above (seq_user_profile (db w))
              (map profile_id (user_profile (db w)))) as [Hgt Hall].
  rewrite <- Hi in Hgt, Hall.
  exists i, d'.
  split; [unfold create_profile, bind, execute; now rewrite E|].
  split; [exact Hgt|]. split; [|repeat split; assumption].
  apply Forall_forall. intros r Hr. rewrite Forall_forall in Hall.
  apply Hall. now apply in_map.
Qed.

(** X3.  Creating a profile under a name that is not taken returns an id
    larger than every id in the table and than the recorded sequence; the
    new profile has the default attributes, shows up in the profile list
    under its name, and the list grows by one.  Turns and log entries are
    untouched. *)
Theorem create_profile_fresh (w : world) (name : string) :
  has_name (db w) name = false ->
  exists new_id w',
    create_profile name w = (Some new_id, w')
    /\ seq_user_profile (db w) < new_id
    /\ Forall (fun r => profile_id r < new_id) (user_profile (db w))
    /\ fst (get_profile_details new_id w') = default_details
    /\ In (new_id, name) (fst (get_all_profiles w'))
    /\ List.length (fst (get_all_profiles w'))
       = S (List.length (fst (get_all_profiles w)))
    /\ chat_history (db w') = chat_history (db w)
    /\ workout_log (db w') = workout_log (db w).
Proof.
  intros Hno.
  destruct (create_profile_run w name Hno)
    as (i & d' & E & Hgt & Hlt & Hprof & Hchat & Hlog & _).
  exists i, (set_db w d').
  split; [exact E|]. split; [exact Hgt|]. split; [exact Hlt|]. split.
  { unfold get_profile_details, select_details. cbn [db set_db].
    rewrite Hprof, find_app_none.
    - cbn. now rewrite Z.eqb_refl.
    - intros r Hr. rewrite Forall_forall in Hlt. apply Hlt in Hr.
      apply Z.eqb_neq. lia. }
  split.
  { unfold get_all_profiles, select_profiles. cbn [fst db set_db].
    apply in_map_iff.
    exists {| profile_id := i; profile_name := name;
              profile_details := default_details |}.
    split; [reflexivity|].
    eapply Permutation_in; [apply Permutation_sym, order_by_perm|].
    rewrite Hprof. apply in_or_app. right. now left. }
  split.
  { unfold get_all_profiles. cbn [fst db set_db].
    rewrite !select_profiles_length, Hprof, length_app. cbn. lia. }
  split; assumption.
Qed.

Lemma create_profile_fresh_witness :
  exists new_id w',
    create_profile "Ann" two_profiles = (Some new_id, w') /\ 2 < new_id.
Proof.
  destruct (create_profile_fresh two_profiles "Ann" eq_refl)
    as (i & w' & E & Hseq & _).
  exists i, w'. split; [exact E | exact Hseq].
Defined.

(** X4.  Ids are not handed out twice: after an existing profile has been
    deleted, a profile created next gets an id above the deleted one, even
    when the deleted profile had the largest id. *)
Theorem deleted_id_not_reused (w : world) (p : Z) (name : string)
    (new_id : Z) (w2 : world) :
  profiles_ok (db w) ->
  has_profile (db w) p = true ->
  create_profile name (snd (delete_profile p w)) = (Some new_id, w2) ->
  p < new_id.
Proof.
  intros (_ & _ & Hseq) Hp Hcreate.
  assert (Hle : p <= seq_user_profile (db w)).
  { apply has_profile_true, in_map_iff in Hp. destruct Hp as (r & <- & Hr).
    rewrite Forall_forall in Hseq. now apply Hseq. }
  assert (Hs : seq_user_profile (db (snd (delete_profile p w)))
               = seq_user_profile (db w)).
  { destruct (delete_profile_db w p) as [-> | ->]; reflexivity. }
  set (w1 := snd (delete_profile p w)) in *.
  destruct (has_name (db w1) name) eqn:Hn.
  - unfold create_profile, bind, execute, insert_profile in Hcreate.
    rewrite Hn in Hcreate. discriminate.
  - destruct (create_profile_run w1 name Hn) as (i & d' & E & Hgt & _).
    rewrite E in Hcreate. injection Hcreate as <- _. lia.
Qed.

Lemma deleted_id_not_reused_witness :
  exists new_id w2,
    create_profile "Ann" (snd (delete_profile 2 two_profiles))
    = (Some new_id, w2) /\ 2 < new_id.
Proof.
  assert (Hok : profiles_ok (db two_profiles)).
  { repeat split; repeat constructor; cbn; try lia;
      intuition discriminate. }
  eexists. eexists. split; [reflexivity|].
  apply (deleted_id_not_reused two_profiles 2 "Ann" _ _ Hok eq_refl eq_refl).
Defined.

(** X5.  A new profile starts with an empty history.  Turns of deleted
    profiles stay in the table, but as long as every stored turn refers to
    an id that has been handed out, none of them is attributed to a profile
    created later. *)
Theorem new_profile_starts_empty (w : world) (name : string) :
  turns_refer_back (db w) ->
  has_name (db w) name = false ->
  exists new_id w',
    create_profile name w = (Some new_id, w')
    /\ fst (load_chat_history new_id w') = []
    /\ turns_refer_back (db w').
Proof.
  intros Hback Hno.
  destruct (create_profile_run w name Hno)
    as (i & d' & E & Hgt & _ & _ & Hchat' & _ & Hseq').
  exists i, (set_db w d'). split; [exact E|].
  assert (Hchat : chat_history (db (set_db w d')) = chat_history (db w))
    by exact Hchat'.
  assert (Hseq : seq_user_profile (db (set_db w d')) = i) by exact Hseq'.
  split.
  - rewrite load_chat_history_rows. cbn [fst]. unfold select_chat.
    rewrite Hchat.
    replace (filter (fun r => chat_profile_id r =? i) (chat_history (db w)))
      with (@nil chat_row); [reflexivity|].
    symmetry. unfold turns_refer_back in Hback. clear Hchat Hchat'.
    induction Hback as [|r l Hr Hl IH]; cbn; [reflexivity|].
    destruct (Z.eqb_spec (chat_profile_id r) i); [lia | exact IH].
  - unfold turns_refer_back. rewrite Hchat, Hseq.
    eapply Forall_impl; [|exact Hback]. cbn. intros r Hr. lia.
Qed.

Lemma new_profile_starts_empty_witness :
  exists new_id w',
    create_profile "Ann" (snd (delete_profile 2 two_profiles))
    = (Some new_id, w')
    /\ fst (load_chat_history new_id w') = []
    /\ List.length (chat_history (db w')) = 1%nat.
Proof.
  assert (Hback : turns_refer_back (db (snd (delete_profile 2 two_profiles)))).
  { repeat constructor. cbn. lia. }
  destruct (new_profile_starts_empty _ "Ann" Hback eq_refl)
    as (i & w' & E & Hload & _).
  exists i, w'. split; [exact E|]. split; [exact Hload|].
  cbn in E. injection E as _ <-. reflexivity.
Defined.

Lemma order_by_map {A K} (key : A -> K) (leK : K -> K -> bool) (l : list A) :
  map key (order_by (fun a b => leK (key a) (key b)) l)
  = order_by leK (map key l).
Proof.
  induction l as [|x l IH]; cbn; [reflexivity|].
  unfold order_by in IH. rewrite <- IH.
  generalize (fold_right (insert_by (fun a b => leK (key a) (key b))) [] l).
  intros s. induction s as [|y s IHs]; cbn; [reflexivity|].
  destruct (leK (key x) (key y)); cbn; [reflexivity | now rewrite IHs].
Qed.

(** The profile list depends on the ids and names only. *)
Lemma select_profiles_by_key (d : database) :
  select_profiles d
  = order_by (fun a b => String.leb (snd a) (snd b))
      (map (fun r => (profile_id r, profile_name r)) (user_profile d)).
Proof.
  unfold select_profiles.
  exact (order_by_map (fun r => (profile_id r, profile_name r))
           (fun a b => String.leb (snd a) (snd b)) (user_profile d)).
Qed.

Lemma update_profile_row_keys (d : database) (p : Z) (x : details) :
  map (fun r => (profile_id r, profile_name r))
    (user_profile (update_profile_row d p x))
  = map (fun r => (profile_id r, profile_name r)) (user_profile d).
Proof.
  cbn. induction (user_profile d) as [|r l IH]; cbn; [reflexivity|].
  rewrite IH. destruct (profile_id r =? p); reflexivity.
Qed.

Lemma find_map_update (p q : Z) (x : details) (l : list profile_row) :
  option_map profile_details
    (find (fun r => profile_id r =? q)
       (map (fun r => if profile_id r =? p
                      then {| profile_id := profile_id r;
                              profile_name := profile_name r;
                              profile_details := x |}
                      else r) l))
  = if q =? p
    then option_map (fun _ => x) (find (fun r => profile_id r =? q) l)
    else option_map profile_details (find (fun r => profile_id r =? q) l).
Proof.
  induction l as [|r l IH]; cbn; [destruct (q =? p); reflexivity|].
  destruct (Z.eqb_spec (profile_id r) p) as [Hp|Hp]; cbn.
  - destruct (Z.eqb_spec (profile_id r) q) as [Hq|Hq]; cbn.
    + replace (q =? p) with true by (symmetry; apply Z.eqb_eq; lia).
      reflexivity.
    + exact IH.
  - destruct (Z.eqb_spec (profile_id r) q) as [Hq|Hq]; cbn.
    + replace (q =? p) with false by (symmetry; apply Z.eqb_neq; lia).
      reflexivity.
    + exact IH.
Qed.

(** *** What a REAL column keeps *)

Example real_column_samples :
  real_column (Some PrimFloat.nan) = None
  /\ real_column (Some PrimFloat.neg_zero) = Some 0%float
  /\ real_column (Some PrimFloat.infinity) = Some PrimFloat.infinity
  /\ real_column (Some 72.5%float) = Some 72.5%float
  /\ real_column None = None.
Proof. vm_compute. repeat split. Qed.

(** A float greater than zero is neither NaN nor a zero: the column holds
    it as written. *)
Lemma real_column_positive (f : float) :
  (0 <? f)%float = true -> real_column (Some f) = Some f.
Proof.
  intros H.
  assert (Z0 : Prim2SF 0%float = S754_zero false)
    by (vm_compute; reflexivity).
  unfold real_column, PrimFloat.is_nan, PrimFloat.is_zero, PrimFloat.zero.
  rewrite !eqb_spec. rewrite ltb_spec in H. rewrite Z0 in H |- *.
  unfold SFltb, SFeqb, SFcompare in H |- *.
  destruct (Prim2SF f) as [s|s| |s m e]; try discriminate.
  - destruct s; [discriminate | reflexivity].
  - destruct s; [discriminate|].
    rewrite Z.compare_refl.
    change (PosDef.Pos.compare_cont Eq m m) with (Pos.compare m m).
    now rewrite Pos.compare_refl.
Qed.

Lemma real_column_positive_or_none (x : float) :
  real_column (positive_or_none x) = positive_or_none x.
Proof.
  unfold positive_or_none. destruct (0 <? x)%float eqn:H; [|reflexivity].
  now apply real_column_positive.
Qed.

Lemma real_column_save_weight_value (type_ : string) (x : float) :
  real_column (save_weight_value type_ x) = save_weight_value type_ x.
Proof.
  unfold save_weight_value.
  destruct (String.eqb type_ "Weigh-in"); cbn [andb]; [|reflexivity].
  destruct (0 <? x)%float eqn:H; [|reflexivity].
  now apply real_column_positive.
Qed.

(** X6.  [update_profile] on an existing profile returns [True].  Reading
    the profile back gives the eight text and integer values as written and
    the height and the weight as the REAL columns hold them: a NaN reads
    back as [None], a negative zero as 0.0, every other float as written.
    So the values the page saves, [None] or a float greater than zero, are
    read back exactly.  Every other profile reads as before, and the
    profile list, the turns and the log are unchanged. *)
Theorem update_then_get (w : world) (p : Z) (goal experience : option string)
    (age : option Z) (sex : option string) (height weight : option float)
    (activity diet equip notes_ : option string) :
  has_profile (db w) p = true ->
  let w' := snd (update_profile p goal experience age sex height weight
                   activity diet equip notes_ w) in
  fst (update_profile p goal experience age sex height weight activity diet
         equip notes_ w) = true
  /\ fst (get_profile_details p w')
     = (goal, experience, age, sex, real_column height, real_column weight,
        activity, diet, equip, notes_)
  /\ ((exists h, height = positive_or_none h) ->
      (exists k, weight = positive_or_none k) ->
      fst (get_profile_details p w')
      = (goal, experience, age, sex, height, weight, activity, diet, equip,
         notes_))
  /\ (forall q, q <> p ->
        fst (get_profile_details q w') = fst (get_profile_details q w))
  /\ fst (get_all_profiles w') = fst (get_all_profiles w)
  /\ chat_history (db w') = chat_history (db w)
  /\ workout_log (db w') = workout_log (db w).
Proof.
  intros Hp w'. subst w'.
  set (x := (goal, experience, age, sex, height, weight, activity, diet,
             equip, notes_)).
  assert (E : update_profile p goal experience age sex height weight activity
                diet equip notes_ w
              = (true, set_db w (update_profile_row (db w) p x)))
    by reflexivity.
  rewrite E. cbn [fst snd].
  split; [reflexivity|].
  unfold get_profile_details, select_details.
  cbn [db set_db user_profile update_profile_row].
  assert (Hread :
    fst match
          option_map profile_details
            (find (fun r => profile_id r =? p)
               (map (fun r => if profile_id r =? p
                      then {| profile_id := profile_id r;
                              profile_name := profile_name r;
                              profile_details := stored_details x |}
                      else r) (user_profile (db w))))
        with
        | Some profile =>
            (profile, set_db w (update_profile_row (db w) p x))
        | None =>
            (default_details, set_db w (update_profile_row (db w) p x))
        end
    = (goal, experience, age, sex, real_column height, real_column weight,
       activity, diet, equip, notes_)).
  { rewrite find_map_update, Z.eqb_refl.
    destruct (find (fun r => profile_id r =? p) (user_profile (db w)))
      as [r|] eqn:Hf; [reflexivity|].
    exfalso. apply has_profile_true, in_map_iff in Hp.
    destruct Hp as (r & Hr & Hin).
    apply (find_none _ _ Hf) in Hin. apply Z.eqb_neq in Hin. contradiction. }
  split; [exact Hread|].
  split.
  { intros [h ->] [k ->]. rewrite Hread.
    now rewrite !real_column_positive_or_none. }
  split.
  { clear Hread. intros q Hq. rewrite find_map_update.
    replace (q =? p) with false by (symmetry; now apply Z.eqb_neq).
    destruct (option_map _ _); reflexivity. }
  split; [|split; reflexivity].
  unfold get_all_profiles. cbn [fst].
  rewrite !select_profiles_by_key. f_equal.
  apply update_profile_row_keys.
Qed.

Lemma update_then_get_witness :
  fst (get_profile_details 2
         (snd (update_profile 2 (Some "Lose fat") (Some "Beginner") (Some 30)
                 None (Some PrimFloat.nan) (Some 72.5%float) None None None
                 None two_profiles)))
  = (Some "Lose fat", Some "Beginner", Some 30, None, None,
     Some 72.5%float, None, None, None, None).
Proof.
  destruct (update_then_get two_profiles 2 (Some "Lose fat")
              (Some "Beginner") (Some 30) None (Some PrimFloat.nan)
              (Some 72.5%float) None None None None eq_refl)
    as (_ & H & _).
  exact H.
Defined.

Lemma update_profile_row_missing (d : database) (p : Z) (x : details) :
  has_profile d p = false -> update_profile_row d p x = d.
Proof.
  intros Hp. unfold update_profile_row.
  assert (Hmap : map (fun r => if profile_id r =? p
                               then {| profile_id := profile_id r;
                                       profile_name := profile_name r;
                                       profile_details := stored_details x |}
                               else r) (user_profile d)
                 = user_profile d).
  { unfold has_profile in Hp.
    induction (user_profile d) as [|r l IH]; [reflexivity|].
    cbn in Hp. apply orb_false_iff in Hp. destruct Hp as [Hr Hl].
    cbn. rewrite Hr, (IH Hl). reflexivity. }
  rewrite Hmap. destruct d; reflexivity.
Qed.

(** X7.  [update_profile] with an id that no profile has also returns
    [True], and leaves the store exactly as it was: the caller is not told
    that nothing was updated. *)
Theorem update_missing_is_silent (w : world) (p : Z)
    (goal experience : option string) (age : option Z) (sex : option string)
    (height weight : option float)
    (activity diet equip notes_ : option string) :
  has_profile (db w) p = false ->
  update_profile p goal experience age sex height weight activity diet equip
    notes_ w = (true, w).
Proof.
  intros Hp.
  change (update_profile p goal experience age sex height weight activity
            diet equip notes_ w)
    with (true, set_db w (update_profile_row (db w) p
                            (goal, experience, age, sex, height, weight,
                             activity, diet, equip, notes_))).
  now rewrite (update_profile_row_missing _ _ _ Hp), set_db_same.
Qed.

Lemma update_missing_is_silent_witness :
  fst (update_profile 7 None None None None None None None None None None
         two_profiles) = true
  /\ db (snd (update_profile 7 None None None None None None None None None
                None two_profiles)) = db two_profiles.
Proof.
  rewrite (update_missing_is_silent two_profiles 7 None None None None None
             None None None None None eq_refl).
  split; reflexivity.
Defined.

Lemma filter_out_one (p : Z) (l : list profile_row) :
  NoDup (map profile_id l) ->
  In p (map profile_id l) ->
  S (List.length (filter (fun r => negb (profile_id r =? p)) l))
  = List.length l.
Proof.
  induction l as [|r l IH]; cbn; intros Hnd Hin; [contradiction|].
  inversion Hnd as [|x xs Hnot Hnd']; subst.
  destruct (Z.eqb_spec (profile_id r) p) as [Hp|Hp]; cbn.
  - rewrite filter_all; [reflexivity|].
    intros y Hy. apply negb_true_iff, Z.eqb_neq. intros Hyp.
    apply Hnot. rewrite Hp, <- Hyp. now apply in_map.
  - destruct Hin as [Hin|Hin]; [contradiction|]. now rewrite IH.
Qed.

Lemma filter_out_none (p : Z) (l : list profile_row) :
  ~ In p (map profile_id l) ->
  filter (fun r => negb (profile_id r =? p)) l = l.
Proof.
  intros Hno. apply filter_all. intros y Hy.
  apply negb_true_iff, Z.eqb_neq. intros Hyp. apply Hno.
  rewrite <- Hyp. now apply in_map.
Qed.

(** X20.  The store is never left without a profile: [delete_profile]
    turns down the request when at most one profile is left, and otherwise
    removes exactly the one profile with the given id.  With an id that no
    profile has it still returns [True], having removed nothing. *)
Theorem never_without_profile (w : world) (p : Z) :
  profiles_ok (db w) ->
  user_profile (db w) <> [] ->
  let w' := snd (delete_profile p w) in
  user_profile (db w') <> []
  /\ (fst (delete_profile p w) = true ->
      has_profile (db w) p = true ->
      has_profile (db w') p = false
      /\ S (List.length (user_profile (db w')))
         = List.length (user_profile (db w)))
  /\ (fst (delete_profile p w) = true ->
      has_profile (db w) p = false ->
      db w' = db w).
Proof.
  intros (Hid & _ & _) Hne w'. subst w'.
  destruct (Nat.le_gt_cases (List.length (user_profile (db w))) 1) as [H1|H2].
  - assert (E : delete_profile p w
                = (false, add_output w (StError "Cannot delete the last profile."))).
    { unfold delete_profile, bind, get_all_profiles.
      rewrite select_profiles_length.
      destruct (Z.leb_spec (Z.of_nat (List.length (user_profile (db w)))) 1);
        [reflexivity | lia]. }
    rewrite E. cbn [fst snd db add_output].
    split; [exact Hne|]. split; discriminate.
  - destruct (delete_profile_effect w p H2) as (d' & E & Hprof & Hchat & Hlog).
    rewrite E. cbn [fst snd db set_db].
    destruct (has_profile (db w) p) eqn:Hp.
    + assert (Hin : In p (map profile_id (user_profile (db w))))
        by now apply has_profile_true.
      pose proof (filter_out_one p _ Hid Hin) as Hlen.
      rewrite <- Hprof in Hlen.
      split; [intros Hnil; rewrite Hnil in Hlen; cbn in Hlen; lia|].
      split; [|discriminate]. intros _ _. split; [|exact Hlen].
      destruct (has_profile d' p) eqn:Hp'; [|reflexivity].
      apply has_profile_true in Hp'. rewrite Hprof in Hp'.
      apply in_map_iff in Hp'. destruct Hp' as (r & Hr & Hrin).
      apply filter_In in Hrin. destruct Hrin as [_ Hrp].
      apply negb_true_iff, Z.eqb_neq in Hrp. contradiction.
    + assert (Hno : ~ In p (map profile_id (user_profile (db w)))).
      { intros Hin. apply has_profile_true in Hin. congruence. }
      assert (Hsame : d' = db w).
      { unfold delete_profile, bind, get_all_profiles, execute in E.
        rewrite select_profiles_length in E.
        destruct (Z.leb_spec (Z.of_nat (List.length (user_profile (db w)))) 1);
          [lia|].
        cbn in E. injection E as <-.
        destruct (delete_profile_row_tables (db w) p) as (Hc & Hl & _).
        unfold delete_profile_row in *. cbn in Hc, Hl.
        rewrite (filter_out_none p _ Hno).
        cbn [foreign_keys connect andb negb].
        rewrite Hc, Hl. destruct (db w); reflexivity. }
      rewrite Hsame. split; [exact Hne|]. split; [discriminate|].
      intros _ _. reflexivity.
Qed.

Lemma never_without_profile_witness :
  List.length (user_profile (db (snd (delete_profile 2 two_profiles))))
  = 1%nat
  /\ user_profile
       (db (snd (delete_profile 1 (snd (delete_profile 2 two_profiles)))))
     <> [].
Proof.
  assert (Hok : profiles_ok (db two_profiles)).
  { repeat split; repeat constructor; cbn; try lia;
      intuition discriminate. }
  assert (Hne : user_profile (db two_profiles) <> []) by discriminate.
  destruct (never_without_profile two_profiles 2 Hok Hne) as (_ & H & _).
  destruct (H eq_refl eq_refl) as (_ & Hlen).
  split; [apply eq_add_S; exact Hlen | discriminate].
Defined.

End ProfileFacts.

(* ================================================================== *)
(** ** Properties of the conversation store and the transcript         *)
(* ================================================================== *)

Module HistoryFacts.
Import Py Sqlite App Props Scenario Invariants Page.
Import OrderFacts StoreFacts ScheduleFacts ChatFacts ProfileFacts.
Local Open Scope app_scope.

Lemma load_by_db (w1 w2 : world) (p : Z) :
  db w1 = db w2 ->
  fst (load_chat_history p w1) = fst (load_chat_history p w2).
Proof. intros E. rewrite !load_chat_history_rows. cbn. now rewrite E. Qed.

Lemma filter_filter_other (p q : Z) (l : list chat_row) :
  q <> p ->
  filter (fun r => chat_profile_id r =? q)
    (filter (fun r => negb (chat_profile_id r =? p)) l)
  = filter (fun r => chat_profile_id r =? q) l.
Proof.
  intros Hq. induction l as [|r l IH]; cbn; [reflexivity|].
  destruct (Z.eqb_spec (chat_profile_id r) p) as [Hp|Hp]; cbn.
  - destruct (Z.eqb_spec (chat_profile_id r) q); [lia | exact IH].
  - now rewrite IH.
Qed.

Lemma filter_filter_same (p : Z) (l : list chat_row) :
  filter (fun r => chat_profile_id r =? p)
    (filter (fun r => negb (chat_profile_id r =? p)) l) = [].
Proof.
  induction l as [|r l IH]; cbn; [reflexivity|].
  destruct (chat_profile_id r =? p) eqn:E; cbn; [exact IH|].
  now rewrite E.
Qed.

(** X8.  Histories are kept apart: saving a turn for one profile, or
    clearing one profile's history, leaves what [load_chat_history] returns
    for every other profile unchanged; after [clear_profile_history(p)],
    which returns [True], the history of [p] is empty. *)
Theorem histories_are_separate (w : world) (p q : Z) (r c : string) :
  q <> p ->
  fst (load_chat_history q (snd (save_chat_message p r c w)))
  = fst (load_chat_history q w)
  /\ fst (load_chat_history q (snd (clear_profile_history p w)))
     = fst (load_chat_history q w)
  /\ fst (clear_profile_history p w) = true
  /\ fst (load_chat_history p (snd (clear_profile_history p w))) = [].
Proof.
  intros Hq. split.
  { destruct (save_chat_message_spec w p r c) as (d' & i & E & _ & _ & Hchat).
    rewrite E, !load_chat_history_rows. cbn [fst snd db set_db].
    unfold select_chat. rewrite Hchat, filter_app. cbn [filter chat_profile_id].
    destruct (Z.eqb_spec p q); [lia|]. now rewrite app_nil_r. }
  split.
  { rewrite !load_chat_history_rows. cbn [fst]. unfold select_chat. cbn.
    now rewrite filter_filter_other. }
  split; [reflexivity|].
  rewrite load_chat_history_rows. cbn [fst]. unfold select_chat. cbn.
  now rewrite filter_filter_same.
Qed.

Lemma histories_are_separate_witness :
  fst (load_chat_history 2
         (snd (save_chat_message 1 "user" "hello" two_profiles)))
  = fst (load_chat_history 2 two_profiles)
  /\ fst (load_chat_history 2 (snd (clear_profile_history 2 two_profiles)))
     = [].
Proof.
  assert (H : 2 <> 1) by lia.
  destruct (histories_are_separate two_profiles 1 2 "user" "hello" H)
    as (H1 & _).
  split; [exact H1|].
  assert (H' : 1 <> 2) by lia.
  now destruct (histories_are_separate two_profiles 2 1 "" "" H')
    as (_ & _ & _ & H4).
Defined.

(** A sorted list is left as it is by ORDER BY. *)
Lemma order_by_sorted_same {A} (le : A -> A -> bool) (l : list A) :
  StronglySorted (fun a b => le a b = true) l -> order_by le l = l.
Proof.
  induction 1 as [|a l Hl IH Ha]; cbn; [reflexivity|].
  unfold order_by in IH. rewrite IH.
  destruct l as [|b l]; cbn; [reflexivity|].
  inversion Ha as [|? ? Hab _]; subst. now rewrite Hab.
Qed.

Lemma sorted_filter {A} (R : A -> A -> Prop) (f : A -> bool) (l : list A) :
  StronglySorted R l -> StronglySorted R (filter f l).
Proof.
  induction 1 as [|a l Hl IH Ha]; cbn; [constructor|].
  destruct (f a); [|exact IH]. constructor; [exact IH|].
  now apply Forall_kept.
Qed.

Lemma sorted_snoc {A} (R : A -> A -> Prop) (l : list A) (x : A) :
  StronglySorted R l -> Forall (fun y => R y x) l ->
  StronglySorted R (l ++ [x]).
Proof.
  induction 1 as [|a l Hl IH Ha]; cbn; intros Hx.
  - repeat constructor.
  - inversion Hx; subst. constructor; [now apply IH|].
    apply Forall_app. split; [assumption | now repeat constructor].
Qed.

(** X9.  While the clock does not run backwards the turns sit in the table
    in the order of their timestamps, and saving a turn keeps it so; then
    [load_chat_history] returns a profile's turns in the order in which they
    were saved. *)
Theorem history_in_saving_order (w : world) (p : Z) :
  chronological (db w) ->
  no_future_turns w ->
  fst (load_chat_history p w) = map as_message (turns_of p (db w))
  /\ (forall q r c,
        chronological (db (snd (save_chat_message q r c w)))
        /\ no_future_turns (snd (save_chat_message q r c w))).
Proof.
  intros Hchron Hpast. split.
  - rewrite load_chat_history_rows. cbn [fst]. unfold select_chat, turns_of.
    rewrite order_by_sorted_same; [reflexivity|].
    apply sorted_filter.
    unfold chronological in Hchron.
    induction Hchron as [|a l Hl IH Ha]; constructor; [assumption|].
    eapply Forall_impl; [|exact Ha]. intros b Hb. now apply Z.leb_le.
  - intros q r c. split; [|now apply save_chat_message_keeps].
    destruct (save_chat_message_spec w q r c) as (d' & i & E & _ & _ & Hchat).
    rewrite E. unfold chronological. cbn [snd db set_db]. rewrite Hchat.
    apply sorted_snoc; [exact Hchron|]. exact Hpast.
Qed.

Lemma history_in_saving_order_witness :
  fst (load_chat_history 2 two_profiles)
  = map as_message (turns_of 2 (db two_profiles)).
Proof.
  assert (Hc : chronological (db two_profiles)) by repeat constructor.
  assert (Hp : no_future_turns two_profiles)
    by (repeat constructor; cbn; lia).
  exact (proj1 (history_in_saving_order two_profiles 2 Hc Hp)).
Defined.

(** *** The transcript on the page and the stored history *)

Lemma save_keeps_session (w : world) (p : Z) (r c : string) :
  let w1 := snd (save_chat_message p r c w) in
  session_messages w1 = session_messages w
  /\ current_profile_id w1 = current_profile_id w
  /\ now w1 = now w.
Proof.
  destruct (save_chat_message_spec w p r c) as (d' & i & E & _).
  rewrite E. repeat split.
Qed.

Section Transcript.
Variable SYSTEM_PROMPT : string.
Variable str_float : float -> string.

(** What the handler does to the transcript and to the stored history of
    the active profile: both grow by the user's message and, when the
    response is kept, by the response. *)
Lemma handle_chat_input_grows (w : world) (prompt : string) :
  prompt <> "" ->
  no_future_turns w ->
  let w' := snd (handle_chat_input SYSTEM_PROMPT str_float prompt w) in
  exists added,
    session_messages w' = (session_messages w ++ added)%list
    /\ fst (load_chat_history (current_profile_id w) w')
       = (fst (load_chat_history (current_profile_id w) w) ++ added)%list
    /\ current_profile_id w' = current_profile_id w
    /\ hd_error added = Some (user_says prompt)
    /\ (List.length added <= 2)%nat.
Proof.
  intros Hne Hpast w'. subst w'.
  rewrite (handle_chat_input_steps SYSTEM_PROMPT str_float w prompt Hne).
  set (pid := current_profile_id w).
  destruct (turn_saved_is_loaded_last w pid "user" prompt Hpast)
    as (w1 & E1 & Hload1).
  destruct (save_keeps_session w pid "user" prompt) as (Hs1 & Hp1 & Hn1).
  assert (Hpast1 : no_future_turns w1).
  { replace w1 with (snd (save_chat_message pid "user" prompt w))
      by now rewrite E1.
    now apply save_chat_message_keeps. }
  assert (Hsub : submitted w prompt
                 = set_messages w1 (session_messages w ++ [user_says prompt])%list).
  { unfold submitted. fold pid. rewrite E1 in *. cbn [snd] in *.
    now rewrite Hs1. }
  rewrite Hsub.
  set (sub := set_messages w1 (session_messages w ++ [user_says prompt])%list).
  destruct (stream_completion_frame
              (outbound SYSTEM_PROMPT str_float w prompt) sub)
    as (Hdb & Hnow & Hpid & Hsess).
  assert (Hpast2 : no_future_turns
                     (snd (stream_completion
                             (outbound SYSTEM_PROMPT str_float w prompt) sub))).
  { apply stream_completion_keeps. exact Hpast1. }
  destruct (stream_completion (outbound SYSTEM_PROMPT str_float w prompt) sub)
    as [full w2].
  cbn [snd] in *.
  assert (Hload2 : fst (load_chat_history pid w2)
                   = (fst (load_chat_history pid w) ++ [user_says prompt])%list).
  { rewrite (load_by_db w2 w1 pid); [exact Hload1 | now rewrite Hdb]. }
  assert (Hpid2 : current_profile_id w2 = pid).
  { rewrite Hpid. cbn. rewrite E1 in Hp1. exact Hp1. }
  assert (Hsess2 : session_messages w2
                   = (session_messages w ++ [user_says prompt])%list).
  { rewrite Hsess. reflexivity. }
  unfold finalize. destruct (persisted full).
  - destruct (turn_saved_is_loaded_last w2 pid "assistant" full Hpast2)
      as (w3 & E3 & Hload3).
    destruct (save_keeps_session w2 pid "assistant" full) as (Hs3 & Hp3 & _).
    rewrite E3 in Hs3, Hp3. cbn [snd] in Hs3, Hp3.
    unfold bind. rewrite E3. cbn [snd append_message].
    exists [user_says prompt; assistant_says full].
    split; [cbn; rewrite Hs3, Hsess2, <- app_assoc; reflexivity|].
    split.
    { rewrite (load_by_db _ w3 pid) by reflexivity.
      rewrite Hload3, Hload2, <- app_assoc. reflexivity. }
    split; [cbn; now rewrite Hp3|]. split; [reflexivity | cbn; lia].
  - exists [user_says prompt].
    assert (Hout : forall o,
              session_messages (add_output w2 o) = session_messages w2
              /\ fst (load_chat_history pid (add_output w2 o))
                 = fst (load_chat_history pid w2)
              /\ current_profile_id (add_output w2 o) = current_profile_id w2).
    { intros o. repeat split. }
    destruct (negb (truthy_str full) || negb (truthy_strip full)); cbn [snd print ret].
    + destruct (Hout (Print "Received empty or whitespace-only response from API."))
        as (H1 & H2 & H3).
      rewrite H1, H2, H3. repeat split; try assumption. cbn; lia.
    + repeat split; try assumption. cbn; lia.
Qed.

(** X10.  The handler keeps the transcript on the page equal to the stored
    history of the active profile: whatever it appends to one it appends to
    the other, in every outcome of the completion call.  (The clock
    invariant is kept as well.) *)
Theorem handler_keeps_transcript_in_sync (w : world) (prompt : string) :
  no_future_turns w ->
  in_sync w ->
  in_sync (snd (handle_chat_input SYSTEM_PROMPT str_float prompt w))
  /\ no_future_turns (snd (handle_chat_input SYSTEM_PROMPT str_float prompt w)).
Proof.
  intros Hpast Hsync. split; [|now apply handle_chat_input_keeps].
  destruct prompt as [|a prompt]; [exact Hsync|].
  assert (Hne : String a prompt <> "") by discriminate.
  destruct (handle_chat_input_grows w (String a prompt) Hne Hpast)
    as (added & Hs & Hl & Hp & _).
  unfold in_sync in *. rewrite Hp, Hs, Hl, Hsync. reflexivity.
Qed.

End Transcript.

Lemma handler_keeps_transcript_in_sync_witness :
  let w := set_client boot (Some breaking) in
  in_sync (snd (handle_chat_input "You are a coach." (fun _ => "80.0")
                  "How do I squat?" w)).
Proof.
  intros w.
  assert (Hpast : no_future_turns w) by constructor.
  assert (Hsync : in_sync w) by reflexivity.
  exact (proj1 (handler_keeps_transcript_in_sync "You are a coach."
                  (fun _ => "80.0") w "How do I squat?" Hpast Hsync)).
Defined.

Lemma load_empty_turns (w : world) (p : Z) :
  fst (load_chat_history p w) = [] -> turns_of p (db w) = [].
Proof.
  rewrite load_chat_history_rows. cbn [fst]. intros H.
  apply (f_equal (@List.length message)) in H.
  rewrite length_map in H. unfold select_chat in H.
  rewrite order_by_length in H. unfold turns_of.
  destruct (filter _ _); [reflexivity | discriminate].
Qed.

Lemma start_chat_run (profile_dict : list (Z * string)) (w : world) :
  session_messages w = [] ->
  start_chat profile_dict w
  = let pid := current_profile_id w in
    let history := fst (load_chat_history pid w) in
    match history with
    | [] =>
        match Dict.dict_get pid profile_dict with
        | None => (None, set_messages w [])
        | Some name =>
            (Some tt,
             snd (save_chat_message pid "assistant" (welcome name)
                    (set_messages w [assistant_says (welcome name)])))
        end
    | _ :: _ => (Some tt, set_messages w history)
    end.
Proof.
  intros He. unfold start_chat, bind. rewrite He. cbn [truthy_list negb].
  rewrite (load_chat_history_rows w (current_profile_id w)). cbn [fst].
  unfold set_session_messages. cbv zeta.
  destruct (map as_message (select_chat (db w) (current_profile_id w)))
    as [|m l]; cbn [truthy_list negb].
  - destruct (Dict.dict_get (current_profile_id w) profile_dict) as [name|];
      [|reflexivity].
    cbn [set_messages session_messages db now client current_profile_id
         temperature_slider sent console].
    destruct (save_chat_message (current_profile_id w) "assistant"
                (welcome name) _); reflexivity.
  - reflexivity.
Qed.

(** The three cases of the start of the chat section: a transcript that
    is not empty, an empty one that is filled, and the run that ends on
    the profile dict. *)
Lemma start_chat_cases (w : world)
    (profile_dict : list (Z * string)) :
  no_future_turns w ->
  (session_messages w <> [] -> start_chat profile_dict w = (Some tt, w))
  /\ (session_messages w = [] ->
      forall w', start_chat profile_dict w = (Some tt, w') ->
        in_sync w' /\ session_messages w' <> []
        /\ (fst (load_chat_history (current_profile_id w) w) <> [] ->
            db w' = db w)
        /\ (fst (load_chat_history (current_profile_id w) w) = [] ->
            exists name,
              Dict.dict_get (current_profile_id w) profile_dict = Some name
              /\ session_messages w' = [assistant_says (welcome name)]))
  /\ (session_messages w = [] ->
      (fst (start_chat profile_dict w) = None
       <-> fst (load_chat_history (current_profile_id w) w) = []
           /\ Dict.dict_get (current_profile_id w) profile_dict = None)
      /\ (fst (start_chat profile_dict w) = None ->
          db (snd (start_chat profile_dict w)) = db w)).
Proof.
  intros Hpast.
  set (pid := current_profile_id w).
  split.
  { intros Hne. unfold start_chat, bind.
    destruct (session_messages w); [congruence | reflexivity]. }
  assert (Hrun : session_messages w = [] ->
            start_chat profile_dict w
            = let history := fst (load_chat_history pid w) in
              match history with
              | [] =>
                  match Dict.dict_get pid profile_dict with
                  | None => (None, set_messages w [])
                  | Some name =>
                      (Some tt,
                       snd (save_chat_message pid "assistant" (welcome name)
                              (set_messages w [assistant_says (welcome name)])))
                  end
              | _ :: _ => (Some tt, set_messages w history)
              end).
  { intros He. unfold start_chat, bind. rewrite He. cbn [truthy_list negb].
    fold pid. rewrite (load_chat_history_rows w pid). cbn [fst].
    unfold set_session_messages.
    destruct (map as_message (select_chat (db w) pid)) as [|m l];
      cbn [truthy_list negb].
    - destruct (Dict.dict_get pid profile_dict) as [name|]; [|reflexivity].
      cbn [set_messages session_messages db now client current_profile_id
           temperature_slider sent console].
      destruct (save_chat_message pid "assistant" (welcome name) _);
        reflexivity.
    - reflexivity. }
  split.
  { intros He w' Hstart. rewrite (Hrun He) in Hstart. cbv zeta in Hstart.
    destruct (fst (load_chat_history pid w)) as [|m l] eqn:Hload.
    - destruct (Dict.dict_get pid profile_dict) as [name|];
        [|discriminate].
      apply (f_equal snd) in Hstart. cbn [snd] in Hstart. subst w'.
      set (w0 := set_messages w [assistant_says (welcome name)]).
      assert (Hpast0 : no_future_turns w0) by exact Hpast.
      destruct (turn_saved_is_loaded_last w0 pid "assistant" (welcome name)
                  Hpast0) as (w1 & E1 & Hl1).
      destruct (save_keeps_session w0 pid "assistant" (welcome name))
        as (Hs & Hp & _).
      rewrite E1 in *. cbn [snd] in *.
      rewrite (load_by_db w0 w pid) in Hl1 by reflexivity.
      rewrite Hload in Hl1. cbn [app] in Hl1.
      repeat split.
      + unfold in_sync. rewrite Hp, Hs. unfold w0.
        cbn [session_messages current_profile_id set_messages].
        fold pid. now rewrite Hl1.
      + rewrite Hs. discriminate.
      + congruence.
      + intros _. exists name. split; [reflexivity | exact Hs].
    - apply (f_equal snd) in Hstart. cbn [snd] in Hstart. subst w'.
      repeat split.
      + unfold in_sync. cbn. fold pid. rewrite <- Hload.
        now apply load_by_db.
      + cbn. discriminate.
      + discriminate. }
  intros He. rewrite (Hrun He). cbv zeta.
  destruct (fst (load_chat_history pid w)) as [|m l].
  - destruct (Dict.dict_get pid profile_dict) as [name|].
    + split; [|discriminate]. cbn [fst]. split; [discriminate|].
      intros [_ H]. discriminate.
    + split; [|reflexivity]. cbn [fst]. split; [now split | reflexivity].
  - split; [|discriminate]. cbn [fst]. split; [discriminate|].
    intros [H _]. discriminate.
Qed.

(** X11.  The start of the chat section.  A transcript that is not empty is
    left alone, whether or not it is the stored history: it equals the
    stored history afterwards exactly when it did before.  An empty one is
    filled from the store; when the store has no turn for the profile
    either, a welcome naming the profile is shown and stored.  When the
    section starts with an empty transcript, or with one that equals the
    stored history, and completes, the transcript is not empty and equals
    the stored history.  From an empty transcript it fails, with nothing
    stored, exactly when the history is empty and the profile id is not in
    the profile dict. *)
Theorem start_chat_fills_transcript (w : world)
    (profile_dict : list (Z * string)) :
  no_future_turns w ->
  (session_messages w <> [] -> start_chat profile_dict w = (Some tt, w))
  /\ (session_messages w <> [] ->
      (in_sync (snd (start_chat profile_dict w)) <-> in_sync w))
  /\ (session_messages w = [] \/ in_sync w ->
      forall w', start_chat profile_dict w = (Some tt, w') ->
        in_sync w' /\ session_messages w' <> [])
  /\ (session_messages w = [] ->
      forall w', start_chat profile_dict w = (Some tt, w') ->
        in_sync w' /\ session_messages w' <> []
        /\ (fst (load_chat_history (current_profile_id w) w) <> [] ->
            db w' = db w)
        /\ (fst (load_chat_history (current_profile_id w) w) = [] ->
            exists name,
              Dict.dict_get (current_profile_id w) profile_dict = Some name
              /\ session_messages w' = [assistant_says (welcome name)]))
  /\ (session_messages w = [] ->
      (fst (start_chat profile_dict w) = None
       <-> fst (load_chat_history (current_profile_id w) w) = []
           /\ Dict.dict_get (current_profile_id w) profile_dict = None)
      /\ (fst (start_chat profile_dict w) = None ->
          db (snd (start_chat profile_dict w)) = db w)).
Proof.
  intros Hpast.
  destruct (start_chat_cases w profile_dict Hpast) as (Hkept & Hfill & Hfail).
  split; [exact Hkept|]. split.
  { intros Hne. rewrite (Hkept Hne). reflexivity. }
  split; [|split; assumption].
  intros Hstart w' E.
  assert (Hdec : session_messages w = [] \/ session_messages w <> [])
    by (destruct (session_messages w); [left; reflexivity
                                       | right; discriminate]).
  destruct Hdec as [He|Hne].
  - destruct (Hfill He w' E) as (Hsync & Hshown & _). now split.
  - destruct Hstart as [He|Hsync]; [contradiction|].
    rewrite (Hkept Hne) in E. apply (f_equal snd) in E. cbn [snd] in E.
    subst w'. now split.
Qed.

Lemma start_chat_fills_transcript_witness :
  exists w',
    start_chat [(1, "Default")] boot = (Some tt, w')
    /\ session_messages w' = [assistant_says (welcome "Default")]
    /\ in_sync w'.
Proof.
  assert (Hpast : no_future_turns boot) by constructor.
  destruct (start_chat_fills_transcript boot [(1, "Default")] Hpast)
    as (_ & _ & _ & H & _).
  assert (E : start_chat [(1, "Default")] boot
              = (Some tt, snd (start_chat [(1, "Default")] boot)))
    by (vm_compute; reflexivity).
  exists (snd (start_chat [(1, "Default")] boot)). split; [exact E|].
  destruct (H eq_refl _ E) as (Hsync & _ & _ & Hw).
  split; [|exact Hsync].
  destruct (Hw eq_refl) as (name & Hn & Hs).
  injection Hn as <-. exact Hs.
Defined.

(** X12.  The "Clear History" button always succeeds; afterwards the
    transcript and the stored history of the active profile both consist of
    the one message "Chat history for '...' cleared! ...", and the
    histories of the other profiles are as before. *)
Theorem clear_button_resets (w : world) (selected_profile_name : string) :
  let w' := snd (clear_history_clicked selected_profile_name w) in
  fst (clear_history_clicked selected_profile_name w) = true
  /\ session_messages w' = [assistant_says (cleared selected_profile_name)]
  /\ fst (load_chat_history (current_profile_id w) w')
     = [assistant_says (cleared selected_profile_name)]
  /\ in_sync w'
  /\ (forall q, q <> current_profile_id w ->
        fst (load_chat_history q w') = fst (load_chat_history q w)).
Proof.
  set (pid := current_profile_id w).
  set (w1 := set_messages (set_db w (delete_chat (db w) pid))
               [assistant_says (cleared selected_profile_name)]).
  assert (Hrun : clear_history_clicked selected_profile_name w
                 = (true,
                    snd (save_chat_message pid "assistant"
                           (cleared selected_profile_name) w1))).
  { reflexivity. }
  rewrite Hrun. cbn [fst snd].
  destruct (save_chat_message_spec w1 pid "assistant"
              (cleared selected_profile_name))
    as (d' & i & E & _ & _ & Hchat).
  rewrite E. cbn [snd].
  assert (Hload : fst (load_chat_history pid (set_db w1 d'))
                  = [assistant_says (cleared selected_profile_name)]).
  { rewrite load_chat_history_rows. cbn [fst db set_db].
    unfold select_chat. rewrite Hchat, filter_app. cbn [w1 db set_db set_messages].
    cbn [chat_history delete_chat]. rewrite filter_filter_same.
    cbn. now rewrite Z.eqb_refl. }
  split; [reflexivity|]. split; [reflexivity|]. split; [exact Hload|].
  split.
  { unfold in_sync. change (current_profile_id (set_db w1 d')) with pid.
    rewrite Hload. reflexivity. }
  intros q Hq. rewrite !load_chat_history_rows. cbn [fst db set_db].
  unfold select_chat. rewrite Hchat, filter_app. cbn [w1 db set_db set_messages].
  cbn [chat_history delete_chat]. rewrite (filter_filter_other pid q _ Hq).
  cbn. destruct (Z.eqb_spec pid q); [congruence|]. now rewrite app_nil_r.
Qed.

(** The stream loop appends the text of each chunk. *)
Lemma accumulate_from (deltas : list (option string)) (acc : string) :
  fold_left (fun response_stream chunk_content =>
               if truthy_opt truthy_str chunk_content
               then response_stream ++ str_opt chunk_content
               else response_stream) deltas acc
  = acc ++ String.concat "" (map chunk_text deltas).
Proof.
  revert acc. induction deltas as [|d l IH]; intros acc.
  - cbn. now rewrite append_nil_r.
  - cbn [fold_left map]. rewrite IH, concat_empty_cons.
    destruct d as [[|a s]|]; cbn [truthy_opt truthy_str str_opt chunk_text].
    + reflexivity.
    + now rewrite append_assoc.
    + reflexivity.
Qed.

(** X13.  The text assembled from a stream is the concatenation of the
    contents of its chunks, chunks without content or with empty content
    adding nothing; assembling two streams one after the other gives the
    two texts one after the other. *)
Theorem accumulate_is_concatenation :
  (forall deltas,
     accumulate deltas = String.concat "" (map chunk_text deltas))
  /\ (forall a b, accumulate (a ++ b) = accumulate a ++ accumulate b).
Proof.
  assert (H : forall deltas,
             accumulate deltas = String.concat "" (map chunk_text deltas)).
  { intros deltas. unfold accumulate. now rewrite accumulate_from. }
  split; [exact H|].
  intros a b. unfold accumulate at 1. rewrite fold_left_app.
  rewrite accumulate_from. f_equal. now rewrite <- H.
Qed.

(** *** The schedule generator, case by case *)

Lemma generate_and_save_schedule_run (w : world) (pid : Z) :
  generate_and_save_schedule pid w
  = let d := fst (get_profile_details pid w) in
    let w0 := add_output w
                (Print ("Attempting to generate schedule for profile_id: "
                        ++ str_int pid)) in
    match client w with
    | None => (false, add_output w0 (StError "Groq client not initialized."))
    | Some c =>
        let w1 := add_sent
                    (add_output w0
                       (Print ("Sending schedule generation request for profile "
                               ++ str_int pid ++ "...")))
                    (schedule_request d) in
        match c (schedule_request d) with
        | Completion C =>
            let w2 := add_output w1
                        (Print ("Schedule content received for profile "
                                ++ str_int pid ++ ".")) in
            (true,
             add_output
               (snd (save_chat_message pid "assistant" (schedule_message C) w2))
               (Print ("Schedule saved successfully for profile "
                       ++ str_int pid ++ ".")))
        | Raise e => schedule_failed e w1
        | Streaming _ _ =>
            schedule_failed
              (OtherError "AttributeError"
                 "'Stream' object has no attribute 'choices'") w1
        end
    end.
Proof.
  unfold generate_and_save_schedule, bind at 1. cbn [print].
  unfold bind at 1.
  assert (Hd : get_profile_details pid
                 (add_output w
                    (Print ("Attempting to generate schedule for profile_id: "
                            ++ str_int pid)))
               = (fst (get_profile_details pid w),
                  add_output w
                    (Print ("Attempting to generate schedule for profile_id: "
                            ++ str_int pid)))).
  { unfold get_profile_details. cbn [db add_output].
    destruct (select_details (db w) pid); reflexivity. }
  rewrite Hd. cbv zeta. unfold bind at 1. cbn [client add_output].
  destruct (client w) as [c|]; [|reflexivity].
  unfold bind at 1. cbn [print]. unfold bind at 1. unfold create.
  destruct (c (schedule_request (fst (get_profile_details pid w))))
    as [C|ds b|e]; reflexivity.
Qed.

Lemma schedule_failed_effect (e : api_error) (w : world) :
  fst (schedule_failed e w) = false
  /\ db (snd (schedule_failed e w)) = db w
  /\ sent (snd (schedule_failed e w)) = sent w
  /\ exists text before,
       console (snd (schedule_failed e w)) = (before ++ [StError text])%list.
Proof.
  destruct e; cbn; repeat split; eexists; eexists; reflexivity.
Qed.

(** X14.  Schedule generation stores all or nothing.  Either it returns
    [False], the store is unchanged and the last thing written is an
    [st.error] message; or it returns [True] and exactly one turn has been
    added, an assistant turn of the profile, with profiles and log
    untouched.  Without a client it fails before any request is sent. *)
Theorem schedule_all_or_nothing (w : world) (pid : Z) :
  let r := generate_and_save_schedule pid w in
  ((fst r = false
    /\ db (snd r) = db w
    /\ exists text before, console (snd r) = (before ++ [StError text])%list)
   \/ (fst r = true
       /\ exists row,
            chat_history (db (snd r)) = (chat_history (db w) ++ [row])%list
            /\ chat_profile_id row = pid
            /\ role row = "assistant"
            /\ user_profile (db (snd r)) = user_profile (db w)
            /\ workout_log (db (snd r)) = workout_log (db w)))
  /\ (client w = None -> fst r = false /\ sent (snd r) = sent w).
Proof.
  cbv zeta. rewrite generate_and_save_schedule_run. cbv zeta.
  destruct (client w) as [c|].
  - split; [|discriminate].
    destruct (c _) as [C|ds b|e].
    + right. cbn [fst snd]. split; [reflexivity|].
      match goal with
      | |- context [save_chat_message pid "assistant" ?m ?w0] =>
          destruct (save_chat_message_spec w0 pid "assistant" m)
            as (d' & i & E & Hp & Hl & Hchat); rewrite E
      end.
      eexists. cbn [snd db add_output set_db]. split; [exact Hchat|].
      repeat split; assumption.
    + left. destruct (schedule_failed_effect
                        (OtherError "AttributeError"
                           "'Stream' object has no attribute 'choices'")
                        (add_sent
                           (add_output
                              (add_output w
                                 (Print ("Attempting to generate schedule for profile_id: "
                                         ++ str_int pid)))
                              (Print ("Sending schedule generation request for profile "
                                      ++ str_int pid ++ "...")))
                           (schedule_request (fst (get_profile_details pid w)))))
        as (H1 & H2 & _ & H4).
      split; [exact H1|]. split; [exact H2 | exact H4].
    + left. destruct (schedule_failed_effect e
                        (add_sent
                           (add_output
                              (add_output w
                                 (Print ("Attempting to generate schedule for profile_id: "
                                         ++ str_int pid)))
                              (Print ("Sending schedule generation request for profile "
                                      ++ str_int pid ++ "...")))
                           (schedule_request (fst (get_profile_details pid w)))))
        as (H1 & H2 & _ & H4).
      split; [exact H1|]. split; [exact H2 | exact H4].
  - split; [|intros _; split; reflexivity].
    left. cbn. repeat split. eexists. eexists. reflexivity.
Qed.

(** X15.  After the "Regenerate Schedule Suggestion" button has produced a
    schedule, the next run of the chat section shows the stored history of
    the profile, and its last message is the new schedule. *)
Theorem regenerated_schedule_is_shown (w : world) (c : groq) (C : string)
    (profile_dict : list (Z * string)) :
  no_future_turns w ->
  client w = Some c ->
  c (schedule_request (fst (get_profile_details (current_profile_id w) w)))
  = Completion C ->
  exists w1 w2,
    regenerate_clicked w = (true, w1)
    /\ start_chat profile_dict w1 = (Some tt, w2)
    /\ session_messages w2
       = (fst (load_chat_history (current_profile_id w) w)
          ++ [assistant_says (schedule_message C)])%list
    /\ in_sync w2.
Proof.
  intros Hpast Hc Hreply.
  set (pid := current_profile_id w) in *.
  pose proof (generate_and_save_schedule_run w pid) as Hrun.
  cbv zeta in Hrun. rewrite Hc, Hreply in Hrun.
  match type of Hrun with
  | context [save_chat_message pid "assistant" ?m ?w0] =>
      set (wa := w0) in *
  end.
  assert (Hpa : no_future_turns wa) by exact Hpast.
  destruct (turn_saved_is_loaded_last wa pid "assistant" (schedule_message C) Hpa)
    as (wb & Eb & Hlb).
  destruct (save_keeps_session wa pid "assistant" (schedule_message C))
    as (_ & Hpb & _).
  rewrite Eb in Hrun, Hpb. cbn [snd] in Hrun, Hpb.
  rewrite (load_by_db wa w pid) in Hlb by reflexivity.
  set (wc := add_output wb
               (Print ("Schedule saved successfully for profile "
                       ++ str_int pid ++ "."))) in *.
  set (w1 := set_messages wc []).
  assert (Hreg : regenerate_clicked w = (true, w1)).
  { unfold regenerate_clicked, bind. fold pid. rewrite Hrun. reflexivity. }
  assert (Hp1 : current_profile_id w1 = pid) by exact Hpb.
  assert (Hl1 : fst (load_chat_history pid w1)
                = (fst (load_chat_history pid w)
                   ++ [assistant_says (schedule_message C)])%list).
  { rewrite (load_by_db w1 wb pid) by reflexivity. exact Hlb. }
  exists w1, (set_messages w1 (fst (load_chat_history pid w1))).
  split; [exact Hreg|]. split.
  { rewrite (start_chat_run profile_dict w1 eq_refl). cbv zeta.
    rewrite Hp1, Hl1.
    destruct (fst (load_chat_history pid w)); reflexivity. }
  split; [exact Hl1|].
  unfold in_sync. cbn [session_messages set_messages current_profile_id].
  change (current_profile_id wc) with (current_profile_id w1). rewrite Hp1.
  now apply load_by_db.
Qed.

Lemma regenerated_schedule_is_shown_witness :
  exists w1 w2,
    regenerate_clicked (set_client two_profiles (Some answering)) = (true, w1)
    /\ start_chat [(1, "Default"); (2, "Bob")] w1 = (Some tt, w2)
    /\ session_messages w2 = [assistant_says (schedule_message "Week 1 plan...")].
Proof.
  assert (Hpast : no_future_turns (set_client two_profiles (Some answering)))
    by (repeat constructor; cbn; lia).
  destruct (regenerated_schedule_is_shown
              (set_client two_profiles (Some answering)) answering
              "Week 1 plan..." [(1, "Default"); (2, "Bob")] Hpast eq_refl
              eq_refl) as (w1 & w2 & H1 & H2 & H3 & _).
  exists w1, w2. repeat split; assumption.
Defined.

(** *** The clock invariant, everywhere *)

Lemma set_session_messages_keeps (l : list message) :
  keeps_turns_in_past (set_session_messages l).
Proof. intros w H. exact H. Qed.

Lemma start_chat_keeps (profile_dict : list (Z * string)) :
  keeps_turns_in_past (start_chat profile_dict).
Proof.
  unfold start_chat.
  apply keeps_bind; [apply (keeps_read session_messages)|]. intros shown.
  destruct (negb (truthy_list shown)); [|apply keeps_ret].
  apply keeps_bind; [apply (keeps_read current_profile_id)|]. intros pid.
  apply keeps_bind; [apply load_chat_history_keeps|]. intros history.
  apply keeps_bind; [apply set_session_messages_keeps|]. intros _.
  destruct (negb (truthy_list history)); [|apply keeps_ret].
  destruct (Dict.dict_get pid profile_dict) as [name|]; [|apply keeps_ret].
  cbv zeta.
  apply keeps_bind; [apply set_session_messages_keeps|]. intros _.
  apply keeps_bind; [apply save_chat_message_keeps|]. intros _.
  apply keeps_ret.
Qed.

Lemma clear_history_clicked_keeps (name : string) :
  keeps_turns_in_past (clear_history_clicked name).
Proof.
  unfold clear_history_clicked.
  apply keeps_bind; [apply (keeps_read current_profile_id)|]. intros pid.
  apply keeps_bind; [apply clear_profile_history_keeps|]. intros [|].
  - cbv zeta.
    apply keeps_bind; [apply set_session_messages_keeps|]. intros _.
    apply keeps_bind; [apply save_chat_message_keeps|]. intros _.
    apply keeps_ret.
  - apply keeps_bind; [apply keeps_st_error | intros _; apply keeps_ret].
Qed.

Lemma regenerate_clicked_keeps : keeps_turns_in_past regenerate_clicked.
Proof.
  unfold regenerate_clicked.
  apply keeps_bind; [apply (keeps_read current_profile_id)|]. intros pid.
  apply keeps_bind; [apply generate_and_save_schedule_keeps|]. intros [|].
  - apply keeps_bind; [apply set_session_messages_keeps | intros _; apply keeps_ret].
  - apply keeps_ret.
Qed.

(** X21.  No stored turn is ever stamped later than the clock reads: this
    holds in the freshly initialised store and is kept by the passing of
    time, by every store function, by the schedule generator, by the chat
    handler and by the page's start-up and buttons. *)
Theorem turns_never_in_the_future (w : world) :
  no_future_turns w ->
  (forall n, no_future_turns (elapse n w))
  /\ no_future_turns (snd (init_db w))
  /\ (forall name, no_future_turns (snd (create_profile name w)))
  /\ (forall p, no_future_turns (snd (delete_profile p w)))
  /\ (forall p r c, no_future_turns (snd (save_chat_message p r c w)))
  /\ (forall p, no_future_turns (snd (clear_profile_history p w)))
  /\ (forall p t n x, no_future_turns (snd (log_entry p t n x w)))
  /\ (forall p, no_future_turns (snd (generate_and_save_schedule p w)))
  /\ (forall sp sf prompt,
        no_future_turns (snd (handle_chat_input sp sf prompt w)))
  /\ (forall pd, no_future_turns (snd (start_chat pd w)))
  /\ (forall name, no_future_turns (snd (clear_history_clicked name w)))
  /\ no_future_turns (snd (regenerate_clicked w)).
Proof.
  intros H.
  split; [intros n; now apply elapse_keeps|].
  split; [now apply init_db_keeps|].
  split; [intros; now apply create_profile_keeps|].
  split; [intros; now apply delete_profile_keeps|].
  split; [intros; now apply save_chat_message_keeps|].
  split; [intros; now apply clear_profile_history_keeps|].
  split; [intros; now apply log_entry_keeps|].
  split; [intros; now apply generate_and_save_schedule_keeps|].
  split; [intros; now apply handle_chat_input_keeps|].
  split; [intros; now apply start_chat_keeps|].
  split; [intros; now apply clear_history_clicked_keeps|].
  now apply regenerate_clicked_keeps.
Qed.

Lemma turns_never_in_the_future_witness :
  no_future_turns boot
  /\ no_future_turns
       (snd (save_chat_message 1 "user" "hello" (elapse 3 boot))).
Proof.
  assert (H0 : no_future_turns boot) by constructor.
  split; [exact H0|].
  destruct (turns_never_in_the_future boot H0) as (He & _).
  destruct (turns_never_in_the_future (elapse 3 boot) (He 3%N))
    as (_ & _ & _ & _ & Hs & _).
  apply Hs.
Defined.

End HistoryFacts.

(* ================================================================== *)
(** ** Properties of dicts, the activity log and the option lists      *)
(* ================================================================== *)

Module LogFacts.
Import Py Sqlite App Props Scenario Invariants Dict Logs Page.
Import OrderFacts StoreFacts ProfileFacts HistoryFacts.
Local Open Scope app_scope.

(** *** Dicts *)

Lemma dict_get_set {V} (k k' : Z) (v : V) (d : list (Z * V)) :
  dict_get k' (dict_set k v d)
  = if k =? k' then Some v else dict_get k' d.
Proof.
  induction d as [|[k0 v0] d IH]; cbn.
  - destruct (k =? k'); reflexivity.
  - destruct (Z.eqb_spec k0 k) as [->|Hk]; cbn.
    + destruct (k =? k'); reflexivity.
    + rewrite IH. destruct (Z.eqb_spec k0 k') as [->|Hk'];
        [|reflexivity].
      destruct (Z.eqb_spec k k'); [congruence | reflexivity].
Qed.

Lemma keys_set {V} (k : Z) (v : V) (d : list (Z * V)) :
  keys (dict_set k v d)
  = if existsb (fun x => x =? k) (keys d) then keys d
    else (keys d ++ [k])%list.
Proof.
  unfold keys. induction d as [|[k0 v0] d IH]; cbn; [reflexivity|].
  destruct (k0 =? k); cbn; [reflexivity|].
  rewrite IH. destruct (existsb _ _); reflexivity.
Qed.

Lemma in_dict_set {V} (kv : Z * V) (k : Z) (v : V) (d : list (Z * V)) :
  In kv (dict_set k v d) -> kv = (k, v) \/ In kv d.
Proof.
  induction d as [|[k0 v0] d IH]; cbn.
  - intros [<-|[]]. now left.
  - destruct (Z.eqb_spec k0 k) as [->|Hk]; cbn.
    + intros [<-|H]; [now left | right; now right].
    + intros [<-|H]; [right; now left|].
      destruct (IH H); [now left | right; now right].
Qed.

Lemma in_dict_fold {V} (kv : Z * V) (l acc : list (Z * V)) :
  In kv (fold_left (fun d x => dict_set (fst x) (snd x) d) l acc) ->
  In kv l \/ In kv acc.
Proof.
  revert acc. induction l as [|[k v] l IH]; cbn; intros acc H; [now right|].
  apply IH in H. destruct H as [H|H]; [left; now right|].
  apply in_dict_set in H. destruct H as [->|H]; [left; now left | now right].
Qed.

Lemma keys_fold_cover {V} (k : Z) (l acc : list (Z * V)) :
  In k (map fst l) \/ In k (keys acc) ->
  In k (keys (fold_left (fun d x => dict_set (fst x) (snd x) d) l acc)).
Proof.
  revert acc. induction l as [|[k0 v0] l IH]; cbn; intros acc H.
  - destruct H as [[]|H]; exact H.
  - apply IH. rewrite keys_set.
    destruct (existsb (fun x => x =? k0) (keys acc)) eqn:Ex.
    + destruct H as [[<-|H]|H]; [|now left | now right].
      right. apply existsb_exists in Ex. destruct Ex as (x & Hx & Hxk).
      apply Z.eqb_eq in Hxk. now subst.
    + destruct H as [[<-|H]|H]; [|now left|].
      * right. apply in_or_app. right. now left.
      * right. apply in_or_app. now left.
Qed.

Lemma find_snoc {A} (f : A -> bool) (l : list A) (a : A) :
  find f (l ++ [a])
  = match find f l with
    | Some x => Some x
    | None => if f a then Some a else None
    end.
Proof.
  induction l as [|b l IH]; cbn; [reflexivity|].
  destruct (f b); [reflexivity | exact IH].
Qed.

(** Looking a key up after a run of assignments gives the value of the last
    assignment to it. *)
Lemma dict_get_fold {V} (k : Z) (l acc : list (Z * V)) :
  dict_get k (fold_left (fun d x => dict_set (fst x) (snd x) d) l acc)
  = match find (fun kv => fst kv =? k) (rev l) with
    | Some kv => Some (snd kv)
    | None => dict_get k acc
    end.
Proof.
  revert acc. induction l as [|[k0 v0] l IH]; intros acc; [reflexivity|].
  cbn [fold_left rev]. rewrite IH, find_snoc.
  destruct (find _ (rev l)); [reflexivity|].
  cbn [fst snd]. rewrite dict_get_set.
  destruct (k0 =? k); reflexivity.
Qed.

Lemma keys_fold_sorted {V} (l acc : list (Z * V)) :
  StronglySorted (fun a b => fst a <= fst b) l ->
  StronglySorted Z.lt (keys acc) ->
  Forall (fun k => Forall (fun x => k <= fst x) l) (keys acc) ->
  StronglySorted Z.lt
    (keys (fold_left (fun d x => dict_set (fst x) (snd x) d) l acc)).
Proof.
  intros Hl. revert acc.
  induction Hl as [|[k v] l Hl IH Hk]; intros acc Hacc Hbound;
    [exact Hacc|].
  cbn [fold_left fst snd]. apply IH.
  - rewrite keys_set.
    destruct (existsb (fun x => x =? k) (keys acc)) eqn:Ex; [exact Hacc|].
    apply sorted_snoc; [exact Hacc|].
    apply Forall_forall. intros x Hx.
    assert (Hle : x <= k).
    { rewrite Forall_forall in Hbound. specialize (Hbound x Hx).
      inversion Hbound; subst. assumption. }
    assert (Hne : x <> k).
    { intros ->. assert (existsb (fun y => y =? k) (keys acc) = true).
      { apply existsb_exists. exists k. split; [exact Hx | apply Z.eqb_refl]. }
      congruence. }
    lia.
  - rewrite keys_set.
    assert (Hold : Forall (fun k0 => Forall (fun x => k0 <= fst x) l) (keys acc)).
    { eapply Forall_impl; [|exact Hbound]. cbn. intros a Ha.
      now inversion Ha. }
    destruct (existsb _ _); [exact Hold|].
    apply Forall_app. split; [exact Hold|].
    constructor; [|constructor]. exact Hk.
Qed.

(** *** Weight history *)

Lemma in_weighed (p : Z) (r : log_row) (t : timestamp) (x : float) :
  In (t, x) (weighed p r)
  <-> log_profile_id r = p /\ log_timestamp r = t /\ log_weight_kg r = Some x.
Proof.
  unfold weighed. destruct (Z.eqb_spec (log_profile_id r) p) as [Hp|Hp].
  - destruct (log_weight_kg r) as [y|]; cbn.
    + split.
      * intros [H|[]]. injection H as <- <-. auto.
      * intros (_ & <- & H). injection H as <-. now left.
    + split; [intros [] | intros (_ & _ & H); discriminate].
  - cbn. split; [intros [] | intros (H & _); contradiction].
Qed.

Lemma select_weight_history_sorted (d : database) (p : Z) :
  StronglySorted (fun a b => fst a <= fst b) (select_weight_history d p).
Proof.
  assert (S : StronglySorted
                (fun a b : timestamp * float => (fst a <=? fst b) = true)
                (select_weight_history d p)).
  { apply order_by_sorted.
    - intros a b. rewrite !Z.leb_le. lia.
    - intros a b c. rewrite !Z.leb_le. lia. }
  induction S as [|a l Hl IH Ha]; constructor; [assumption|].
  eapply Forall_impl; [|exact Ha]. intros b Hb. now apply Z.leb_le in Hb.
Qed.

(** X16.  The weight history of a profile has one entry per second at which
    a weight was logged, in strictly ascending order of time.  Every entry
    is the weight of a log row of that profile, every such row's second
    is present, and where several rows share a second the entry holds the
    weight of the last of them in the order of the query. *)
Theorem weight_history_by_second (w : world) (p : Z) :
  exists history,
    get_weight_history p w = (history, w)
    /\ StronglySorted Z.lt (keys history)
    /\ (forall t x,
          In (t, x) history ->
          exists r, In r (workout_log (db w)) /\ log_profile_id r = p
                    /\ log_timestamp r = t /\ log_weight_kg r = Some x)
    /\ (forall r x,
          In r (workout_log (db w)) -> log_profile_id r = p ->
          log_weight_kg r = Some x -> In (log_timestamp r) (keys history))
    /\ (forall t,
          dict_get t history
          = option_map snd
              (find (fun kv => fst kv =? t)
                 (rev (select_weight_history (db w) p)))).
Proof.
  exists (dict_of (select_weight_history (db w) p)).
  split.
  { unfold get_weight_history, bind, execute. cbn. now rewrite set_db_same. }
  assert (Hperm : Permutation (select_weight_history (db w) p)
                    (flat_map (weighed p) (workout_log (db w))))
    by apply order_by_perm.
  split.
  { unfold dict_of. apply keys_fold_sorted.
    - apply select_weight_history_sorted.
    - constructor.
    - constructor. }
  split.
  { intros t x Hin. unfold dict_of in Hin. apply in_dict_fold in Hin.
    destruct Hin as [Hin|[]].
    apply (Permutation_in _ Hperm) in Hin. apply in_flat_map in Hin.
    destruct Hin as (r & Hr & Hrx). exists r. split; [exact Hr|].
    now apply in_weighed. }
  split.
  { intros r x Hr Hp Hx. unfold dict_of. apply keys_fold_cover. left.
    apply in_map_iff. exists (log_timestamp r, x). split; [reflexivity|].
    apply (Permutation_in _ (Permutation_sym Hperm)).
    apply in_flat_map. exists r. split; [exact Hr|]. now apply in_weighed. }
  intros t. unfold dict_of. rewrite dict_get_fold.
  destruct (find _ _); reflexivity.
Qed.

(** *** Recent log entries *)

Lemma sorted_app_inv {A} (R : A -> A -> Prop) (l1 l2 : list A) :
  StronglySorted R (l1 ++ l2) ->
  StronglySorted R l1 /\ StronglySorted R l2
  /\ (forall a b, In a l1 -> In b l2 -> R a b).
Proof.
  induction l1 as [|x l1 IH]; cbn; intros H.
  - repeat split; [constructor | exact H | intros a b []].
  - inversion H as [|? ? Hs Hx]; subst.
    destruct (IH Hs) as (H1 & H2 & H3).
    apply Forall_app in Hx. destruct Hx as [Hx1 Hx2].
    repeat split; [now constructor | exact H2 |].
    intros a b [<-|Ha] Hb; [|now apply H3].
    rewrite Forall_forall in Hx2. now apply Hx2.
Qed.

Lemma recent_sorted (d : database) (p : Z) :
  StronglySorted (fun a b => log_timestamp b <= log_timestamp a)
    (order_by newest_first (filter (of_profile p) (workout_log d))).
Proof.
  assert (S : StronglySorted (fun a b => newest_first a b = true)
                (order_by newest_first (filter (of_profile p) (workout_log d)))).
  { apply order_by_sorted; unfold newest_first.
    - intros a b. rewrite !Z.leb_le. lia.
    - intros a b c. rewrite !Z.leb_le. lia. }
  induction S as [|a l Hl IH Ha]; constructor; [assumption|].
  eapply Forall_impl; [|exact Ha]. intros b Hb. now apply Z.leb_le in Hb.
Qed.

(** X17.  [get_recent_logs] changes nothing and returns entries of the
    profile only, newest first; every entry it leaves out is at most as
    recent as every entry it returns.  With a limit of zero or more it
    returns that many entries, or all the profile has if those are fewer; a
    negative limit returns them all. *)
Theorem recent_logs_newest_first (w : world) (p limit : Z) :
  exists rows rest,
    get_recent_logs p limit w = (map as_tuple rows, w)
    /\ Permutation (rows ++ rest)
         (filter (of_profile p) (workout_log (db w)))
    /\ StronglySorted (fun a b => log_timestamp b <= log_timestamp a) rows
    /\ (forall a b, In a rows -> In b rest ->
                    log_timestamp b <= log_timestamp a)
    /\ (0 <= limit ->
        List.length rows
        = Nat.min (Z.to_nat limit)
            (List.length (filter (of_profile p) (workout_log (db w)))))
    /\ (limit < 0 -> rest = []).
Proof.
  set (sorted := order_by newest_first
                   (filter (of_profile p) (workout_log (db w)))).
  assert (Hs : StronglySorted (fun a b => log_timestamp b <= log_timestamp a)
                 sorted) by apply recent_sorted.
  assert (Hp : Permutation sorted (filter (of_profile p) (workout_log (db w))))
    by apply order_by_perm.
  assert (Hrun : forall rows,
            select_recent_logs (db w) p limit = rows ->
            get_recent_logs p limit w = (map as_tuple rows, w)).
  { intros rows <-. unfold get_recent_logs, bind, execute. cbn.
    now rewrite set_db_same. }
  destruct (Z.ltb_spec limit 0) as [Hneg|Hpos].
  - exists sorted, []. split.
    { apply Hrun. unfold select_recent_logs, limit_rows.
      destruct (Z.ltb_spec limit 0); [reflexivity | lia]. }
    rewrite app_nil_r. repeat split; try assumption.
    + intros a b _ [].
    + lia.
  - exists (firstn (Z.to_nat limit) sorted), (skipn (Z.to_nat limit) sorted).
    split.
    { apply Hrun. unfold select_recent_logs, limit_rows.
      destruct (Z.ltb_spec limit 0); [lia | reflexivity]. }
    rewrite firstn_skipn.
    pose proof Hs as Hs'. rewrite <- (firstn_skipn (Z.to_nat limit) sorted) in Hs'.
    destruct (sorted_app_inv _ _ _ Hs') as (H1 & _ & H3).
    repeat split; try assumption.
    + intros _. rewrite length_firstn. f_equal.
      unfold sorted. apply order_by_length.
    + lia.
Qed.

Lemma order_by_newest_last {A} (le : A -> A -> bool) (x : A) (l s : list A) :
  Forall (fun y => le y x = false) l ->
  fold_right (insert_by le) (x :: s) l
  = x :: fold_right (insert_by le) s l.
Proof.
  induction 1 as [|y l Hy Hl IH]; cbn; [reflexivity|].
  rewrite IH. cbn. now rewrite Hy.
Qed.

(** X18.  An entry logged at a time later than all earlier entries of the
    profile comes first in [get_recent_logs], followed by what the most
    recent entries were before, one fewer of them.  Its weight is what the
    REAL column holds: a NaN is read back as [None], a negative zero as
    0.0, every other float as written; so the weight the page logs, [None]
    or a float greater than zero, is read back exactly. *)
Theorem logged_entry_comes_first (w : world) (p : Z) (type_ : string)
    (notes_ : option string) (weight : option float) (limit : Z) :
  1 <= limit ->
  Forall (fun r => log_profile_id r = p -> log_timestamp r < now w)
         (workout_log (db w)) ->
  exists w1,
    log_entry p type_ notes_ weight w = (true, w1)
    /\ fst (get_recent_logs p limit w1)
       = (now w, type_, notes_, real_column weight)
         :: fst (get_recent_logs p (limit - 1) w)
    /\ ((exists x, weight = save_weight_value type_ x) ->
        fst (get_recent_logs p limit w1)
        = (now w, type_, notes_, weight)
          :: fst (get_recent_logs p (limit - 1) w)).
Proof.
  intros Hlim Hold.
  set (row := {| log_id := next_rowid (seq_workout_log (db w))
                             (map log_id (workout_log (db w)));
                 log_profile_id := p; log_timestamp := now w;
                 log_type := type_; notes := notes_;
                 log_weight_kg := real_column weight |}).
  eexists. split; [reflexivity|].
  assert (Hfirst :
    fst (get_recent_logs p limit
           (snd (log_entry p type_ notes_ weight w)))
    = (now w, type_, notes_, real_column weight)
      :: fst (get_recent_logs p (limit - 1) w)).
  { unfold get_recent_logs, log_entry, bind, execute, insert_log.
    cbn [foreign_keys connect andb fst snd ret db set_db].
    unfold select_recent_logs, limit_rows.
    destruct (Z.ltb_spec limit 0); [lia|].
    destruct (Z.ltb_spec (limit - 1) 0); [lia|].
    cbn [workout_log]. rewrite filter_app.
    cbn [filter of_profile log_profile_id].
    fold row. unfold of_profile at 2. cbn [log_profile_id row].
    rewrite Z.eqb_refl.
    unfold order_by. rewrite fold_right_app. cbn [fold_right insert_by].
    rewrite order_by_newest_last.
    - replace (Z.to_nat limit) with (S (Z.to_nat (limit - 1))) by lia.
      reflexivity.
    - apply Forall_forall. intros y Hy. apply filter_In in Hy.
      destruct Hy as [Hy Hyp]. rewrite Forall_forall in Hold.
      apply Z.eqb_eq in Hyp. specialize (Hold y Hy Hyp).
      unfold newest_first. cbn. apply Z.leb_gt. exact Hold. }
  split; [exact Hfirst|].
  intros [x ->]. rewrite <- (real_column_save_weight_value type_ x) at 2.
  exact Hfirst.
Qed.

Lemma logged_entry_comes_first_witness :
  fst (get_recent_logs 2 10
         (snd (log_entry 2 "Weigh-in" (Some "after the run")
                 (Some PrimFloat.neg_zero) two_profiles)))
  = (1005, "Weigh-in", Some "after the run", Some 0%float)
    :: fst (get_recent_logs 2 9 two_profiles).
Proof.
  assert (H1 : 1 <= 10) by lia.
  assert (H2 : Forall (fun r => log_profile_id r = 2 ->
                                log_timestamp r < now two_profiles)
                      (workout_log (db two_profiles))).
  { repeat constructor. }
  destruct (logged_entry_comes_first two_profiles 2 "Weigh-in"
              (Some "after the run") (Some PrimFloat.neg_zero) 10 H1 H2)
    as (w1 & E & H & _).
  rewrite E. exact H.
Defined.

(** *** Option lists *)

Lemma index_of_some (v : string) (options : list string) (i : nat) :
  index_of v options = Some i ->
  nth_error options i = Some v
  /\ (forall j, (j < i)%nat -> nth_error options j <> Some v).
Proof.
  revert i. induction options as [|o l IH]; cbn; intros i H; [discriminate|].
  destruct (String.eqb_spec o v) as [->|Hne].
  - injection H as <-. split; [reflexivity | intros j Hj; lia].
  - destruct (index_of v l) as [k|]; [|discriminate].
    injection H as <-. destruct (IH k eq_refl) as [H1 H2].
    split; [exact H1|]. intros [|j] Hj; cbn; [congruence|].
    apply H2. lia.
Qed.

Lemma index_of_none (v : string) (options : list string) :
  index_of v options = None <-> ~ In v options.
Proof.
  induction options as [|o l IH]; cbn; [tauto|].
  destruct (String.eqb_spec o v) as [->|Hne].
  - split; [discriminate | intros H; exfalso; apply H; now left].
  - destruct (index_of v l) as [k|]; cbn.
    + split; [discriminate|]. intros H. exfalso.
      assert (Hin : In v l).
      { destruct (in_dec string_dec v l) as [Hin|Hin]; [exact Hin|].
        apply IH in Hin. discriminate. }
      apply H. now right.
    + split; [|reflexivity]. intros _ [H|H]; [congruence|].
      now apply (proj1 IH).
Qed.

(** X19.  [get_option_index] returns the position of the first occurrence
    of the value in the options; it returns the default when the value is
    [None] or not among the options; and on options without repetition it
    gives back the position an option was taken from. *)
Theorem option_index_round_trip (options : list string) (default : nat) :
  (forall v, In v options ->
     nth_error options (get_option_index options (Some v) default) = Some v
     /\ (forall j, (j < get_option_index options (Some v) default)%nat ->
                   nth_error options j <> Some v))
  /\ (forall v, ~ In v options ->
        get_option_index options (Some v) default = default)
  /\ get_option_index options None default = default
  /\ (NoDup options ->
      forall i v, nth_error options i = Some v ->
                  get_option_index options (Some v) default = i).
Proof.
  assert (Hin : forall v, In v options ->
            nth_error options (get_option_index options (Some v) default)
            = Some v
            /\ (forall j, (j < get_option_index options (Some v) default)%nat ->
                          nth_error options j <> Some v)).
  { intros v Hv. unfold get_option_index.
    destruct (index_of v options) as [i|] eqn:E.
    - now apply index_of_some.
    - apply index_of_none in E. contradiction. }
  split; [exact Hin|]. split.
  { intros v Hv. unfold get_option_index.
    apply index_of_none in Hv. now rewrite Hv. }
  split; [reflexivity|].
  intros Hnd i v Hi.
  assert (Hv : In v options) by (eapply nth_error_In; eauto).
  destruct (Hin v Hv) as [H1 H2].
  set (k := get_option_index options (Some v) default) in *.
  apply (proj1 (NoDup_nth_error options) Hnd).
  - apply nth_error_Some. congruence.
  - congruence.
Qed.

(** The three option lists of the page have no repeated entry. *)
Lemma page_options_distinct :
  NoDup experience_options /\ NoDup sex_options /\ NoDup activity_options.
Proof.
  repeat split; repeat constructor; cbn; intuition discriminate.
Qed.

End LogFacts.
